(** * Statistical anomaly detection engine: a shallow embedding

    This development embeds the anomaly-detection module of the
    financial-risk analytics repository
    ([analytics/src/anomaly_detection.py], with [calculate_z_score] and
    [save_output] of [analytics/src/utils.py] and [main] of
    [analytics/run_analytics.py]) and proves properties of it.  The two
    checks of [utils.py] that stand on their own, [calculate_variance]
    and [validate_dataframe], are embedded as well.

    Numbers.  The Python code computes on IEEE doubles.  There are two
    embeddings of its arithmetic.

    - Exact (modules [Float], [Utils], [AnomalyDetection]): a data cell is
      a rational or NaN, and a derived cell (a standard deviation or a
      z-score) is a rational divided by the square root of a positive
      rational, kept symbolic, so that every comparison the code makes is
      decided exactly ([Qred] only brings a fraction to lowest terms).
      NaN, the infinities of a division by zero, pandas' skipping of NaN
      in reductions, its sample standard deviation ([ddof=1]) and the
      failing comparisons against NaN are modelled; rounding is not.  It
      carries the statements that do not depend on the value of a score:
      what is read, assigned, selected, sorted, written and raised; and
      the statements that are about the real-number value of a score.
      Module [DenotationFacts] relates the symbolic values and their
      comparisons to the real numbers.

    - Doubles (modules [Binary64], [Doubles], [Variance]): binary64 with
      round-to-nearest-even, from the Standard Library's [SpecFloat];
      [numpy]'s pairwise summation; pandas' mean (the sum of the
      zero-filled array over the count) and its two-pass variance.  It
      carries the statements that depend on the computed value of a
      score.  A double written to a table is stored as the rational it
      stands for, so that both embeddings share the tables and the
      flagging, labelling and sorting code; the sign of a zero is not
      stored, and no comparison the code makes depends on it.  pandas
      computes a rolling mean and a rolling deviation by an online update
      from window to window; here each window is computed afresh by the
      same mean and two-pass variance, which can differ from pandas in the
      last bits.  What is proved of the time-series detector on doubles
      does not depend on how the mean and the deviation of a full window
      are computed, except on the two concrete series of [DoubleCases],
      where both computations give the same deviation: 0 by underflow in
      the one, exactly 1 in the other.

    Tables.  A DataFrame is its column names and its rows, both in order;
    a row carries its index label and its cells.  Every Series the code
    assigns to a frame was computed from that frame, so assignment is
    positional.

    Effects.  The cross-sectional detectors assign new columns to the
    DataFrame object they are given, and every function may raise.  Both are
    modelled by a state-and-exception monad whose state is the caller's
    object.  A file written by [save_output] is its name and the table
    written, appended to the list of files written so far.

    Left out: what [AnalyticsLogger] prints; the text of the CSV files;
    the order pandas' default sort, which is not stable, gives to equal
    keys (the embedding keeps them in input order); integer columns
    (every number is a float). *)

From Stdlib Require Import QArith Qabs Lqa.
From Stdlib Require Reals Qreals Lra.
From Stdlib Require SpecFloat.
From stdpp Require Import gmap strings list sorting.

(** ** Floating-point cells *)

Module Float.

Local Open Scope Q_scope.

(** A data value: [None] is NaN. *)
Definition num : Type := option Q.

(** A derived value.  [SFin d v] stands for [d / sqrt v] with [0 < v];
    a rational [q] is [SFin q 1]. *)
Inductive surd : Type :=
  | SNaN
  | SInf (neg : bool)
  | SFin (d v : Q).

Definition Qlt_bool (x y : Q) : bool := negb (Qle_bool y x).

(** [x * |x|], the square that keeps the sign: strictly monotone. *)
Definition ssq (x : Q) : Q := x * Qabs x.

Definition of_Q (q : Q) : surd := SFin q 1.

Definition of_num (x : num) : surd :=
  match x with Some q => of_Q q | None => SNaN end.

Definition is_nan (s : surd) : bool :=
  match s with SNaN => true | _ => false end.

(** [numpy.sqrt] of a variance. *)
Definition sqrt_num (x : num) : surd :=
  match x with
  | None => SNaN
  | Some v =>
      if Qlt_bool v 0 then SNaN
      else if Qeq_bool v 0 then SFin 0 1
      else SFin v v
  end.

(** [s == 0] on floats: false on NaN. *)
Definition surd_eq0 (s : surd) : bool :=
  match s with
  | SFin d _ => Qeq_bool d 0
  | _ => false
  end.

(** [x - y] on data values. *)
Definition nsub (x y : num) : num :=
  match x, y with
  | Some a, Some b => Some (Qred (a - b))
  | _, _ => None
  end.

(** [x / s], float division: a zero divisor gives NaN for [0 / 0] and an
    infinity otherwise. *)
Definition ndiv (x : num) (s : surd) : surd :=
  match x, s with
  | None, _ => SNaN
  | _, SNaN => SNaN
  | Some _, SInf _ => SFin 0 1
  | Some d, SFin n v =>
      if Qeq_bool n 0 then
        (if Qeq_bool d 0 then SNaN else SInf (Qlt_bool d 0))
      else SFin (Qred (d * v / n)) v
  end.

(** [abs(s)]. *)
Definition sabs (s : surd) : surd :=
  match s with
  | SNaN => SNaN
  | SInf _ => SInf false
  | SFin d v => SFin (Qabs d) v
  end.

(** [s > t] for a rational [t]; false on NaN. *)
Definition surd_gtb (s : surd) (t : Q) : bool :=
  match s with
  | SNaN => false
  | SInf neg => negb neg
  | SFin d v => Qlt_bool (ssq t * v) (ssq d)
  end.

(** [a <= b] on derived values, neither NaN (NaN compares false). *)
Definition surd_leb (a b : surd) : bool :=
  match a, b with
  | SNaN, _ | _, SNaN => false
  | SInf true, _ => true
  | _, SInf false => true
  | SInf false, _ => false
  | _, SInf true => false
  | SFin d1 v1, SFin d2 v2 => Qle_bool (ssq d1 * v2) (ssq d2 * v1)
  end.

(** One step of a NaN-skipping maximum. *)
Definition smax_step (acc x : surd) : surd :=
  if is_nan x then acc
  else if is_nan acc then x
  else if surd_leb x acc then acc else x.

(** [max(skipna=True)]: NaN when every entry is NaN. *)
Definition smax (l : list surd) : surd := fold_left smax_step l SNaN.

(** The entries of a column that are not NaN. *)
Definition dropna (xs : list num) : list Q := omap id xs.

Definition Qsum (qs : list Q) : Q := fold_right Qplus 0 qs.

Definition Qlen (qs : list Q) : Q := inject_Z (Z.of_nat (length qs)).

(** [Series.sum()]: NaN skipped, 0 on an empty column. *)
Definition sum (xs : list num) : Q := Qsum (dropna xs).

(** [Series.mean()]: NaN skipped; NaN when nothing is left. *)
Definition mean (xs : list num) : num :=
  match dropna xs with
  | [] => None
  | qs => Some (Qred (Qsum qs / Qlen qs))
  end.

(** Sum of squared deviations from [m]. *)
Definition sqdev (m : Q) (qs : list Q) : Q :=
  Qsum (map (fun x => (x - m) * (x - m)) qs).

(** [Series.var()] with pandas' default [ddof=1]: NaN skipped; NaN when
    fewer than two values are left. *)
Definition var (xs : list num) : num :=
  match dropna xs with
  | [] | [_] => None
  | qs => Some (Qred (sqdev (Qsum qs / Qlen qs) qs / (Qlen qs - 1)))
  end.

(** [Series.std()]. *)
Definition std (xs : list num) : surd := sqrt_num (var xs).

(** [rolling(window).mean()] and [.std()] on one window: with the default
    [min_periods = window], a NaN inside the window gives NaN. *)
Definition strict (w : list num) : option (list Q) := mapM id w.

Definition window_mean (w : list num) : num :=
  match strict w with
  | Some qs => mean (map Some qs)
  | None => None
  end.

Definition window_std (w : list num) : surd :=
  match strict w with
  | Some qs => std (map Some qs)
  | None => SNaN
  end.

(** The trailing window of [W] values that ends at position [i]; [None]
    while fewer than [W] observations are available. *)
Definition window_at (W : nat) (xs : list num) (i : nat) : option (list num) :=
  if decide (W <= S i)%nat then Some (take W (drop (S i - W) xs)) else None.

Definition rolling {A} (f : list num -> A) (nan : A)
    (W : nat) (xs : list num) : list A :=
  map (fun i => match window_at W xs i with
                | Some w => f w
                | None => nan
                end) (seq 0 (length xs)).

Definition rolling_mean (W : nat) (xs : list num) : list num :=
  rolling window_mean None W xs.

Definition rolling_std (W : nat) (xs : list num) : list surd :=
  rolling window_std SNaN W xs.

End Float.

(** ** What a derived value stands for *)

Module Denotation.
Import Float Reals Qreals.

(** The real number behind [SFin d v]. *)
Definition value (d v : Q) : R := (Q2R d / sqrt (Q2R v))%R.

(** The real number behind a derived value; none for NaN, and none for
    the infinities. *)
Definition denote (s : surd) : option R :=
  match s with
  | SFin d v => Some (value d v)
  | _ => None
  end.

End Denotation.

(** ** Exceptions and the state-and-exception monad *)

Inductive exn : Type :=
  | KeyError (c : string)
  | IndexError
  | TypeError.

Inductive result (A : Type) : Type :=
  | Ok (a : A)
  | Raise (e : exn).
Arguments Ok {A} a.
Arguments Raise {A} e.

#[export] Instance result_ret : MRet result := fun A a => Ok a.
#[export] Instance result_bind : MBind result := fun A B f m =>
  match m with
  | Ok a => f a
  | Raise e => Raise e
  end.

(** A computation over a mutable object of type [S]: it returns a value or
    raises, and leaves the object in a new state either way. *)
Definition M (S A : Type) : Type := S -> result A * S.

#[export] Instance M_ret {S} : MRet (M S) := fun A a s => (Ok a, s).
#[export] Instance M_bind {S} : MBind (M S) := fun A B f m s =>
  match m s with
  | (Ok a, s') => f a s'
  | (Raise e, s') => (Raise e, s')
  end.

Definition get {S} : M S S := fun s => (Ok s, s).
Definition put {S} (s : S) : M S unit := fun _ => (Ok tt, s).
Definition lift {S A} (r : result A) : M S A := fun s => (r, s).

(** ** DataFrames *)

Module Pandas.
Import Float.

(** A cell is a data float, a derived float or a string. *)
Inductive cell : Type :=
  | Num (x : num)
  | Root (z : surd)
  | Str (s : string).

(** A row carries its index label and its cells by column name, in column
    order. *)
Record Row : Type := mkRow { label : nat; cells : list (string * cell) }.

(** The cell stored under a name. *)
Fixpoint assoc (c : string) (l : list (string * cell)) : option cell :=
  match l with
  | [] => None
  | (d, v) :: l' => if decide (c = d) then Some v else assoc c l'
  end.

(** Storing a cell under a name: in place when the name is there, at the
    end otherwise. *)
Fixpoint assoc_set (c : string) (v : cell) (l : list (string * cell))
    : list (string * cell) :=
  match l with
  | [] => [(c, v)]
  | (d, w) :: l' =>
      if decide (c = d) then (c, v) :: l' else (d, w) :: assoc_set c v l'
  end.

(** A DataFrame: the column names in order, and the rows in order. *)
Record DataFrame : Type := mkDF { columns : list string; rows : list Row }.

(** [pd.DataFrame()] *)
Definition empty_frame : DataFrame := mkDF [] [].

(** [len(df)] *)
Definition len (df : DataFrame) : Z := Z.of_nat (length (rows df)).

(** The cell of a row under a column; a cell that was never filled reads
    as NaN. *)
Definition at_col (c : string) (r : Row) : cell :=
  default (Num None) (assoc c (cells r)).

(** [df[c]]: the column's cells, or [KeyError]. *)
Definition getitem (df : DataFrame) (c : string) : result (list cell) :=
  if decide (c ∈ columns df) then Ok (map (at_col c) (rows df))
  else Raise (KeyError c).

Definition set_cell (c : string) (r : Row) (v : cell) : Row :=
  mkRow (label r) (assoc_set c v (cells r)).

(** [df[c] = vals]: an existing column is overwritten where it stands, a
    new one is appended. *)
Definition set_col (df : DataFrame) (c : string) (vals : list cell) : DataFrame :=
  mkDF (if decide (c ∈ columns df) then columns df else columns df ++ [c])
       (zip_with (set_cell c) (rows df) vals).

(** [df[c] = v] for a scalar [v]. *)
Definition set_const (df : DataFrame) (c : string) (v : cell) : DataFrame :=
  set_col df c (replicate (length (rows df)) v).

(** The same assignment on the caller's object. *)
Definition setitem (c : string) (vals : list cell) : M DataFrame unit :=
  df ← get; put (set_col df c vals).

(** Reading the caller's column. *)
Definition column (c : string) : M DataFrame (list cell) :=
  df ← get; lift (getitem df c).

(** A numeric read of a cell, as the reductions [mean], [std], [sum] and
    [rolling] make it.  A string is not a number.  A derived cell is not a
    rational: the embedding does not take it as data, and the properties
    below leave out the one call that would, a value column named
    [rolling_std], which line 124 overwrites and line 127 reads back. *)
Definition as_num (v : cell) : result num :=
  match v with
  | Num x => Ok x
  | _ => Raise TypeError
  end.

Definition as_surd (v : cell) : result surd :=
  match v with
  | Num x => Ok (of_num x)
  | Root z => Ok z
  | Str _ => Raise TypeError
  end.

Definition to_nums (l : list cell) : result (list num) := mapM as_num l.
Definition to_surds (l : list cell) : result (list surd) := mapM as_surd l.

(** [df[mask]] *)
Fixpoint select {A} (mask : list bool) (l : list A) : list A :=
  match mask, l with
  | b :: mask', x :: l' => if b then x :: select mask' l' else select mask' l'
  | _, _ => []
  end.

Definition filter_rows (df : DataFrame) (mask : list bool) : DataFrame :=
  mkDF (columns df) (select mask (rows df)).

(** [df[[c1; ...; cn]]]: the listed columns only, or [KeyError] for the
    first one that is missing. *)
Definition project_row (cs : list string) (r : Row) : Row :=
  mkRow (label r) (map (fun c => (c, at_col c r)) cs).

Definition getitems (df : DataFrame) (cs : list string) : result DataFrame :=
  match filter (fun c => c ∉ columns df) cs with
  | [] => Ok (mkDF cs (map (project_row cs) (rows df)))
  | c :: _ => Raise (KeyError c)
  end.

(** [df.head(n)] *)
Definition head (n : nat) (df : DataFrame) : DataFrame :=
  mkDF (columns df) (take n (rows df)).

(** *** Sorting *)

Definition cell_is_nan (v : cell) : bool :=
  match v with
  | Num None | Root SNaN => true
  | _ => false
  end.

(** [a <= b] between two cells that are not NaN.  Strings compare with
    strings and numbers with numbers. *)
Definition cell_leb (a b : cell) : bool :=
  match a, b with
  | Str s, Str t => String.leb s t
  | Str _, _ | _, Str _ => false
  | Num x, Num y => surd_leb (of_num x) (of_num y)
  | Num x, Root z => surd_leb (of_num x) z
  | Root z, Num y => surd_leb z (of_num y)
  | Root z, Root w => surd_leb z w
  end.

(** The order [sort_values] puts two keys in: NaN goes last in both
    directions. *)
Definition key_before (ascending : bool) (a b : cell) : bool :=
  if cell_is_nan b then true
  else if cell_is_nan a then false
  else if ascending then cell_leb a b else cell_leb b a.

Definition is_str (v : cell) : bool :=
  match v with Str _ => true | _ => false end.

(** Keys can be sorted when, NaN apart, they are all strings or all
    numbers; Python raises [TypeError] on a mixed comparison. *)
Definition sortable (keys : list cell) : bool :=
  let ks := filter (fun k => cell_is_nan k = false) keys in
  forallb is_str ks || forallb (fun k => negb (is_str k)) ks.

Definition row_before (c : string) (ascending : bool) : relation Row :=
  fun r1 r2 => key_before ascending (at_col c r1) (at_col c r2) = true.

#[export] Instance row_before_dec c asc r1 r2 : Decision (row_before c asc r1 r2).
Proof. unfold row_before. apply _. Defined.

(** [df.sort_values(c, ascending=...)].  pandas' default sort is not
    stable; the embedding fixes the order of equal keys to the input
    order. *)
Definition sort_values (df : DataFrame) (c : string) (ascending : bool)
    : result DataFrame :=
  keys ← getitem df c;
  if sortable keys
  then Ok (mkDF (columns df) (merge_sort (row_before c ascending) (rows df)))
  else Raise TypeError.

(** [pd.concat(frames, ignore_index=True)]: columns in order of first
    appearance, rows relabelled from 0. *)
Definition union_columns (cs ds : list string) : list string :=
  cs ++ filter (fun d => d ∉ cs) ds.

Definition relabel (rs : list Row) : list Row :=
  imap (fun i r => mkRow i (cells r)) rs.

Definition concat (frames : list DataFrame) : DataFrame :=
  mkDF (foldl union_columns [] (map columns frames))
       (relabel (concat (map rows frames))).

(** [pd.DataFrame(records)] for a list of dicts with the same keys. *)
Definition from_records (cs : list string)
    (records : list (list (string * cell)))
    : DataFrame :=
  match records with
  | [] => empty_frame
  | _ => mkDF cs (imap (fun i m => mkRow i m) records)
  end.

End Pandas.

(** ** [utils.py] *)

Module Utils.
Import Float Pandas.

(** [calculate_z_score(series)]:
<<
    mean = series.mean()
    std = series.std()
    if std == 0:
        return pd.Series(0, index=series.index)
    return (series - mean) / std
>>
    A column that holds a string has no mean: [TypeError]. *)
Definition calculate_z_score (series : list cell) : result (list cell) :=
  xs ← to_nums series;
  let mean := Float.mean xs in
  let std := Float.std xs in
  if surd_eq0 std
  then Ok (replicate (length series) (Num (Some 0%Q)))
  else Ok (map (fun x => Root (ndiv (nsub x mean) std)) xs).

(** [save_output(df, filename)] writes one CSV file; the files written so
    far are kept in order. *)
Definition save_output {S} (files : S -> list (string * DataFrame))
    (set_files : list (string * DataFrame) -> S -> S)
    (df : DataFrame) (filename : string) : M S unit :=
  s ← get; put (set_files (files s ++ [(filename, df)]) s).

End Utils.

(** ** [anomaly_detection.py] *)

Module AnomalyDetection.
Import Float Pandas Utils.

Definition Z_SCORE_THRESHOLD : Q := 3%Q.

(** [series.abs() > threshold], element by element. *)
Definition exceeds (threshold : Q) (v : cell) : result bool :=
  z ← as_surd v; Ok (surd_gtb (sabs z) threshold).

Definition abs_gt (threshold : Q) (col : list cell) : result (list bool) :=
  mapM (exceeds threshold) col.

(** [frame[cols].abs().max(axis=1)] on one row. *)
Definition row_abs_max (cols : list string) (r : Row) : result cell :=
  zs ← mapM (fun c => as_surd (at_col c r)) cols;
  Ok (Root (smax (map sabs zs))).

(** The lambda of lines 43-46. *)
Definition cost_anomaly_type (threshold : Q) (x : Row) : result cell :=
  v ← exceeds threshold (at_col "variance_z_score" x);
  Ok (Str (if v : bool then "High Variance" else "High Amount")).

(** The lambda of lines 84-88. *)
Definition loan_anomaly_type (threshold : Q) (x : Row) : result cell :=
  p ← exceeds threshold (at_col "pd_z_score" x);
  if p : bool then Ok (Str "High PD")
  else
    e ← exceeds threshold (at_col "ecl_z_score" x);
    Ok (Str (if e : bool then "High ECL" else "High EAD")).

(** [frame.apply(f, axis=1)] for an [f] that returns a scalar: a column
    of one value per row, and so without values for a frame without
    rows. *)
Definition apply_rows (f : Row -> result cell) (df : DataFrame)
    : result (list cell) :=
  mapM f (rows df).

(** One scoring line, [df[dst] = calculate_z_score(df[src])], on the
    caller's object. *)
Definition assign_z_score (dst src : string) : M DataFrame unit :=
  s ← column src;
  z ← lift (calculate_z_score s);
  setitem dst z.

(** Lines 37-52 of [detect_cost_anomalies]: flag, label, rate and sort,
    on a copy of the flagged rows. *)
Definition flag_cost_anomalies (threshold : Q) (costs_df : DataFrame)
    : result DataFrame :=
  mv ← getitem costs_df "variance_z_score" ≫= abs_gt threshold;
  ma ← getitem costs_df "actual_z_score" ≫= abs_gt threshold;
  let anomalies := filter_rows costs_df (zip_with orb mv ma) in
  ty ← apply_rows (cost_anomaly_type threshold) anomalies;
  let anomalies := set_col anomalies "anomaly_type" ty in
  sev ← apply_rows (row_abs_max ["variance_z_score"; "actual_z_score"])
          anomalies;
  let anomalies := set_col anomalies "severity" sev in
  sort_values anomalies "severity" false.

(** [detect_cost_anomalies(costs_df, threshold)]; the state is the object
    [costs_df] refers to. *)
Definition detect_cost_anomalies (threshold : Q) : M DataFrame DataFrame :=
  assign_z_score "variance_z_score" "variance_pct";;
  assign_z_score "actual_z_score" "actual_amount";;
  costs_df ← get;
  lift (flag_cost_anomalies threshold costs_df).

(** Lines 77-94 of [detect_loan_anomalies]. *)
Definition flag_loan_anomalies (threshold : Q) (loans_df : DataFrame)
    : result DataFrame :=
  mp ← getitem loans_df "pd_z_score" ≫= abs_gt threshold;
  me ← getitem loans_df "ecl_z_score" ≫= abs_gt threshold;
  ma ← getitem loans_df "ead_z_score" ≫= abs_gt threshold;
  let anomalies :=
    filter_rows loans_df (zip_with orb (zip_with orb mp me) ma) in
  ty ← apply_rows (loan_anomaly_type threshold) anomalies;
  let anomalies := set_col anomalies "anomaly_type" ty in
  sev ← apply_rows (row_abs_max ["pd_z_score"; "ecl_z_score"; "ead_z_score"])
          anomalies;
  let anomalies := set_col anomalies "severity" sev in
  sort_values anomalies "severity" false.

(** [detect_loan_anomalies(loans_df, threshold)] *)
Definition detect_loan_anomalies (threshold : Q) : M DataFrame DataFrame :=
  assign_z_score "pd_z_score" "pd";;
  assign_z_score "ecl_z_score" "ecl";;
  assign_z_score "ead_z_score" "ead";;
  loans_df ← get;
  lift (flag_loan_anomalies threshold loans_df).

(** [window = min(3, len(df) - 1)] *)
Definition window_size (df : DataFrame) : Z := Z.min 3 (len df - 1).

(** Lines 123-127 on the sorted working copy: the three rolling columns. *)
Definition add_rolling (df : DataFrame) (value_col : string) (window : nat)
    : result DataFrame :=
  v ← getitem df value_col ≫= to_nums;
  let df := set_col df "rolling_mean" (Num <$> rolling_mean window v) in
  v ← getitem df value_col ≫= to_nums;
  let df := set_col df "rolling_std" (Root <$> rolling_std window v) in
  v ← getitem df value_col ≫= to_nums;
  m ← getitem df "rolling_mean" ≫= to_nums;
  s ← getitem df "rolling_std" ≫= to_surds;
  let z := zip_with ndiv (zip_with nsub v m) s in
  Ok (set_col df "rolling_z_score" (Root <$> z)).

(** [detect_time_series_anomalies(df, value_col, date_col)]; the state is
    the caller's object, the name [df] is rebound to a sorted copy. *)
Definition detect_time_series_anomalies (value_col date_col : string)
    : M DataFrame DataFrame :=
  caller ← get;
  df ← lift (sort_values caller date_col true);
  let window := window_size df in
  if bool_decide (window < 2)%Z then mret empty_frame
  else
    df ← lift (add_rolling df value_col (Z.to_nat window));
    rz ← lift (getitem df "rolling_z_score");
    mask ← lift (abs_gt Z_SCORE_THRESHOLD rz);
    mret (filter_rows df mask).

Definition kpi_columns : list string :=
  ["total_revenue"; "actual_amount"; "profit"; "variance_pct"].

(** The loop body of [analyze_monthly_kpi_anomalies] for one column;
    [anomalies] is the list built so far. *)
Definition kpi_step (anomalies : list DataFrame) (col : string)
    : M DataFrame (list DataFrame) :=
  monthly_kpis ← get;
  if decide (col ∈ columns monthly_kpis) then
    col_anomalies ← detect_time_series_anomalies col "month";
    if bool_decide (0 < len col_anomalies)%Z then
      let col_anomalies := set_const col_anomalies "kpi_name" (Str col) in
      part ← lift (getitems col_anomalies
                     ["month"; "kpi_name"; col; "rolling_z_score"]);
      mret (anomalies ++ [part])
    else mret anomalies
  else mret anomalies.

Fixpoint kpi_loop (anomalies : list DataFrame) (cols : list string)
    : M DataFrame (list DataFrame) :=
  match cols with
  | [] => mret anomalies
  | col :: cols' =>
      anomalies ← kpi_step anomalies col;
      kpi_loop anomalies cols'
  end.

(** [analyze_monthly_kpi_anomalies(monthly_kpis)] *)
Definition analyze_monthly_kpi_anomalies : M DataFrame DataFrame :=
  anomalies ← kpi_loop [] kpi_columns;
  match anomalies with
  | [] => mret empty_frame
  | _ => mret (concat anomalies)
  end.

(** The objects the report works on: the two tables of the [data] dict
    and the monthly KPI table, three distinct objects, and the files
    written under [outputs/]. *)
Record Env : Type := mkEnv {
  costs : DataFrame;
  loans : DataFrame;
  monthly_kpis : DataFrame;
  files : list (string * DataFrame)
}.

Definition set_costs (d : DataFrame) (e : Env) : Env :=
  mkEnv d (loans e) (monthly_kpis e) (files e).
Definition set_loans (d : DataFrame) (e : Env) : Env :=
  mkEnv (costs e) d (monthly_kpis e) (files e).
Definition set_monthly_kpis (d : DataFrame) (e : Env) : Env :=
  mkEnv (costs e) (loans e) d (files e).
Definition set_files (fs : list (string * DataFrame)) (e : Env) : Env :=
  mkEnv (costs e) (loans e) (monthly_kpis e) fs.

(** Running a computation on one of the objects of the environment. *)
Definition on {A} (proj : Env -> DataFrame) (upd : DataFrame -> Env -> Env)
    (m : M DataFrame A) : M Env A :=
  fun e => let '(r, d) := m (proj e) in (r, upd d e).

(** [frame.iloc[0][c]]: [IndexError] without a first row, [KeyError]
    without the column. *)
Definition iloc0 (df : DataFrame) (c : string) : result cell :=
  match rows df with
  | [] => Raise IndexError
  | r :: _ =>
      if decide (c ∈ columns df) then Ok (at_col c r) else Raise (KeyError c)
  end.

(** [frame[c].max()], [frame[c].abs().max()] and [frame[c].sum()], on
    columns of numbers. *)
Definition col_max (df : DataFrame) (c : string) : result cell :=
  zs ← getitem df c ≫= to_surds; Ok (Root (smax zs)).

Definition col_abs_max (df : DataFrame) (c : string) : result cell :=
  zs ← getitem df c ≫= to_surds; Ok (Root (smax (map sabs zs))).

Definition col_sum (df : DataFrame) (c : string) : result cell :=
  xs ← getitem df c ≫= to_nums; Ok (Num (Some (Float.sum xs))).

Definition count_cell (df : DataFrame) : cell :=
  Num (Some (inject_Z (len df))).

Definition summary_columns : list string :=
  ["category"; "anomaly_count"; "top_issue"; "max_severity"; "total_variance"].

Definition summary_row (category count top_issue max_severity total : cell)
    : list (string * cell) :=
  [("category", category); ("anomaly_count", count);
   ("top_issue", top_issue); ("max_severity", max_severity);
   ("total_variance", total)].

(** The three summary blocks of [generate_anomaly_report], lines 193-221. *)
Definition cost_summary_row (cost_anomalies : DataFrame)
    : result (list (list (string * cell))) :=
  if bool_decide (0 < len cost_anomalies)%Z then
    top ← iloc0 cost_anomalies "business_unit";
    sev ← col_max cost_anomalies "severity";
    tot ← col_sum cost_anomalies "variance_amount";
    Ok [summary_row (Str "Costs") (count_cell cost_anomalies) top sev tot]
  else Ok [].

Definition loan_summary_row (loan_anomalies : DataFrame)
    : result (list (list (string * cell))) :=
  if bool_decide (0 < len loan_anomalies)%Z then
    top ← iloc0 loan_anomalies "loan_type";
    sev ← col_max loan_anomalies "severity";
    tot ← col_sum loan_anomalies "ecl";
    Ok [summary_row (Str "Loans") (count_cell loan_anomalies) top sev tot]
  else Ok [].

Definition kpi_summary_row (kpi_anomalies : DataFrame)
    : result (list (list (string * cell))) :=
  if bool_decide (0 < len kpi_anomalies)%Z then
    top ← iloc0 kpi_anomalies "kpi_name";
    sev ← col_abs_max kpi_anomalies "rolling_z_score";
    Ok [summary_row (Str "KPIs") (count_cell kpi_anomalies) top sev
          (Num (Some 0%Q))]
  else Ok [].

(** Lines 190-223: the summary table from the three results. *)
Definition summarize (cost_anomalies loan_anomalies kpi_anomalies : DataFrame)
    : result DataFrame :=
  c ← cost_summary_row cost_anomalies;
  l ← loan_summary_row loan_anomalies;
  k ← kpi_summary_row kpi_anomalies;
  Ok (from_records summary_columns (c ++ l ++ k)).

(** [generate_anomaly_report(costs_df, loans_df, monthly_kpis)] *)
Definition generate_anomaly_report : M Env DataFrame :=
  cost_anomalies ← on costs set_costs (detect_cost_anomalies Z_SCORE_THRESHOLD);
  loan_anomalies ← on loans set_loans (detect_loan_anomalies Z_SCORE_THRESHOLD);
  kpi_anomalies ← on monthly_kpis set_monthly_kpis analyze_monthly_kpi_anomalies;
  lift (summarize cost_anomalies loan_anomalies kpi_anomalies).

(** The two blocks of [run] that build the combined table, lines 266-274. *)
Definition top_findings (anomalies : DataFrame) (cols : list string)
    (category : string) : result (list DataFrame) :=
  if bool_decide (0 < len anomalies)%Z then
    part ← getitems anomalies cols;
    Ok [set_const (head 10 part) "category" (Str category)]
  else Ok [].

Definition save (df : DataFrame) (filename : string) : M Env unit :=
  save_output files set_files df filename.

(** Lines 255-280 of [run]: the files, and the value returned. *)
Definition save_results
    (summary cost_anomalies loan_anomalies kpi_anomalies : DataFrame)
    : M Env DataFrame :=
  save summary "anomalies_summary.csv";;
  save cost_anomalies "cost_anomalies.csv";;
  save loan_anomalies "loan_anomalies.csv";;
  (if bool_decide (0 < len kpi_anomalies)%Z
   then save kpi_anomalies "kpi_anomalies.csv" else mret tt);;
  c ← lift (top_findings cost_anomalies
              ["cost_id"; "business_unit"; "anomaly_type"; "severity"] "Cost");
  l ← lift (top_findings loan_anomalies
              ["loan_id"; "loan_type"; "anomaly_type"; "severity"] "Loan");
  match c ++ l with
  | [] => mret tt
  | combined => save (concat combined) "anomalies.csv"
  end;;
  mret summary.

(** [run(data, monthly_kpis)] *)
Definition run : M Env DataFrame :=
  summary ← generate_anomaly_report;
  cost_anomalies ← on costs set_costs (detect_cost_anomalies Z_SCORE_THRESHOLD);
  loan_anomalies ← on loans set_loans (detect_loan_anomalies Z_SCORE_THRESHOLD);
  kpi_anomalies ← on monthly_kpis set_monthly_kpis analyze_monthly_kpi_anomalies;
  save_results summary cost_anomalies loan_anomalies kpi_anomalies.

End AnomalyDetection.

(** ** [run_analytics.py] *)

Module RunAnalytics.
Import Pandas AnomalyDetection.

(** [main()].  Steps 1 to 5 call the loading, KPI, risk, variance and
    scenario modules, which are not part of this development:
    [steps_1_to_5] is their outcome, the tables they hand to step 6 or the
    exception one of them raised.  The value is the exit status: the
    [except Exception] clause turns every exception into 1. *)
Definition main (steps_1_to_5 : result Env) : Z :=
  match steps_1_to_5 with
  | Raise _ => 1
  | Ok e =>
      match fst (run e) with
      | Ok _ => 0
      | Raise _ => 1
      end
  end.

End RunAnalytics.

(** ** Predicates used in the statements *)

Module Props.
Import Float Pandas Utils AnomalyDetection.

(** A derived value as [sqrt_num] and the rolling deviation produce it:
    NaN, or a fraction over the root of a positive number. *)
Definition std_like (s : surd) : Prop :=
  match s with
  | SNaN => True
  | SInf _ => False
  | SFin _ v => (0 < v)%Q
  end.

(** A finite derived value has a positive number under its root. *)
Definition wf_surd (s : surd) : Prop :=
  match s with
  | SFin _ v => (0 < v)%Q
  | _ => True
  end.

(** A score that the default threshold does not flag. *)
Definition quiet (z : surd) : Prop :=
  surd_gtb (sabs z) Z_SCORE_THRESHOLD = false.

Definition is_num (v : cell) : bool :=
  match v with Num _ => true | _ => false end.

(** The frame has the column and every cell of it is a data float. *)
Definition numeric_col (df : DataFrame) (c : string) : bool :=
  bool_decide (c ∈ columns df) && forallb (fun r => is_num (at_col c r)) (rows df).

(** The magnitude of a number exceeds [t].  [SFin d v] is the number
    [d / sqrt v], and [t < |d / sqrt v|] is [t < 0] or [t^2 * v < d^2];
    an infinity exceeds every [t], NaN exceeds none.  This is the
    mathematical statement, written without the detector's comparison
    [exceeds]; [DenotationFacts.magnitude_gt_sound] reads it in the real
    numbers, and [CrossSectionFacts.exceeds_above] shows that the
    detector's comparison decides it. *)
Definition magnitude_gt (z : surd) (t : Q) : bool :=
  match z with
  | SNaN => false
  | SInf _ => true
  | SFin d v => Qlt_bool t 0 || Qlt_bool (t * t * v) (d * d)
  end.

(** The absolute value of the number in a cell exceeds the threshold;
    false for a text. *)
Definition above (threshold : Q) (v : cell) : bool :=
  match v with
  | Num x => magnitude_gt (of_num x) threshold
  | Root z => magnitude_gt z threshold
  | Str _ => false
  end.

Definition surd_of (v : cell) : surd :=
  match as_surd v with
  | Ok z => z
  | Raise _ => SNaN
  end.

(** Every listed score cell of the row is a float. *)
Definition scored (cols : list string) (r : Row) : Prop :=
  Forall (fun c => is_str (at_col c r) = false) cols.

(** Every listed score of the row is well formed. *)
Definition wf_scores (cols : list string) (r : Row) : Prop :=
  Forall (fun c => wf_surd (surd_of (at_col c r))) cols.

Definition cost_scores : list string := ["variance_z_score"; "actual_z_score"].
Definition loan_scores : list string :=
  ["pd_z_score"; "ecl_z_score"; "ead_z_score"].

(** A record is flagged when some watched score exceeds the threshold. *)
Definition flagged (cols : list string) (threshold : Q) (r : Row) : bool :=
  existsb (fun c => above threshold (at_col c r)) cols.

(** The label by priority order, and the severity, of a record. *)
Definition cost_label (threshold : Q) (r : Row) : string :=
  if above threshold (at_col "variance_z_score" r) then "High Variance"
  else "High Amount".

Definition loan_label (threshold : Q) (r : Row) : string :=
  if above threshold (at_col "pd_z_score" r) then "High PD"
  else if above threshold (at_col "ecl_z_score" r) then "High ECL"
  else "High EAD".

Definition severity_of (cols : list string) (r : Row) : surd :=
  smax (map (fun c => sabs (surd_of (at_col c r))) cols).

(** A flagged record as it is returned: the record with its label and its
    severity added. *)
Definition decorate (cols : list string) (lbl : Row -> string) (r : Row) : Row :=
  set_cell "severity" (set_cell "anomaly_type" r (Str (lbl r)))
    (Root (severity_of cols r)).

Definition add_column (c : string) (cs : list string) : list string :=
  if decide (c ∈ cs) then cs else cs ++ [c].

(** [r'] is the record [r] with derived columns added: same index label,
    same cells outside the two columns a detector adds to its result. *)
Definition same_record (r r' : Row) : Prop :=
  label r' = label r /\
  forall c, c ≠ "anomaly_type" -> c ≠ "severity" -> at_col c r' = at_col c r.

(** The index labels of the rows whose score in column [c] exceeds the
    threshold, and the index labels of a result. *)
Definition outliers (threshold : Q) (c : string) (df : DataFrame) : gset nat :=
  list_to_set (map label (filter (fun r => above threshold (at_col c r)) (rows df))).

Definition label_set (df : DataFrame) : gset nat :=
  list_to_set (map label (rows df)).

(** [df'] is [df] with at most the columns [added] assigned: the same
    records in the same order, every other column as it was. *)
Definition extends_by (added : list string) (df df' : DataFrame) : Prop :=
  map label (rows df') = map label (rows df) /\
  (forall c, c ∉ added -> getitem df' c = getitem df c) /\
  (forall c, c ∈ columns df -> c ∈ columns df') /\
  (forall c, c ∈ columns df' -> c ∈ columns df \/ c ∈ added).

(** The cell a row stores under a name, if it stores one. *)
Definition stored (c : string) (r : Row) : option cell := assoc c (cells r).

(** The frame after one scoring line. *)
Definition with_z_score (dst src : string) (df : DataFrame) : result DataFrame :=
  z ← getitem df src ≫= calculate_z_score; Ok (set_col df dst z).

(** Column [dst] of the frame holds the scores of column [src] already. *)
Definition settled (dst src : string) (df : DataFrame) : Prop :=
  dst ∈ columns df /\
  exists z, getitem df src ≫= calculate_z_score = Ok z /\
            map (stored dst) (rows df) = map Some z.

(** Running again on the state a computation left gives the same result
    and leaves the state as it is. *)
Definition repeatable {S A} (m : M S A) : Prop :=
  forall s r s', m s = (r, s') -> m s' = (r, s').

(** A computation that only writes files: the same value and the same
    files, appended to those written before, in every environment. *)
Definition appender {A} (m : M Env A) (r : result A)
    (w : list (string * DataFrame)) : Prop :=
  forall e, m e = (r, set_files (files e ++ w) e).

(** Two environments with the same three tables. *)
Definition same_tables (e e' : Env) : Prop :=
  costs e = costs e' /\ loans e = loans e' /\
  monthly_kpis e = monthly_kpis e'.

(** The table a cross-sectional detector returns for a scored frame. *)
Definition flagged_frame (cols : list string) (lbl : Row -> string)
    (threshold : Q) (df : DataFrame) : DataFrame :=
  mkDF (add_column "severity" (add_column "anomaly_type" (columns df)))
       (merge_sort (row_before "severity" false)
          (map (decorate cols lbl) (filter (flagged cols threshold) (rows df)))).

End Props.

(** A decidable proposition about concrete data, by evaluation. *)
Ltac by_compute :=
  match goal with
  | |- ?P => apply (bool_decide_unpack P); vm_compute; exact I
  end.

(** ** Concrete tables *)

Module Examples.
Import Float Pandas AnomalyDetection.

(** A frame from its column names and its rows of cells, labelled from 0
    as a fresh pandas frame is. *)
Definition frame (cs : list string) (data : list (list cell)) : DataFrame :=
  mkDF cs (imap (fun i vals => mkRow i (zip cs vals)) data).

Definition q (n : Z) : cell := Num (Some (inject_Z n)).

(** The labels of a frame's rows, in order. *)
Definition labels (df : DataFrame) : list nat := map label (rows df).

(** Twelve cost records.  The last one stands out on both watched
    fields, a little more on the amount than on the variance. *)
Definition costs12 : DataFrame :=
  frame ["cost_id"; "business_unit"; "actual_amount"; "variance_amount";
         "variance_pct"]
    [ [Str "C00"; Str "Retail"; q 100; q 0; q 0];
      [Str "C01"; Str "Retail"; q 100; q 0; q 0];
      [Str "C02"; Str "Retail"; q 100; q 0; q 0];
      [Str "C03"; Str "Lending"; q 100; q 0; q 0];
      [Str "C04"; Str "Lending"; q 100; q 0; q 0];
      [Str "C05"; Str "Lending"; q 100; q 0; q 0];
      [Str "C06"; Str "Cards"; q 100; q 0; q 0];
      [Str "C07"; Str "Cards"; q 100; q 0; q 0];
      [Str "C08"; Str "Cards"; q 100; q 0; q 0];
      [Str "C09"; Str "Treasury"; q 100; q 0; q 0];
      [Str "C10"; Str "Treasury"; q 100; q 1; q 1];
      [Str "C11"; Str "Treasury"; q 5000; q 2500; q 100] ].

(** Twelve loans.  The last one stands out on all three watched fields,
    least of all on [pd]. *)
Definition loans12 : DataFrame :=
  frame ["loan_id"; "loan_type"; "pd"; "ecl"; "ead"]
    [ [Str "L00"; Str "Auto"; q 0; q 100; q 100];
      [Str "L01"; Str "Auto"; q 0; q 100; q 100];
      [Str "L02"; Str "Auto"; q 0; q 100; q 100];
      [Str "L03"; Str "Auto"; q 0; q 100; q 100];
      [Str "L04"; Str "Personal"; q 0; q 100; q 100];
      [Str "L05"; Str "Personal"; q 0; q 100; q 100];
      [Str "L06"; Str "Personal"; q 0; q 100; q 100];
      [Str "L07"; Str "Mortgage"; q 0; q 100; q 100];
      [Str "L08"; Str "Mortgage"; q 0; q 100; q 100];
      [Str "L09"; Str "Mortgage"; q 0; q 100; q 100];
      [Str "L10"; Str "Business"; q 1; q 100; q 100];
      [Str "L11"; Str "Business"; q 100; q 5000; q 7000] ].

(** Six cost records: five tight values of [variance_pct] with mean 10 and
    sample deviation 2, and a sixth at [10 + 10 * 2]. *)
Definition costs6 : DataFrame :=
  frame ["cost_id"; "business_unit"; "actual_amount"; "variance_amount";
         "variance_pct"]
    [ [Str "C00"; Str "Retail"; q 100; q 0; q 8];
      [Str "C01"; Str "Retail"; q 100; q 0; q 12];
      [Str "C02"; Str "Retail"; q 100; q 0; q 8];
      [Str "C03"; Str "Retail"; q 100; q 0; q 12];
      [Str "C04"; Str "Retail"; q 100; q 0; q 10];
      [Str "C05"; Str "Retail"; q 100; q 0; q 30] ].

(** What [detect_cost_anomalies] returns for [costs12], the table it
    leaves behind, and the one record it flags. *)
Definition result_or_empty (r : result DataFrame) : DataFrame :=
  match r with
  | Ok out => out
  | Raise _ => empty_frame
  end.

Definition costs12_flagged : DataFrame :=
  Eval vm_compute in
    result_or_empty (fst (detect_cost_anomalies Z_SCORE_THRESHOLD costs12)).

Definition costs12_scored : DataFrame :=
  Eval vm_compute in snd (detect_cost_anomalies Z_SCORE_THRESHOLD costs12).

Definition costs12_top : Row :=
  Eval vm_compute in
    match rows costs12_flagged with
    | r :: _ => r
    | [] => mkRow 0 []
    end.


Definition costs6_flagged : DataFrame :=
  Eval vm_compute in
    result_or_empty (fst (detect_cost_anomalies Z_SCORE_THRESHOLD costs6)).

Definition costs6_scored : DataFrame :=
  Eval vm_compute in snd (detect_cost_anomalies Z_SCORE_THRESHOLD costs6).

(** The record of [costs12] that stands out, with its scores. *)
Definition costs12_outlier : Row :=
  Eval vm_compute in
    match reverse (rows costs12_scored) with
    | r :: _ => r
    | [] => mkRow 0 []
    end.

(** The loans of [loans12] without their [pd] column. *)
Definition loans_without_pd : DataFrame :=
  frame ["loan_id"; "loan_type"; "ecl"; "ead"]
    [ [Str "L00"; Str "Auto"; q 100; q 100];
      [Str "L01"; Str "Auto"; q 100; q 100];
      [Str "L02"; Str "Personal"; q 100; q 100] ].

Definition months : list cell :=
  [Str "2024-01"; Str "2024-02"; Str "2024-03"; Str "2024-04"; Str "2024-05";
   Str "2024-06"].

(** A monthly series: five times the value [c], then [x]. *)
Definition flat_series (c x : Q) : DataFrame :=
  frame ["month"; "value"]
    (zip_with (fun m v => [m; Num (Some v)]) months [c; c; c; c; c; x]).

(** Five months at 10 and a sixth at 1000. *)
Definition kpi6 : DataFrame := flat_series 10 1000.


(** The tables of a run: [costs12], [loans12] and the six-month series
    under KPI column names; and the same with the loans lacking [pd]. *)
Definition kpis6 : DataFrame :=
  frame ["month"; "total_revenue"; "profit"]
    (zip_with (fun m v => [m; q 500; q v]) months [10; 10; 10; 10; 10; 1000]%Z).

Definition env12 : Env := mkEnv costs12 loans12 kpis6 [].

Definition env_without_pd : Env := mkEnv costs12 loans_without_pd kpis6 [].

(** The summary [run] returns for [env12], and the environment it leaves. *)
Definition summary12 : DataFrame :=
  Eval vm_compute in result_or_empty (fst (run env12)).

Definition env12_after : Env := Eval vm_compute in snd (run env12).

End Examples.

(** ** [utils.py]: the two checks *)

Module UtilsHelpers.
Import Float Pandas.

(** The exceptions of [calculate_variance] and [validate_dataframe]. *)
Inductive helper_exn : Type :=
  | ZeroDivisionError
  | ValueError (name : string) (missing : gset string).

(** [validate_dataframe(df, required_columns, name)]:
<<
    missing = set(required_columns) - set(df.columns)
    if missing:
        raise ValueError(f"{name} missing required columns: {missing}")
    return True
>> *)
Definition validate_dataframe (df : DataFrame) (required_columns : list string)
    (name : string) : bool + helper_exn :=
  let missing : gset string :=
    list_to_set required_columns ∖ list_to_set (columns df) in
  if decide (missing = ∅) then inl true else inr (ValueError name missing).

End UtilsHelpers.

(** ** Readings of results *)

Module Reading.
Import Float Pandas Utils AnomalyDetection Props.

(** The severity a result row carries. *)
Definition severity (r : Row) : surd := surd_of (at_col "severity" r).

(** [r1] is at least as severe as [r2]. *)
Definition by_severity : relation Row :=
  fun r1 r2 => surd_leb (severity r2) (severity r1) = true.

(** A row whose severity is a number. *)
Definition rated (r : Row) : Prop :=
  is_str (at_col "severity" r) = false /\ is_nan (severity r) = false /\
  wf_surd (severity r).

(** The files a computation wrote: those of [e'] that [e] did not have. *)
Definition written (e e' : Env) : list (string * DataFrame) :=
  drop (length (files e)) (files e').

(** The three files every run that gets to line 256 writes. *)
Definition result_files (summary cost_anomalies loan_anomalies : DataFrame)
    : list (string * DataFrame) :=
  [("anomalies_summary.csv", summary); ("cost_anomalies.csv", cost_anomalies);
   ("loan_anomalies.csv", loan_anomalies)].

Definition cost_columns : list string :=
  ["cost_id"; "business_unit"; "anomaly_type"; "severity"].
Definition loan_columns : list string :=
  ["loan_id"; "loan_type"; "anomaly_type"; "severity"].

(** The rows lines 267-268 and 272-273 take from a result: the listed
    columns of its first ten rows, with the category added. *)
Definition top_rows (cols : list string) (category : string)
    (anomalies : DataFrame) : list Row :=
  map (fun r => set_cell "category" (project_row cols r) (Str category))
      (take 10 (rows anomalies)).

(** A cost table, a loan table and a KPI table as the pipeline expects
    them: the columns it reads are there, and those it computes on hold
    numbers. *)
Definition cost_table_ok (df : DataFrame) : bool :=
  numeric_col df "variance_pct" && numeric_col df "actual_amount" &&
  numeric_col df "variance_amount" &&
  bool_decide ("business_unit" ∈ columns df) &&
  bool_decide ("cost_id" ∈ columns df).

Definition loan_table_ok (df : DataFrame) : bool :=
  numeric_col df "pd" && numeric_col df "ecl" && numeric_col df "ead" &&
  bool_decide ("loan_type" ∈ columns df) &&
  bool_decide ("loan_id" ∈ columns df).

Definition kpi_table_ok (df : DataFrame) : bool :=
  bool_decide ("month" ∈ columns df) &&
  sortable (map (at_col "month") (rows df)) &&
  forallb (fun c => implb (bool_decide (c ∈ columns df)) (numeric_col df c))
    kpi_columns.

Definition tables_ok (e : Env) : bool :=
  cost_table_ok (costs e) && loan_table_ok (loans e) &&
  kpi_table_ok (monthly_kpis e).

(** An order closed under incomparability, which makes it total. *)
Definition or_unordered {A} (R : relation A) : relation A :=
  fun x y => R x y \/ ~ R y x.

#[export] Instance or_unordered_dec {A} (R : relation A)
  `{!forall x y, Decision (R x y)} x y : Decision (or_unordered R x y).
Proof. unfold or_unordered. apply _. Defined.

End Reading.

(** ** More concrete tables *)

Module Cases.
Import Float Pandas Utils AnomalyDetection Props Examples.

(** Five cost records, two of which stand out at threshold 1. *)
Definition costs5 : DataFrame :=
  frame ["cost_id"; "business_unit"; "actual_amount"; "variance_amount";
         "variance_pct"]
    [ [Str "C0"; Str "Retail"; q 100; q 0; q 0];
      [Str "C1"; Str "Retail"; q 100; q 0; q 0];
      [Str "C2"; Str "Cards"; q 100; q 0; q 0];
      [Str "C3"; Str "Cards"; q 100; q 10; q 10];
      [Str "C4"; Str "Treasury"; q 100; q (-20); q (-20)] ].

Definition costs5_flagged : DataFrame :=
  Eval vm_compute in result_or_empty (fst (detect_cost_anomalies 1 costs5)).

Definition costs5_scored : DataFrame :=
  Eval vm_compute in snd (detect_cost_anomalies 1 costs5).

(** A KPI table without the [month] column, and one without any of the
    four KPI columns. *)
Definition kpis_without_month : DataFrame :=
  frame ["period"; "profit"] [[Str "2024-01"; q 10]; [Str "2024-02"; q 20];
                              [Str "2024-03"; q 30]].

Definition kpis_without_kpi : DataFrame :=
  frame ["period"; "headcount"] [[Str "2024-01"; q 10]; [Str "2024-02"; q 20]].



Definition loans12_flagged : DataFrame :=
  Eval vm_compute in
    result_or_empty (fst (detect_loan_anomalies Z_SCORE_THRESHOLD loans12)).

(** Cost records without the [actual_amount] column, and cost records
    with a text in the [variance_pct] column. *)
Definition costs_without_amount : DataFrame :=
  frame ["cost_id"; "business_unit"; "variance_amount"; "variance_pct"]
    [ [Str "C0"; Str "Retail"; q 0; q 0];
      [Str "C1"; Str "Retail"; q 10; q 10];
      [Str "C2"; Str "Cards"; q 20; q 20] ].

Definition costs_with_text : DataFrame :=
  frame ["cost_id"; "business_unit"; "actual_amount"; "variance_amount";
         "variance_pct"]
    [ [Str "C0"; Str "Retail"; q 100; q 0; q 0];
      [Str "C1"; Str "Retail"; q 100; q 10; Str "n/a"] ].

Definition costs5_flagged_at_3_2 : DataFrame :=
  Eval vm_compute in
    result_or_empty (fst (detect_cost_anomalies (3 # 2) costs5)).

End Cases.

(** ** IEEE doubles *)

Module Binary64.
Import Float.

Definition prec : Z := 53.
Definition emax : Z := 1024.

(** A double: a signed zero, an infinity, NaN, or [(-1)^s * m * 2^e]. *)
Definition float : Type := SpecFloat.spec_float.

Definition nan : float := SpecFloat.S754_nan.
Definition zero : float := SpecFloat.S754_zero false.

(** The operations of IEEE 754 binary64, each rounded to nearest, ties to
    even. *)
Definition add : float -> float -> float := SpecFloat.SFadd prec emax.
Definition sub : float -> float -> float := SpecFloat.SFsub prec emax.
Definition mul : float -> float -> float := SpecFloat.SFmul prec emax.
Definition div : float -> float -> float := SpecFloat.SFdiv prec emax.
Definition sqrt : float -> float := SpecFloat.SFsqrt prec emax.

(** [x == y]: false when either is NaN, true on zeros of either sign. *)
Definition eqb : float -> float -> bool := SpecFloat.SFeqb.

Definition is_nan (x : float) : bool :=
  match x with
  | SpecFloat.S754_nan => true
  | _ => false
  end.

(** The double of an integer. *)
Definition of_Z (z : Z) : float := SpecFloat.binary_normalize prec emax z 0 false.

(** The double nearest to a rational: the correctly rounded quotient of
    its numerator and its denominator. *)
Definition of_Q (q : Q) : float :=
  match Qnum q with
  | Z0 => zero
  | Zpos n =>
      div (SpecFloat.S754_finite false n 0) (SpecFloat.S754_finite false (Qden q) 0)
  | Zneg n =>
      div (SpecFloat.S754_finite true n 0) (SpecFloat.S754_finite false (Qden q) 0)
  end.

(** The number a double stands for, as a derived value of the exact
    embedding; the sign of a zero is dropped. *)
Definition to_surd (x : float) : surd :=
  match x with
  | SpecFloat.S754_nan => SNaN
  | SpecFloat.S754_infinity s => SInf s
  | SpecFloat.S754_zero _ => SFin 0 1
  | SpecFloat.S754_finite s m e =>
      SFin (Qred ((if s then -1 else 1) * inject_Z (Zpos m) * Qpower 2 e)) 1
  end.

End Binary64.

(** ** [utils.py]: [calculate_variance] *)

Module Variance.
Import UtilsHelpers Binary64.

(** [x != 0] on floats: true on NaN, false on a zero of either sign. *)
Definition float_ne0 (x : float) : bool := negb (eqb x zero).

(** [x / y] on Python floats: a zero divisor raises, everything else is
    the IEEE quotient. *)
Definition float_div (x y : float) : float + helper_exn :=
  if eqb y zero then inr ZeroDivisionError else inl (div x y).

(** The dict [calculate_variance] returns. *)
Record Variance : Type :=
  mkVariance { variance_amount : float; variance_pct : float }.

(** [calculate_variance(actual, budget)]:
<<
    variance_amount = actual - budget
    variance_pct = (variance_amount / budget) if budget != 0 else 0
>>
    The [0] of the [else] branch is the integer; it is kept as the float
    of the same value. *)
Definition calculate_variance (actual budget : float) : Variance + helper_exn :=
  let variance_amount := sub actual budget in
  match (if float_ne0 budget then float_div variance_amount budget
         else inl zero) with
  | inl variance_pct => inl (mkVariance variance_amount variance_pct)
  | inr e => inr e
  end.

End Variance.

(** ** The numeric kernel on doubles *)

Module Doubles.
Import Float Pandas Utils AnomalyDetection Binary64.

(** Reading a cell as a double, and writing a double to a cell. *)
Definition as_double (v : cell) : result float :=
  match v with
  | Num None => Ok nan
  | Num (Some q) => Ok (of_Q q)
  | Root SNaN => Ok nan
  | Root (SInf s) => Ok (SpecFloat.S754_infinity s)
  | Root (SFin d v) => Ok (div (of_Q d) (sqrt (of_Q v)))
  | Str _ => Raise TypeError
  end.

Definition to_doubles (l : list cell) : result (list float) := mapM as_double l.

Definition Dbl (x : float) : cell := Root (to_surd x).

(** *** [numpy.add.reduce] *)

(** Eight running sums, one block of eight values at a time. *)
Fixpoint add_blocks (fuel : nat) (r l : list float) : list float * list float :=
  match fuel with
  | O => (r, l)
  | S fuel' =>
      if (8 <=? length l)%nat
      then add_blocks fuel' (zip_with add r (take 8 l)) (drop 8 l)
      else (r, l)
  end.

Definition add8 (r : list float) : float :=
  match r with
  | [r0; r1; r2; r3; r4; r5; r6; r7] =>
      add (add (add r0 r1) (add r2 r3)) (add (add r4 r5) (add r6 r7))
  | _ => fold_left add r zero
  end.

(** A block of 8 to 128 values. *)
Definition block_sum (l : list float) : float :=
  let '(r, rest) := add_blocks (length l) (take 8 l) (drop 8 l) in
  fold_left add rest (add8 r).

(** numpy's pairwise summation: fewer than 8 values are added in order;
    up to 128 values are added in eight running sums; a longer array is
    split in two. *)
Fixpoint pairwise_sum (fuel : nat) (l : list float) : float :=
  let n := length l in
  if (n <? 8)%nat then fold_left add l zero
  else if (n <=? 128)%nat then block_sum l
  else
    match fuel with
    | O => block_sum l
    | S fuel' =>
        let n2 := (n / 2)%nat in
        let n2 := (n2 - n2 mod 8)%nat in
        add (pairwise_sum fuel' (take n2 l)) (pairwise_sum fuel' (drop n2 l))
    end.

Definition sum (l : list float) : float := pairwise_sum (length l) l.

(** *** [Series.mean()] and [Series.std()] *)

(** The number of values that are not NaN. *)
Definition count (xs : list float) : Z :=
  Z.of_nat (length (filter (fun x => is_nan x = false) xs)).

(** NaN replaced by 0, as pandas does before it sums. *)
Definition fill0 (x : float) : float := if is_nan x then zero else x.

(** [Series.mean()]: the sum of the filled array over the count. *)
Definition mean (xs : list float) : float :=
  if (0 <? count xs)%Z then div (sum (map fill0 xs)) (of_Z (count xs))
  else nan.

(** [Series.var()] with [ddof=1], in two passes: the squared deviations
    from the average, summed, over [count - 1]. *)
Definition var (xs : list float) : float :=
  if (count xs <=? 1)%Z then nan
  else
    let avg := div (sum (map fill0 xs)) (of_Z (count xs)) in
    let sqr := map (fun x => if is_nan x then zero
                             else let d := sub avg x in mul d d) xs in
    div (sum sqr) (of_Z (count xs - 1)).

Definition std (xs : list float) : float := sqrt (var xs).

(** *** [calculate_z_score] *)

Definition calculate_z_score (series : list cell) : result (list cell) :=
  xs ← to_doubles series;
  let mean := mean xs in
  let std := std xs in
  if eqb std zero
  then Ok (replicate (length series) (Num (Some 0%Q)))
  else Ok (map (fun x => Dbl (div (sub x mean) std)) xs).

(** *** Rolling windows *)

Definition window_mean (w : list float) : float :=
  if existsb is_nan w then nan else mean w.

Definition window_std (w : list float) : float :=
  if existsb is_nan w then nan else std w.

Definition window_at (W : nat) (xs : list float) (i : nat) : option (list float) :=
  if decide (W <= S i)%nat then Some (take W (drop (S i - W) xs)) else None.

Definition rolling (f : list float -> float) (W : nat) (xs : list float)
    : list float :=
  map (fun i => match window_at W xs i with
                | Some w => f w
                | None => nan
                end) (seq 0 (length xs)).

Definition rolling_mean (W : nat) (xs : list float) : list float :=
  rolling window_mean W xs.

Definition rolling_std (W : nat) (xs : list float) : list float :=
  rolling window_std W xs.

(** *** [detect_time_series_anomalies] *)

Definition add_rolling (df : DataFrame) (value_col : string) (window : nat)
    : result DataFrame :=
  v ← getitem df value_col ≫= to_doubles;
  let df := set_col df "rolling_mean" (Dbl <$> rolling_mean window v) in
  v ← getitem df value_col ≫= to_doubles;
  let df := set_col df "rolling_std" (Dbl <$> rolling_std window v) in
  v ← getitem df value_col ≫= to_doubles;
  m ← getitem df "rolling_mean" ≫= to_doubles;
  s ← getitem df "rolling_std" ≫= to_doubles;
  let z := zip_with div (zip_with sub v m) s in
  Ok (set_col df "rolling_z_score" (Dbl <$> z)).

Definition detect_time_series_anomalies (value_col date_col : string)
    : M DataFrame DataFrame :=
  caller ← get;
  df ← lift (sort_values caller date_col true);
  let window := window_size df in
  if bool_decide (window < 2)%Z then mret empty_frame
  else
    df ← lift (add_rolling df value_col (Z.to_nat window));
    rz ← lift (getitem df "rolling_z_score");
    mask ← lift (abs_gt Z_SCORE_THRESHOLD rz);
    mret (filter_rows df mask).

(** *** The cross-sectional detectors *)

(** One scoring line, [df[dst] = calculate_z_score(df[src])], on the
    caller's object. *)
Definition assign_z_score (dst src : string) : M DataFrame unit :=
  s ← column src;
  z ← lift (calculate_z_score s);
  setitem dst z.

(** The frame after one scoring line. *)
Definition with_z_score (dst src : string) (df : DataFrame) : result DataFrame :=
  z ← getitem df src ≫= calculate_z_score; Ok (set_col df dst z).

(** [detect_cost_anomalies(costs_df, threshold)] *)
Definition detect_cost_anomalies (threshold : Q) : M DataFrame DataFrame :=
  assign_z_score "variance_z_score" "variance_pct";;
  assign_z_score "actual_z_score" "actual_amount";;
  costs_df ← get;
  lift (flag_cost_anomalies threshold costs_df).

(** [detect_loan_anomalies(loans_df, threshold)] *)
Definition detect_loan_anomalies (threshold : Q) : M DataFrame DataFrame :=
  assign_z_score "pd_z_score" "pd";;
  assign_z_score "ecl_z_score" "ecl";;
  assign_z_score "ead_z_score" "ead";;
  loans_df ← get;
  lift (flag_loan_anomalies threshold loans_df).

(** *** [analyze_monthly_kpi_anomalies] *)

Definition kpi_step (anomalies : list DataFrame) (col : string)
    : M DataFrame (list DataFrame) :=
  monthly_kpis ← get;
  if decide (col ∈ columns monthly_kpis) then
    col_anomalies ← detect_time_series_anomalies col "month";
    if bool_decide (0 < len col_anomalies)%Z then
      let col_anomalies := set_const col_anomalies "kpi_name" (Str col) in
      part ← lift (getitems col_anomalies
                     ["month"; "kpi_name"; col; "rolling_z_score"]);
      mret (anomalies ++ [part])
    else mret anomalies
  else mret anomalies.

Fixpoint kpi_loop (anomalies : list DataFrame) (cols : list string)
    : M DataFrame (list DataFrame) :=
  match cols with
  | [] => mret anomalies
  | col :: cols' =>
      anomalies ← kpi_step anomalies col;
      kpi_loop anomalies cols'
  end.

Definition analyze_monthly_kpi_anomalies : M DataFrame DataFrame :=
  anomalies ← kpi_loop [] kpi_columns;
  match anomalies with
  | [] => mret empty_frame
  | _ => mret (concat anomalies)
  end.

End Doubles.

(** ** Predicates on tables of doubles *)

Module DoubleProps.
Import Float Pandas Utils AnomalyDetection Props.

(** The frame has the column, and every cell of it is a well-formed
    float. *)
Definition float_col (c : string) (df : DataFrame) : Prop :=
  c ∈ columns df /\
  Forall (fun r => is_str (at_col c r) = false) (rows df) /\
  Forall (fun r => wf_surd (surd_of (at_col c r))) (rows df).

End DoubleProps.

(** ** Injected records *)

Module Injection.
Import Float Pandas Utils AnomalyDetection Props.





End Injection.

(** ** Concrete tables for the statements on doubles *)

Module DoubleCases.
Import Float Pandas Utils AnomalyDetection Examples Binary64.

(** Four months of profit: nothing, nothing, nothing, then [2^-600]. *)
Definition kpi_tiny : DataFrame :=
  frame ["month"; "profit"]
    [[Str "2024-01"; q 0]; [Str "2024-02"; q 0]; [Str "2024-03"; q 0];
     [Str "2024-04"; Num (Some (1 # 2 ^ 600))]].

(** Four months of a KPI that is itself called [rolling_std]. *)
Definition kpi_drift : DataFrame :=
  frame ["month"; "rolling_std"]
    [[Str "2024-01"; q 100]; [Str "2024-02"; q 101]; [Str "2024-03"; q 102];
     [Str "2024-04"; q 103]].

Definition kpi_tiny_flagged : DataFrame :=
  Eval vm_compute in
    result_or_empty
      (fst (Doubles.detect_time_series_anomalies "profit" "month" kpi_tiny)).

Definition kpi_drift_flagged : DataFrame :=
  Eval vm_compute in
    result_or_empty
      (fst (Doubles.detect_time_series_anomalies "rolling_std" "month" kpi_drift)).

(** Twelve cost records.  The last one stands out on both watched
    fields: below the others on the variance, above them on the amount,
    and a little more on the amount. *)
Definition costs12_signed : DataFrame :=
  frame ["cost_id"; "business_unit"; "actual_amount"; "variance_amount";
         "variance_pct"]
    [ [Str "C00"; Str "Retail"; q 100; q 0; q 0];
      [Str "C01"; Str "Retail"; q 100; q 0; q 0];
      [Str "C02"; Str "Retail"; q 100; q 0; q 0];
      [Str "C03"; Str "Lending"; q 100; q 0; q 0];
      [Str "C04"; Str "Lending"; q 100; q 0; q 0];
      [Str "C05"; Str "Lending"; q 100; q 0; q 0];
      [Str "C06"; Str "Cards"; q 100; q 0; q 0];
      [Str "C07"; Str "Cards"; q 100; q 0; q 0];
      [Str "C08"; Str "Cards"; q 100; q 0; q 0];
      [Str "C09"; Str "Treasury"; q 100; q 0; q 0];
      [Str "C10"; Str "Treasury"; q 100; q (-1); q (-1)];
      [Str "C11"; Str "Treasury"; q 5000; q (-2500); q (-100)] ].

Definition costs12_signed_flagged : DataFrame :=
  Eval vm_compute in
    result_or_empty
      (fst (Doubles.detect_cost_anomalies Z_SCORE_THRESHOLD costs12_signed)).

Definition costs12_signed_scored : DataFrame :=
  Eval vm_compute in
    snd (Doubles.detect_cost_anomalies Z_SCORE_THRESHOLD costs12_signed).

Definition costs12_signed_top : Row :=
  Eval vm_compute in
    match rows costs12_signed_flagged with
    | r :: _ => r
    | [] => mkRow 0 []
    end.

(** Twelve cost records.  The eleventh stands out on the variance only,
    the twelfth on the amount only. *)
Definition costs12_split : DataFrame :=
  frame ["cost_id"; "business_unit"; "actual_amount"; "variance_amount";
         "variance_pct"]
    [ [Str "C00"; Str "Retail"; q 100; q 0; q 0];
      [Str "C01"; Str "Retail"; q 100; q 0; q 0];
      [Str "C02"; Str "Retail"; q 100; q 0; q 0];
      [Str "C03"; Str "Lending"; q 100; q 0; q 0];
      [Str "C04"; Str "Lending"; q 100; q 0; q 0];
      [Str "C05"; Str "Lending"; q 100; q 0; q 0];
      [Str "C06"; Str "Cards"; q 100; q 0; q 0];
      [Str "C07"; Str "Cards"; q 100; q 0; q 0];
      [Str "C08"; Str "Cards"; q 100; q 0; q 0];
      [Str "C09"; Str "Treasury"; q 100; q 0; q 0];
      [Str "C10"; Str "Treasury"; q 100; q 50; q 50];
      [Str "C11"; Str "Treasury"; q 5000; q 0; q 0] ].

Definition costs12_split_flagged : DataFrame :=
  Eval vm_compute in
    result_or_empty
      (fst (Doubles.detect_cost_anomalies Z_SCORE_THRESHOLD costs12_split)).

Definition costs12_split_scored : DataFrame :=
  Eval vm_compute in
    snd (Doubles.detect_cost_anomalies Z_SCORE_THRESHOLD costs12_split).


Definition costs12_injected : DataFrame :=
  frame ["cost_id"; "business_unit"; "actual_amount"; "variance_amount";
         "variance_pct"]
    [ [Str "C00"; Str "Retail"; q 100; q 0; q 8];
      [Str "C01"; Str "Retail"; q 100; q 0; q 12];
      [Str "C02"; Str "Retail"; q 100; q 0; q 8];
      [Str "C03"; Str "Lending"; q 100; q 0; q 12];
      [Str "C04"; Str "Lending"; q 100; q 0; q 8];
      [Str "C05"; Str "Lending"; q 100; q 0; q 12];
      [Str "C06"; Str "Cards"; q 100; q 0; q 8];
      [Str "C07"; Str "Cards"; q 100; q 0; q 12];
      [Str "C08"; Str "Cards"; q 100; q 0; q 8];
      [Str "C09"; Str "Treasury"; q 100; q 0; q 12];
      [Str "C10"; Str "Treasury"; q 100; q 0; q 10];
      [Str "C11"; Str "Treasury"; q 100; q 0; q 30] ].



(** The same two tables of injected records, scored on doubles. *)
Definition costs6_doubles : DataFrame :=
  Eval vm_compute in
    result_or_empty
      (fst (Doubles.detect_cost_anomalies Z_SCORE_THRESHOLD costs6)).

Definition costs12_injected_doubles : DataFrame :=
  Eval vm_compute in
    result_or_empty
      (fst (Doubles.detect_cost_anomalies Z_SCORE_THRESHOLD costs12_injected)).

End DoubleCases.

(** ** Findings of the KPI analysis *)

Module KpiProps.
Import Float Pandas Utils AnomalyDetection Props.

(** A row of the KPI result: it names a KPI column of the table, and its
    rolling score exceeds the threshold in absolute value. *)
Definition finding (df : DataFrame) (r : Row) : Prop :=
  (exists c, c ∈ kpi_columns /\ c ∈ columns df /\
             at_col "kpi_name" r = Str c) /\
  above Z_SCORE_THRESHOLD (at_col "rolling_z_score" r) = true.

End KpiProps.

(** ** More concrete tables on doubles *)

Module KpiCases.
Import Float Pandas Utils AnomalyDetection Examples Cases DoubleCases.

(** What the KPI analysis on doubles returns for [kpi_tiny], the summary
    of that finding with the findings of [costs12] and [loans12], and an
    environment with the three tables and no file. *)
Definition kpi_tiny_findings : DataFrame :=
  Eval vm_compute in
    result_or_empty (fst (Doubles.analyze_monthly_kpi_anomalies kpi_tiny)).

Definition summary_with_kpis : DataFrame :=
  Eval vm_compute in
    result_or_empty (summarize costs12_flagged loans12_flagged
                       kpi_tiny_findings).

Definition env_with_kpis : Env := mkEnv costs12 loans12 kpi_tiny [].

End KpiCases.

Module GapCases.
Import Float Pandas Examples.

(** A column with a missing value, and its scores on doubles. *)
Definition column_with_gap : list cell := [q 1; Num None; q 2; q 6].

Definition scores_with_gap : list cell :=
  Eval vm_compute in
    match Doubles.calculate_z_score column_with_gap with
    | Ok z => z
    | Raise _ => []
    end.

End GapCases.

(** * Properties *)

(** ** Arithmetic of scores *)

Module FloatFacts.
Import Float Props.
Local Open Scope Q_scope.

Lemma Qlt_bool_iff x y : Qlt_bool x y = true <-> x < y.
Proof.
  unfold Qlt_bool. rewrite negb_true_iff. split.
  - intros H. apply Qnot_le_lt. intros Hle.
    apply Qle_bool_iff in Hle. congruence.
  - intros H. destruct (Qle_bool y x) eqn:E; [|done].
    apply Qle_bool_iff in E. lra.
Qed.

Lemma Qlt_bool_false x y : Qlt_bool x y = false <-> y <= x.
Proof. unfold Qlt_bool. rewrite negb_false_iff. apply Qle_bool_iff. Qed.

Lemma sq_nonneg (x : Q) : 0 <= x * x.
Proof. nra. Qed.

Lemma sq_zero (x : Q) : x * x == 0 -> x == 0.
Proof. intros H. apply Qmult_integral in H. tauto. Qed.

Lemma ssq_abs d : ssq (Qabs d) == d * d.
Proof.
  unfold ssq. destruct (Qlt_le_dec d 0).
  - rewrite (Qabs_neg d) by lra.
    assert (Qabs (- d) == - d) as -> by (apply Qabs_pos; lra). ring.
  - rewrite !(Qabs_pos d) by lra. ring.
Qed.

Lemma ssq_nonneg t : 0 <= t -> ssq t == t * t.
Proof. intros. unfold ssq. rewrite Qabs_pos by done. ring. Qed.

(** The comparison the detectors make, [abs(z) > t], decides that the
    magnitude of [z] exceeds [t]. *)
Lemma surd_gtb_sabs z t : wf_surd z -> surd_gtb (sabs z) t = magnitude_gt z t.
Proof.
  destruct z as [| |d v]; [done..|]. cbn. intros Hv.
  apply Bool.eq_true_iff_eq.
  rewrite orb_true_iff, !Qlt_bool_iff, ssq_abs. unfold ssq.
  destruct (Qlt_le_dec t 0) as [Ht|Ht].
  - rewrite Qabs_neg by lra. split; [by left|]. intros _.
    assert (H : 0 < (- t) * (- t) * v).
    { repeat apply Qmult_lt_0_compat; lra. }
    pose proof (sq_nonneg d).
    assert (E : t * - t * v == - ((- t) * (- t) * v)) by ring.
    rewrite E. lra.
  - rewrite Qabs_pos by done. split; [by right|]. intros [?|?]; [lra|done].
Qed.

Lemma dropna_Some qs : dropna (map Some qs) = qs.
Proof. induction qs as [|x qs IH]; [done|]. cbn. unfold dropna in IH. by rewrite IH. Qed.

Lemma dropna_length xs : (length (dropna xs) <= length xs)%nat.
Proof.
  unfold dropna. induction xs as [|[x|] xs IH]; cbn; [lia| |];
    fold (omap id xs); cbn; lia.
Qed.

Lemma Qlen_cons x qs : Qlen (x :: qs) == Qlen qs + 1.
Proof.
  unfold Qlen. cbn [length]. rewrite Nat2Z.inj_succ, <- Z.add_1_r.
  rewrite inject_Z_plus. reflexivity.
Qed.

Lemma Qlen_nonneg qs : 0 <= Qlen qs.
Proof.
  unfold Qlen. replace 0 with (inject_Z 0) by done.
  rewrite <- Zle_Qle. lia.
Qed.

Lemma sqdev_cons m x qs : sqdev m (x :: qs) = (x - m) * (x - m) + sqdev m qs.
Proof. reflexivity. Qed.

Lemma sqdev_nonneg m qs : 0 <= sqdev m qs.
Proof.
  induction qs as [|x qs IH]; [unfold sqdev; cbn; lra|].
  rewrite sqdev_cons. pose proof (sq_nonneg (x - m)). lra.
Qed.

(** A squared deviation is at most the sum of all of them. *)
Lemma sqdev_ge m x qs : x ∈ qs -> (x - m) * (x - m) <= sqdev m qs.
Proof.
  induction qs as [|y qs IH]; [by intros ?%elem_of_nil|].
  intros [->|Hin]%elem_of_cons; rewrite sqdev_cons.
  - pose proof (sqdev_nonneg m qs). lra.
  - specialize (IH Hin). pose proof (sq_nonneg (y - m)). lra.
Qed.

(** The effect of [x / std] when the variance is [v]. *)
Lemma ndiv_sqrt_not_gt (d v t : Q) :
  0 <= t -> d * d <= t * t * v -> (v == 0 -> d == 0) ->
  surd_gtb (sabs (ndiv (Some d) (sqrt_num (Some v)))) t = false.
Proof.
  intros Ht Hd H0. unfold sqrt_num.
  destruct (Qlt_bool v 0) eqn:Hneg; [done|].
  destruct (Qeq_bool v 0) eqn:Hz.
  - apply Qeq_bool_iff in Hz. cbn.
    assert (Qeq_bool 0 0 = true) as -> by done.
    rewrite (Qeq_eq_bool d 0) by auto. done.
  - cbn. rewrite Hz. cbn. apply Qlt_bool_false.
    apply Qeq_bool_neq in Hz.
    rewrite ssq_abs, Qred_correct, (ssq_nonneg t) by done.
    assert (d * v / v == d) as -> by (field; done). done.
Qed.

Lemma mean_dropna xs : mean xs = mean (map Some (dropna xs)).
Proof. unfold mean. by rewrite dropna_Some. Qed.

Lemma std_dropna xs : std xs = std (map Some (dropna xs)).
Proof. unfold std, var. by rewrite dropna_Some. Qed.

Lemma Qlen_two a b qs : 1 <= Qlen (a :: b :: qs) - 1.
Proof. rewrite !Qlen_cons. pose proof (Qlen_nonneg qs). lra. Qed.

(** A z-score against the sample deviation is at most [sqrt (n - 1)] in
    absolute value, and is NaN when the deviation is 0 or undefined. *)
Lemma zscore_not_gt (qs : list Q) (x t : Q) :
  x ∈ qs -> 0 <= t -> Qlen qs - 1 <= t * t ->
  surd_gtb (sabs (ndiv (nsub (Some x) (mean (map Some qs)))
                       (std (map Some qs)))) t = false.
Proof.
  intros Hin Ht Hn. unfold mean, std, var. rewrite dropna_Some.
  destruct qs as [|a [|b qs]]; [by apply elem_of_nil in Hin | done |].
  pose proof (Qlen_two a b qs) as Hlen.
  set (l := a :: b :: qs) in *. cbn [nsub].
  pose proof (sqdev_ge (Qsum l / Qlen l) x l Hin) as Hge.
  pose proof (sqdev_nonneg (Qsum l / Qlen l) l) as Hnn.
  generalize dependent (sqdev (Qsum l / Qlen l) l). intros S Hge Hnn.
  generalize dependent (Qsum l / Qlen l). intros m Hge.
  generalize dependent (Qlen l). intros n Hn Hlen.
  assert (Hv : S / (n - 1) * (n - 1) == S) by (field; lra).
  assert (0 <= S / (n - 1)) by (apply Qle_shift_div_l; lra).
  generalize dependent (S / (n - 1)). intros v Hv Hv0.
  apply ndiv_sqrt_not_gt; [done| |].
  - rewrite !Qred_correct. nra.
  - rewrite !Qred_correct. intros Hz. apply sq_zero.
    assert (S == 0) by (rewrite <- Hv, Hz; ring).
    pose proof (sq_nonneg (x - m)). lra.
Qed.

Lemma zscore_num_not_gt (xs : list num) (x : num) (t : Q) :
  x ∈ xs -> 0 <= t -> Qlen (dropna xs) - 1 <= t * t ->
  surd_gtb (sabs (ndiv (nsub x (mean xs)) (std xs))) t = false.
Proof.
  intros Hin Ht Hn. destruct x as [x|]; [|done].
  rewrite mean_dropna, std_dropna. apply zscore_not_gt; [|done..].
  unfold dropna. apply list_elem_of_omap. by exists (Some x).
Qed.

Lemma sqrt_num_std_like x : std_like (sqrt_num x).
Proof.
  destruct x as [v|]; [|done]. unfold sqrt_num.
  destruct (Qlt_bool v 0) eqn:Hneg; [done|].
  destruct (Qeq_bool v 0) eqn:Hz; cbn; [lra|].
  apply Qlt_bool_false in Hneg. apply Qeq_bool_neq in Hz.
  destruct (Qlt_le_dec 0 v) as [|Hle]; [done|].
  exfalso. apply Hz. lra.
Qed.

Lemma ndiv_wf x s : std_like s -> wf_surd (ndiv x s).
Proof.
  intros Hs. destruct x as [d|]; [|done].
  destruct s as [| |n v]; [done..|]. cbn in *.
  destruct (Qeq_bool n 0); [by destruct (Qeq_bool d 0)|done].
Qed.

Lemma sabs_wf s : wf_surd s -> wf_surd (sabs s).
Proof. by destruct s. Qed.

(** *** The order on scores *)

Lemma surd_leb_total x y :
  is_nan x = false -> is_nan y = false ->
  surd_leb x y = false -> surd_leb y x = true.
Proof.
  destruct x as [|[]|d1 v1], y as [|[]|d2 v2]; cbn; try done.
  intros _ _ H. apply Qle_bool_iff.
  assert (~ ssq d1 * v2 <= ssq d2 * v1).
  { intros Hle. apply Qle_bool_iff in Hle. congruence. }
  lra.
Qed.

(** A score above [t] stays above [t] when it grows. *)
Lemma surd_gtb_mono x y t :
  wf_surd x -> wf_surd y ->
  surd_leb x y = true -> surd_gtb x t = true -> surd_gtb y t = true.
Proof.
  destruct x as [|[]|d1 v1], y as [|[]|d2 v2]; cbn; try done.
  intros H1 H2 Hle%Qle_bool_iff Hgt%Qlt_bool_iff. apply Qlt_bool_iff.
  generalize dependent (ssq d1). generalize dependent (ssq d2).
  generalize dependent (ssq t). intros T D2 D1 Hle Hgt.
  assert (T * v1 * v2 < D2 * v1) by nra.
  apply Qnot_le_lt. intros Hge.
  assert (D2 * v1 <= T * v2 * v1) by nra. lra.
Qed.

Lemma surd_gtb_not_nan x t : surd_gtb x t = true -> is_nan x = false.
Proof. by destruct x. Qed.

Lemma smax_step_wf acc x :
  wf_surd acc -> wf_surd x -> wf_surd (smax_step acc x).
Proof.
  intros. unfold smax_step.
  destruct (is_nan x), (is_nan acc), (surd_leb x acc); done.
Qed.

Lemma smax_step_gt_acc acc x t :
  wf_surd acc -> wf_surd x ->
  surd_gtb acc t = true -> surd_gtb (smax_step acc x) t = true.
Proof.
  intros Ha Hx Hgt. unfold smax_step.
  destruct (is_nan x) eqn:Nx; [done|].
  rewrite (surd_gtb_not_nan _ _ Hgt).
  destruct (surd_leb x acc) eqn:Hle; [done|].
  apply (surd_gtb_mono acc); [done..| |done].
  apply surd_leb_total; [done| |done]. by eapply surd_gtb_not_nan.
Qed.

Lemma smax_step_gt_new acc x t :
  wf_surd acc -> wf_surd x ->
  surd_gtb x t = true -> surd_gtb (smax_step acc x) t = true.
Proof.
  intros Ha Hx Hgt. unfold smax_step.
  rewrite (surd_gtb_not_nan _ _ Hgt).
  destruct (is_nan acc); [done|].
  destruct (surd_leb x acc) eqn:Hle; [|done].
  by apply (surd_gtb_mono x).
Qed.

Lemma fold_smax_gt l acc t :
  wf_surd acc -> Forall wf_surd l ->
  surd_gtb acc t = true \/ (exists x, x ∈ l /\ surd_gtb x t = true) ->
  surd_gtb (fold_left smax_step l acc) t = true.
Proof.
  intros Ha Hl. revert acc Ha.
  induction Hl as [|y l Hy Hl IH]; intros acc Ha H.
  - destruct H as [H|(x & Hx & _)]; [done|]. by apply elem_of_nil in Hx.
  - cbn. apply IH; [by apply smax_step_wf|].
    destruct H as [H|(x & [->|Hx]%elem_of_cons & Hgt)].
    + left. by apply smax_step_gt_acc.
    + left. by apply smax_step_gt_new.
    + right. eauto.
Qed.

(** The NaN-skipping maximum is above [t] as soon as one entry is. *)
Lemma smax_gt l x t :
  Forall wf_surd l -> x ∈ l -> surd_gtb x t = true ->
  surd_gtb (smax l) t = true.
Proof.
  intros Hl Hx Hgt. apply fold_smax_gt; [done..|]. right. eauto.
Qed.

(** *** Constant columns *)

Lemma Qsum_constant c qs :
  Forall (fun x => x == c) qs -> Qsum qs == c * Qlen qs.
Proof.
  induction 1 as [|x qs Hx _ IH].
  - unfold Qlen. cbn. ring.
  - rewrite Qlen_cons. cbn. rewrite IH, Hx. ring.
Qed.

Lemma sqdev_constant c m qs :
  Forall (fun x => x == c) qs -> m == c -> sqdev m qs == 0.
Proof.
  intros H Hm. induction H as [|x qs Hx _ IH]; [done|].
  rewrite sqdev_cons, IH, Hx, Hm. ring.
Qed.

(** The sample deviation of two or more identical values is 0. *)
Lemma std_constant c a b qs :
  Forall (fun x => x == c) (a :: b :: qs) ->
  std (map Some (a :: b :: qs)) = SFin 0 1.
Proof.
  intros H. unfold std, var. rewrite dropna_Some.
  pose proof (Qlen_two a b qs) as Hlen.
  set (l := a :: b :: qs) in *. cbn [sqrt_num].
  assert (Hm : Qsum l / Qlen l == c).
  { rewrite (Qsum_constant c) by done. field. lra. }
  assert (Hv : Qred (sqdev (Qsum l / Qlen l) l / (Qlen l - 1)) == 0).
  { rewrite Qred_correct, (sqdev_constant c) by done. field. lra. }
  assert (Qlt_bool (Qred (sqdev (Qsum l / Qlen l) l / (Qlen l - 1))) 0 = false)
    as -> by (apply Qlt_bool_false; lra).
  by rewrite (Qeq_eq_bool _ _ Hv).
Qed.

Lemma constant_head (qs : list Q) x :
  (forall a b, a ∈ x :: qs -> b ∈ x :: qs -> a == b) ->
  Forall (fun y => y == x) (x :: qs).
Proof.
  intros H. apply Forall_forall. intros y Hy. apply H; [done|by left].
Qed.

End FloatFacts.

(** ** Derived values as real numbers *)

Module DenotationFacts.
Import Float Props Denotation FloatFacts.
Import Reals Qreals Lra.
Local Open Scope R_scope.

Lemma Q2R_abs q : Q2R (Qabs q) = Rabs (Q2R q).
Proof.
  destruct (Qlt_le_dec q 0) as [Hq|Hq].
  - rewrite (Qeq_eqR _ _ (Qabs_neg q (Qlt_le_weak _ _ Hq))), Q2R_opp.
    apply Qlt_Rlt in Hq. rewrite RMicromega.Q2R_0 in Hq.
    by rewrite Rabs_left.
  - rewrite (Qeq_eqR _ _ (Qabs_pos q Hq)).
    apply Qle_Rle in Hq. rewrite RMicromega.Q2R_0 in Hq.
    by rewrite Rabs_right by lra.
Qed.

Lemma Q2R_ssq q : Q2R (ssq q) = Q2R q * Rabs (Q2R q).
Proof. unfold ssq. by rewrite Q2R_mult, Q2R_abs. Qed.

(** [x * |x|] grows strictly with [x]. *)
Lemma signed_square_lt a b : a < b <-> a * Rabs a < b * Rabs b.
Proof.
  unfold Rabs. destruct (Rcase_abs a), (Rcase_abs b); split; intros; nra.
Qed.

Lemma signed_square_le a b : a <= b <-> a * Rabs a <= b * Rabs b.
Proof.
  unfold Rabs. destruct (Rcase_abs a), (Rcase_abs b); split; intros; nra.
Qed.

Lemma sqrt_pos (v : Q) : (0 < v)%Q -> 0 < sqrt (Q2R v) /\ sqrt (Q2R v) * sqrt (Q2R v) = Q2R v.
Proof.
  intros Hv%Qlt_Rlt. rewrite RMicromega.Q2R_0 in Hv. split.
  - by apply sqrt_lt_R0.
  - apply sqrt_sqrt. lra.
Qed.

(** [surd_gtb] decides [d / sqrt v > t]. *)
Lemma surd_gtb_sound d v t :
  (0 < v)%Q -> surd_gtb (SFin d v) t = true <-> value d v > Q2R t.
Proof.
  intros Hv. destruct (sqrt_pos v Hv) as [Hs Hss]. cbn [surd_gtb].
  rewrite Qlt_bool_iff. unfold value.
  set (s := sqrt (Q2R v)) in *.
  assert (Hdiv : Q2R d / s > Q2R t <-> Q2R t * s < Q2R d).
  { split; intros H.
    - apply (Rmult_lt_compat_r s) in H; [|done]. 
      replace (Q2R d / s * s) with (Q2R d) in H by (field; lra). lra.
    - apply (Rmult_lt_reg_r s); [done|].
      replace (Q2R d / s * s) with (Q2R d) by (field; lra). lra. }
  rewrite Hdiv, signed_square_lt.
  rewrite (Rabs_mult (Q2R t) s), (Rabs_right s) by lra.
  replace (Q2R t * s * (Rabs (Q2R t) * s))
    with (Q2R t * Rabs (Q2R t) * Q2R v) by (rewrite <- Hss; ring).
  rewrite <- !Q2R_ssq, <- Q2R_mult. split; [apply Qlt_Rlt|apply Rlt_Qlt].
Qed.

(** [surd_leb] decides [d1 / sqrt v1 <= d2 / sqrt v2]. *)
Lemma surd_leb_sound d1 v1 d2 v2 :
  (0 < v1)%Q -> (0 < v2)%Q ->
  surd_leb (SFin d1 v1) (SFin d2 v2) = true <-> value d1 v1 <= value d2 v2.
Proof.
  intros H1 H2. destruct (sqrt_pos v1 H1) as [Hs1 Hss1].
  destruct (sqrt_pos v2 H2) as [Hs2 Hss2]. cbn [surd_leb].
  rewrite Qle_bool_iff. unfold value.
  set (s1 := sqrt (Q2R v1)) in *. set (s2 := sqrt (Q2R v2)) in *.
  assert (Hdiv : Q2R d1 / s1 <= Q2R d2 / s2 <-> Q2R d1 * s2 <= Q2R d2 * s1).
  { split; intros H.
    - apply (Rmult_le_compat_r (s1 * s2)) in H; [|nra].
      replace (Q2R d1 / s1 * (s1 * s2)) with (Q2R d1 * s2) in H by (field; lra).
      replace (Q2R d2 / s2 * (s1 * s2)) with (Q2R d2 * s1) in H by (field; lra).
      done.
    - apply (Rmult_le_reg_r (s1 * s2)); [nra|].
      replace (Q2R d1 / s1 * (s1 * s2)) with (Q2R d1 * s2) by (field; lra).
      replace (Q2R d2 / s2 * (s1 * s2)) with (Q2R d2 * s1) by (field; lra).
      done. }
  rewrite Hdiv, signed_square_le.
  rewrite !Rabs_mult, (Rabs_right s1), (Rabs_right s2) by lra.
  replace (Q2R d1 * s2 * (Rabs (Q2R d1) * s2))
    with (Q2R d1 * Rabs (Q2R d1) * Q2R v2) by (rewrite <- Hss2; ring).
  replace (Q2R d2 * s1 * (Rabs (Q2R d2) * s1))
    with (Q2R d2 * Rabs (Q2R d2) * Q2R v1) by (rewrite <- Hss1; ring).
  rewrite <- !Q2R_ssq, <- !Q2R_mult. split; [apply Qle_Rle|apply Rle_Qle].
Qed.

(** [sabs] is the absolute value. *)
Lemma sabs_sound d v : (0 < v)%Q -> value (Qabs d) v = Rabs (value d v).
Proof.
  intros Hv. destruct (sqrt_pos v Hv) as [Hs _]. unfold value.
  rewrite Q2R_abs. unfold Rdiv. rewrite Rabs_mult. f_equal.
  rewrite Rabs_right; [done|]. apply Rle_ge, Rlt_le. by apply Rinv_0_lt_compat.
Qed.

(** [magnitude_gt] in the real numbers: [t < |d / sqrt v|]. *)
Lemma magnitude_gt_sound d v t :
  (0 < v)%Q ->
  magnitude_gt (SFin d v) t = true <-> Q2R t < Rabs (value d v).
Proof.
  intros Hv. rewrite <- (surd_gtb_sabs (SFin d v)) by done. cbn [sabs].
  rewrite surd_gtb_sound, sabs_sound by done. reflexivity.
Qed.

Lemma denote_sabs s :
  wf_surd s -> denote (sabs s) = Rabs <$> denote s.
Proof.
  destruct s as [| |d v]; [done..|]. intros Hv. cbn.
  by rewrite sabs_sound.
Qed.

(** [sqrt_num] is the square root. *)
Lemma sqrt_num_sound v :
  (0 <= v)%Q ->
  exists d w, sqrt_num (Some v) = SFin d w /\ (0 < w)%Q /\
              value d w = sqrt (Q2R v).
Proof.
  intros Hv. unfold sqrt_num.
  assert (Qlt_bool v 0 = false) as -> by (by apply Qlt_bool_false).
  destruct (Qeq_bool v 0) eqn:Hz.
  - exists 0%Q, 1%Q. split; [done|]. split; [done|].
    apply Qeq_bool_iff, Qeq_eqR in Hz. rewrite Hz. unfold value.
    rewrite RMicromega.Q2R_0, RMicromega.Q2R_1, sqrt_0, sqrt_1. field.
  - exists v, v. split; [done|]. apply Qeq_bool_neq in Hz.
    assert (Hpos : (0 < v)%Q).
    { destruct (Qlt_le_dec 0 v) as [|Hle]; [done|]. exfalso. apply Hz.
      by apply Qle_antisym. }
    split; [done|]. destruct (sqrt_pos v Hpos) as [Hs Hss]. unfold value.
    rewrite <- Hss at 1. field. lra.
Qed.

(** [ndiv] by a finite, non-zero value is the quotient. *)
Lemma ndiv_sound d n v :
  ~ (n == 0)%Q -> (0 < v)%Q ->
  exists d', ndiv (Some d) (SFin n v) = SFin d' v /\
             value d' v = Q2R d / value n v.
Proof.
  intros Hn Hv. cbn [ndiv].
  destruct (Qeq_bool n 0) eqn:E; [by apply Qeq_bool_iff in E|].
  eexists. split; [done|]. destruct (sqrt_pos v Hv) as [Hs Hss].
  unfold value. rewrite (Qeq_eqR _ _ (Qred_correct _)).
  assert (Hn' : Q2R n <> 0).
  { intros H0. apply Hn. apply eqR_Qeq. by rewrite RMicromega.Q2R_0. }
  unfold Qdiv. rewrite !Q2R_mult, Q2R_inv by done.
  rewrite <- Hss at 1. field. split; lra.
Qed.

(** The score of the last point of a flat series with one outlier, as a
    real number. *)
Example value_660_326700 : value 660 326700 = 2 / sqrt 3.
Proof.
  unfold value.
  assert (H : sqrt (Q2R 326700) = 330 * sqrt 3).
  { replace (Q2R 326700) with ((330 * 330) * 3) by (unfold Q2R; cbn; field).
    rewrite sqrt_mult by lra. rewrite sqrt_square by lra. done. }
  rewrite H. replace (Q2R 660) with 660 by (unfold Q2R; cbn; field).
  assert (0 < sqrt 3) by (apply sqrt_lt_R0; lra). field. lra.
Qed.

End DenotationFacts.

Module RollingFacts.
Import Float FloatFacts.
Local Open Scope Q_scope.

Lemma strict_Some w qs : strict w = Some qs -> w = map Some qs.
Proof.
  unfold strict. intros H%mapM_Some.
  induction H as [|x y l k Hxy _ IH]; [done|]. cbn in *. by subst.
Qed.

Lemma rolling_length {A} (f : list num -> A) nan W xs :
  length (rolling f nan W xs) = length xs.
Proof. unfold rolling. by rewrite length_map, length_seq. Qed.

Lemma rolling_lookup {A} (f : list num -> A) nan W xs (i : nat) y :
  rolling f nan W xs !! i = Some y ->
  y = match window_at W xs i with Some w => f w | None => nan end.
Proof.
  unfold rolling. rewrite list_lookup_fmap.
  destruct (seq 0 (length xs) !! i) as [j|] eqn:E; [|done].
  apply lookup_seq in E as [-> _]. cbn. congruence.
Qed.

(** The window that ends at [i] has at most [W] values and holds the
    value at [i]. *)
Lemma window_at_spec W xs (i : nat) w x :
  window_at W xs i = Some w -> xs !! i = Some x ->
  (length w <= W)%nat /\ (W = 0%nat \/ x ∈ w).
Proof.
  unfold window_at. case_decide as HW; [|done]. intros [= <-] Hx. split.
  - rewrite length_take. lia.
  - destruct W as [|W]; [by left|right].
    apply list_elem_of_lookup. exists W.
    rewrite lookup_take_lt by lia. rewrite lookup_drop.
    by replace (S i - S W + W)%nat with i by lia.
Qed.

(** With a window of at most 10 points no rolling z-score exceeds 3. *)
Lemma rolling_zscore_not_gt W xs (i : nat) x m s :
  (W <= 10)%nat ->
  xs !! i = Some x ->
  rolling_mean W xs !! i = Some m ->
  rolling_std W xs !! i = Some s ->
  surd_gtb (sabs (ndiv (nsub x m) s)) 3 = false.
Proof.
  intros HW Hx Hm Hs.
  apply rolling_lookup in Hm, Hs. subst m s.
  destruct (window_at W xs i) as [w|] eqn:Hw; [|by destruct x].
  destruct (window_at_spec _ _ _ _ _ Hw Hx) as [Hlen Hin].
  unfold window_mean, window_std.
  destruct (strict w) as [qs|] eqn:Hqs; [|by destruct x].
  apply strict_Some in Hqs. subst w. rewrite length_map in Hlen.
  destruct Hin as [->|Hin].
  { destruct qs; [|cbn in Hlen; lia]. by destruct x. }
  apply zscore_num_not_gt; [done|lra|].
  rewrite dropna_Some. unfold Qlen.
  assert (inject_Z (Z.of_nat (length qs)) <= inject_Z 10).
  { rewrite <- Zle_Qle. lia. }
  replace (inject_Z 10) with 10 in * by done. lra.
Qed.

End RollingFacts.

(** ** DataFrame operations *)

Module PandasFacts.
Import Float Pandas.

Lemma mapM_cons {A B} (f : A -> result B) x l :
  mapM f (x :: l) =
  match f x with
  | Ok y => match mapM f l with Ok k => Ok (y :: k) | Raise e => Raise e end
  | Raise e => Raise e
  end.
Proof. done. Qed.

Lemma mapM_Ok {A B} (f : A -> result B) l k :
  mapM f l = Ok k <-> Forall2 (fun x y => f x = Ok y) l k.
Proof.
  revert k. induction l as [|x l IH]; intros k.
  - split; [intros [= <-]; constructor | by inversion 1].
  - rewrite mapM_cons. split.
    + destruct (f x) as [y|] eqn:Hy; [|done].
      destruct (mapM f l) as [k'|]; [|done].
      intros [= <-]. constructor; [done|]. by apply IH.
    + inversion 1 as [|? y ? k' Hxy Hl]; subst.
      apply IH in Hl. by rewrite Hxy, Hl.
Qed.

Lemma mapM_Ok_length {A B} (f : A -> result B) l k :
  mapM f l = Ok k -> length k = length l.
Proof. intros H%mapM_Ok. symmetry. by eapply Forall2_length. Qed.

Lemma mapM_Ok_fmap {A B} (f : A -> result B) (g : B -> A) l :
  (forall y, f (g y) = Ok y) -> mapM f (g <$> l) = Ok l.
Proof.
  intros Hfg. apply mapM_Ok. induction l; constructor; auto.
Qed.

Lemma to_nums_Num xs : to_nums (Num <$> xs) = Ok xs.
Proof. by apply mapM_Ok_fmap. Qed.

Lemma to_surds_Root zs : to_surds (Root <$> zs) = Ok zs.
Proof. by apply mapM_Ok_fmap. Qed.

Lemma to_nums_Root_inv zs xs : to_nums (Root <$> zs) = Ok xs -> xs = [].
Proof.
  intros H%mapM_Ok. destruct zs; inversion H; [done|]. discriminate.
Qed.

Lemma bind_Ok {A B} (m : result A) (f : A -> result B) b :
  m ≫= f = Ok b -> exists a, m = Ok a /\ f a = Ok b.
Proof. destruct m as [a|e]; [|done]. intros. by exists a. Qed.

Lemma bind_ret {A B} (a : A) (f : A -> result B) : Ok a ≫= f = f a.
Proof. done. Qed.

Lemma getitem_Ok df c l :
  getitem df c = Ok l -> c ∈ columns df /\ l = map (at_col c) (rows df).
Proof. unfold getitem. case_decide; [|done]. by intros [= <-]. Qed.

Lemma getitem_in df c :
  c ∈ columns df -> getitem df c = Ok (map (at_col c) (rows df)).
Proof. intros. unfold getitem. by rewrite decide_True. Qed.

Lemma getitem_length df c l : getitem df c = Ok l -> length l = length (rows df).
Proof. intros [_ ->]%getitem_Ok. by rewrite length_map. Qed.

Lemma assoc_set_eq c v l : assoc c (assoc_set c v l) = Some v.
Proof.
  induction l as [|[d w] l IH]; cbn; [by rewrite decide_True|].
  destruct (decide (c = d)) as [->|Hne]; cbn.
  - by rewrite decide_True.
  - by rewrite decide_False.
Qed.

Lemma assoc_set_ne c d v l : c ≠ d -> assoc d (assoc_set c v l) = assoc d l.
Proof.
  intros Hne. induction l as [|[e w] l IH]; cbn.
  - by rewrite decide_False.
  - destruct (decide (c = e)) as [->|Hce]; cbn.
    + by rewrite !decide_False.
    + by rewrite IH.
Qed.

(** Storing again what is stored changes nothing. *)
Lemma assoc_set_id c v l : assoc c l = Some v -> assoc_set c v l = l.
Proof.
  induction l as [|[e w] l IH]; cbn; [done|].
  destruct (decide (c = e)) as [->|Hce].
  - by intros [= ->].
  - intros H. by rewrite IH.
Qed.

Lemma at_col_set_cell_eq c r v : at_col c (set_cell c r v) = v.
Proof. unfold at_col, set_cell. cbn. by rewrite assoc_set_eq. Qed.

Lemma at_col_set_cell_ne c c' r v :
  c ≠ c' -> at_col c' (set_cell c r v) = at_col c' r.
Proof. intros. unfold at_col, set_cell. cbn. by rewrite assoc_set_ne. Qed.

Lemma columns_set_col df c vals c' :
  c' ∈ columns (set_col df c vals) <-> c' = c \/ c' ∈ columns df.
Proof.
  unfold set_col. cbn. case_decide.
  - split; [auto|]. by intros [->|].
  - rewrite elem_of_app, list_elem_of_singleton. tauto.
Qed.

Lemma rows_set_col df c vals :
  rows (set_col df c vals) = zip_with (set_cell c) (rows df) vals.
Proof. done. Qed.

Lemma length_rows_set_col df c vals :
  length vals = length (rows df) ->
  length (rows (set_col df c vals)) = length (rows df).
Proof. intros. rewrite rows_set_col, length_zip_with. lia. Qed.

Lemma map_at_col_zip_eq c rs vals :
  length vals = length rs ->
  map (at_col c) (zip_with (set_cell c) rs vals) = vals.
Proof.
  revert vals.
  induction rs as [|r rs IH]; intros [|v vals]; try done.
  cbn [zip_with map length]. intros [= H]. by rewrite at_col_set_cell_eq, IH.
Qed.

Lemma map_at_col_zip_ne c c' rs vals :
  c ≠ c' -> length vals = length rs ->
  map (at_col c') (zip_with (set_cell c) rs vals) = map (at_col c') rs.
Proof.
  intros Hne. revert vals.
  induction rs as [|r rs IH]; intros [|v vals]; try done.
  cbn [zip_with map length]. intros [= H]. by rewrite at_col_set_cell_ne, IH.
Qed.

Lemma getitem_set_col_eq df c vals :
  length vals = length (rows df) -> getitem (set_col df c vals) c = Ok vals.
Proof.
  intros. rewrite getitem_in by (apply columns_set_col; auto).
  by rewrite rows_set_col, map_at_col_zip_eq.
Qed.

Lemma getitem_set_col_ne df c c' vals :
  c ≠ c' -> length vals = length (rows df) ->
  getitem (set_col df c vals) c' = getitem df c'.
Proof.
  intros Hne Hlen. unfold getitem.
  destruct (decide (c' ∈ columns df)) as [Hin|Hin].
  - rewrite decide_True by (apply columns_set_col; auto).
    by rewrite rows_set_col, map_at_col_zip_ne.
  - rewrite decide_False; [done|]. rewrite columns_set_col. by intros [->|?].
Qed.

Lemma Forall_column (P : cell -> Prop) c rs :
  Forall P (map (at_col c) rs) <-> Forall (fun r => P (at_col c r)) rs.
Proof. apply Forall_fmap. Qed.

Lemma sort_values_Ok df c asc sorted :
  sort_values df c asc = Ok sorted ->
  columns sorted = columns df /\ rows sorted ≡ₚ rows df.
Proof.
  unfold sort_values. intros (keys & _ & H)%bind_Ok.
  destruct (sortable keys); [|done]. injection H as <-. split; [done|].
  apply merge_sort_Permutation.
Qed.

Lemma sort_values_len df c asc sorted :
  sort_values df c asc = Ok sorted -> len sorted = len df.
Proof.
  intros [_ H]%sort_values_Ok. unfold len. by rewrite H.
Qed.

End PandasFacts.

Module NumericFacts.
Import Float Pandas Props PandasFacts.

Lemma numeric_col_spec df c :
  numeric_col df c = true <->
  c ∈ columns df /\ Forall (fun r => is_num (at_col c r) = true) (rows df).
Proof.
  unfold numeric_col. rewrite andb_true_iff, bool_decide_eq_true.
  rewrite forallb_forall, Forall_forall.
  split; intros [Hc H]; (split; [done|]); intros r Hr; apply H;
    by apply list_elem_of_In.
Qed.

Lemma numeric_col_read df c :
  numeric_col df c = true ->
  exists xs, getitem df c = Ok (Num <$> xs) /\ length xs = length (rows df).
Proof.
  intros [Hc H]%numeric_col_spec.
  exists (map (fun r => match at_col c r with Num x => x | _ => None end)
            (rows df)).
  rewrite getitem_in by done. split; [|by rewrite length_map].
  f_equal. rewrite <- list_fmap_compose. apply list_fmap_ext.
  intros i r Hr. apply list_elem_of_lookup_2 in Hr.
  rewrite Forall_forall in H. specialize (H r Hr). cbn.
  by destruct (at_col c r).
Qed.

Lemma numeric_col_set_col_ne df c d vals :
  c ≠ d -> length vals = length (rows df) ->
  numeric_col (set_col df d vals) c = numeric_col df c.
Proof.
  intros Hne Hl. apply eq_true_iff_eq. rewrite !numeric_col_spec.
  rewrite columns_set_col.
  rewrite <- !(Forall_column (fun v => is_num v = true) c).
  rewrite rows_set_col, map_at_col_zip_ne by done.
  split; [intros [[->|?] ?]; done | intros [? ?]; auto].
Qed.

Lemma numeric_col_set_col_eq df c xs :
  length xs = length (rows df) ->
  numeric_col (set_col df c (Num <$> xs)) c = true.
Proof.
  intros Hl. apply numeric_col_spec. split.
  - apply columns_set_col. by left.
  - apply (Forall_column (fun v => is_num v = true) c).
    rewrite rows_set_col, map_at_col_zip_eq by (by rewrite length_fmap).
    by apply Forall_fmap, Forall_true.
Qed.

Lemma numeric_col_perm df df' c :
  columns df' = columns df -> rows df' ≡ₚ rows df ->
  numeric_col df' c = numeric_col df c.
Proof.
  intros Hc Hr. apply eq_true_iff_eq. rewrite !numeric_col_spec.
  by rewrite Hc, Hr.
Qed.

End NumericFacts.

(** ** The time-series detector in exact arithmetic *)

Module TimeSeriesFacts.
Import Float Pandas Utils AnomalyDetection Examples.
Import Props FloatFacts RollingFacts PandasFacts NumericFacts.
Local Open Scope Q_scope.

Lemma rolling_std_like W xs (i : nat) s :
  rolling_std W xs !! i = Some s -> std_like s.
Proof.
  intros ->%rolling_lookup. destruct (window_at W xs i); [|done].
  unfold window_std. destruct (strict _); [|done]. apply sqrt_num_std_like.
Qed.

(** [x - x] divided by a deviation is 0 or NaN. *)
Lemma ndiv_self_not_gt (x : num) s t :
  0 <= t -> std_like s -> surd_gtb (sabs (ndiv (nsub x x) s)) t = false.
Proof.
  intros Ht Hs. destruct x as [a|]; [|done]. cbn [nsub].
  assert (Hd : Qred (a - a) == 0) by (rewrite Qred_correct; ring).
  destruct s as [| |n v]; [done..|]. cbn in Hs. cbn [ndiv].
  destruct (Qeq_bool n 0) eqn:Hn.
  - by rewrite (Qeq_eq_bool _ _ Hd).
  - apply Qeq_bool_neq in Hn. cbn. apply Qlt_bool_false.
    rewrite ssq_abs, Qred_correct, Hd, (ssq_nonneg t) by done.
    assert (0 * v / n == 0) as -> by (field; done). nra.
Qed.

(** Lines 123-127 leave a score column none of whose entries exceeds the
    threshold. *)
Lemma add_rolling_quiet df value_col W wf :
  (W <= 10)%nat ->
  add_rolling df value_col W = Ok wf ->
  exists zs, getitem wf "rolling_z_score" = Ok (Root <$> zs) /\ Forall quiet zs.
Proof.
  intros HW H. unfold add_rolling in H.
  apply bind_Ok in H as (v1 & Hv1 & H).
  apply bind_Ok in Hv1 as (c1 & Hc1 & Hv1).
  pose proof (getitem_length _ _ _ Hc1) as Lc1.
  pose proof (mapM_Ok_length _ _ _ Hv1) as Lv1.
  set (df1 := set_col df "rolling_mean" (Num <$> rolling_mean W v1)) in *.
  assert (L1 : length (Num <$> rolling_mean W v1) = length (rows df)).
  { rewrite length_fmap. unfold rolling_mean. rewrite rolling_length. lia. }
  pose proof (length_rows_set_col df "rolling_mean" _ L1) as Ldf1. fold df1 in Ldf1.
  apply bind_Ok in H as (v2 & Hv2 & H).
  apply bind_Ok in Hv2 as (c2 & Hc2 & Hv2).
  pose proof (getitem_length _ _ _ Hc2) as Lc2.
  pose proof (mapM_Ok_length _ _ _ Hv2) as Lv2.
  set (df2 := set_col df1 "rolling_std" (Root <$> rolling_std W v2)) in *.
  assert (L2 : length (Root <$> rolling_std W v2) = length (rows df1)).
  { rewrite length_fmap. unfold rolling_std. rewrite rolling_length. lia. }
  apply bind_Ok in H as (v3 & Hv3 & H).
  apply bind_Ok in Hv3 as (c3 & Hc3 & Hv3).
  apply bind_Ok in H as (m & Hm & H).
  apply bind_Ok in Hm as (cm & Hcm & Hm).
  apply bind_Ok in H as (s & Hs & H).
  apply bind_Ok in Hs as (cs & Hcs & Hs).
  pose proof (getitem_length _ _ _ Hc3) as Lc3.
  pose proof (mapM_Ok_length _ _ _ Hv3) as Lv3.
  pose proof (getitem_length _ _ _ Hcm) as Lcm.
  pose proof (mapM_Ok_length _ _ _ Hm) as Lm.
  pose proof (getitem_length _ _ _ Hcs) as Lcs.
  pose proof (mapM_Ok_length _ _ _ Hs) as Ls.
  injection H as <-. eexists. split.
  { apply getitem_set_col_eq. rewrite length_fmap, !length_zip_with. lia. }
  (* what the three derived reads return *)
  unfold df2 in Hcs. rewrite getitem_set_col_eq in Hcs by done.
  injection Hcs as <-. rewrite to_surds_Root in Hs. injection Hs as <-.
  unfold df2 in Hcm. rewrite getitem_set_col_ne in Hcm by done.
  unfold df1 in Hcm. rewrite getitem_set_col_eq in Hcm by done.
  injection Hcm as <-. rewrite to_nums_Num in Hm. injection Hm as <-.
  apply Forall_lookup. intros i z Hz.
  apply lookup_zip_with_Some in Hz as (d & s & -> & Hd & Hs).
  apply lookup_zip_with_Some in Hd as (x & m & -> & Hx & Hm).
  destruct (decide (value_col = "rolling_std")) as [->|Hns].
  { unfold df2 in Hc3. rewrite getitem_set_col_eq in Hc3 by done.
    injection Hc3 as <-. apply to_nums_Root_inv in Hv3. by subst v3. }
  unfold df2 in Hc3. rewrite getitem_set_col_ne in Hc3 by done.
  assert (c3 = c2) as -> by congruence.
  assert (v3 = v2) as -> by congruence.
  destruct (decide (value_col = "rolling_mean")) as [->|Hnm].
  - unfold df1 in Hc2. rewrite getitem_set_col_eq in Hc2 by done.
    injection Hc2 as <-. rewrite to_nums_Num in Hv2. injection Hv2 as <-.
    assert (x = m) as -> by congruence.
    apply ndiv_self_not_gt; [unfold Z_SCORE_THRESHOLD; lra|].
    by eapply rolling_std_like.
  - unfold df1 in Hc2. rewrite getitem_set_col_ne in Hc2 by done.
    assert (c2 = c1) as -> by congruence.
    assert (v2 = v1) as -> by congruence.
    by eapply rolling_zscore_not_gt.
Qed.

Lemma abs_gt_quiet zs :
  Forall quiet zs ->
  abs_gt Z_SCORE_THRESHOLD (Root <$> zs) = Ok (replicate (length zs) false).
Proof.
  intros H. apply mapM_Ok.
  induction H as [|z zs Hz _ IH]; cbn; constructor; [|done].
  unfold exceeds. cbn. by rewrite Hz.
Qed.

Lemma select_replicate_false {A} n (l : list A) :
  select (replicate n false) l = [].
Proof. revert l. induction n; intros [|x l]; cbn; auto. Qed.

(** The detector in closed form: the caller's object is untouched and the
    result, when there is one, has no rows. *)
Lemma detect_time_series_run value_col date_col df :
  detect_time_series_anomalies value_col date_col df =
  (sorted ← sort_values df date_col true;
   if bool_decide (window_size sorted < 2)%Z then Ok empty_frame
   else wf ← add_rolling sorted value_col (Z.to_nat (window_size sorted));
        Ok (mkDF (columns wf) []),
   df).
Proof.
  unfold detect_time_series_anomalies, mbind at 1, M_bind, get, lift.
  unfold mbind at 1, M_bind.
  destruct (sort_values df date_col true) as [sorted|e]; [|done]. cbn.
  case_bool_decide as Hw; [done|].
  unfold mbind at 1, M_bind.
  destruct (add_rolling _ _ _) as [wf|e] eqn:Hwf; [|done]. cbn.
  apply add_rolling_quiet in Hwf as (zs & Hrz & Hq);
    [|unfold window_size; lia].
  unfold mbind, M_bind. rewrite Hrz, (abs_gt_quiet _ Hq).
  unfold mret, M_ret, filter_rows. by rewrite select_replicate_false.
Qed.

Lemma detect_time_series_empty value_col date_col df out df' :
  detect_time_series_anomalies value_col date_col df = (Ok out, df') ->
  rows out = [].
Proof.
  rewrite detect_time_series_run. intros [= H _].
  apply bind_Ok in H as (sorted & _ & H).
  case_bool_decide; [by injection H as <-|].
  apply bind_Ok in H as (wf & _ & H). by injection H as <-.
Qed.

(** It never assigns to the caller's object. *)
Lemma detect_time_series_state value_col date_col df :
  snd (detect_time_series_anomalies value_col date_col df) = df.
Proof. by rewrite detect_time_series_run. Qed.

(** On a numeric column the rolling columns are always computed. *)
Lemma add_rolling_total df value_col W :
  numeric_col df value_col = true -> value_col ≠ "rolling_std" ->
  exists wf, add_rolling df value_col W = Ok wf.
Proof.
  intros Hnum Hns. unfold add_rolling.
  destruct (numeric_col_read _ _ Hnum) as (v1 & Hv1 & L1).
  rewrite Hv1, bind_ret, to_nums_Num, bind_ret.
  set (df1 := set_col df "rolling_mean" (Num <$> rolling_mean W v1)).
  assert (Lm : length (rolling_mean W v1) = length (rows df)).
  { unfold rolling_mean. by rewrite rolling_length. }
  assert (Ldf1 : length (rows df1) = length (rows df)).
  { apply length_rows_set_col. by rewrite length_fmap. }
  assert (Hnum1 : numeric_col df1 value_col = true).
  { destruct (decide (value_col = "rolling_mean")) as [->|Hne].
    - by apply numeric_col_set_col_eq.
    - unfold df1. rewrite numeric_col_set_col_ne; [done..|].
      by rewrite length_fmap. }
  destruct (numeric_col_read _ _ Hnum1) as (v2 & Hv2 & L2).
  rewrite Hv2, bind_ret, to_nums_Num, bind_ret.
  set (df2 := set_col df1 "rolling_std" (Root <$> rolling_std W v2)).
  assert (Ls : length (Root <$> rolling_std W v2) = length (rows df1)).
  { unfold rolling_std. by rewrite length_fmap, rolling_length. }
  unfold df2. rewrite (getitem_set_col_ne _ _ value_col) by done.
  rewrite Hv2, bind_ret, to_nums_Num, bind_ret.
  rewrite (getitem_set_col_ne _ _ "rolling_mean") by done.
  assert (getitem df1 "rolling_mean" = Ok (Num <$> rolling_mean W v1)) as ->
    by (apply getitem_set_col_eq; by rewrite length_fmap).
  rewrite bind_ret, to_nums_Num, bind_ret.
  rewrite getitem_set_col_eq by done.
  rewrite bind_ret, to_surds_Root, bind_ret. eauto.
Qed.

(** On a series with orderable period keys and a numeric value column the
    detector returns, and what it returns has no rows. *)
Lemma detect_time_series_total value_col date_col df :
  date_col ∈ columns df ->
  sortable (map (at_col date_col) (rows df)) = true ->
  numeric_col df value_col = true -> value_col ≠ "rolling_std" ->
  exists out, detect_time_series_anomalies value_col date_col df = (Ok out, df)
              /\ rows out = [].
Proof.
  intros Hd Hs Hnum Hns. rewrite detect_time_series_run.
  unfold sort_values. rewrite getitem_in by done.
  rewrite bind_ret, Hs, bind_ret.
  case_bool_decide; [by eexists|].
  set (sorted := mkDF _ _).
  destruct (add_rolling_total sorted value_col
              (Z.to_nat (window_size sorted))) as (wf & ->); [|done|by eexists].
  rewrite <- Hnum. apply numeric_col_perm; [done|].
  apply merge_sort_Permutation.
Qed.

(** The series of [kpi6]: the window is 3; the points of the flat stretch
    score NaN (too little history, then [0 / 0]); the last point scores
    [660 / sqrt 326700], which is [2 / sqrt 3], and 3 is not below it. *)
Example kpi6_rolling_scores :
  window_size kpi6 = 3%Z /\
  (sorted ← sort_values kpi6 "month" true;
   wf ← add_rolling sorted "value" 3;
   getitem wf "rolling_z_score")
  = Ok [Root SNaN; Root SNaN; Root SNaN; Root SNaN; Root SNaN;
        Root (SFin 660 326700)] /\
  surd_gtb (sabs (SFin 660 326700)) Z_SCORE_THRESHOLD = false.
Proof. repeat split; vm_compute; reflexivity. Qed.

End TimeSeriesFacts.

(** ** The cross-sectional detectors in closed form *)

Module CrossSectionFacts.
Import Float Pandas Utils AnomalyDetection.
Import Props FloatFacts PandasFacts.

(** The detector's comparison decides [above] on every well-formed
    float. *)
Lemma exceeds_above t v :
  is_str v = false -> wf_surd (surd_of v) -> exceeds t v = Ok (above t v).
Proof.
  destruct v as [x|z|s]; [| |done]; intros _ Hw; unfold exceeds; cbn;
    by rewrite surd_gtb_sabs.
Qed.

Lemma as_surd_of v : is_str v = false -> as_surd v = Ok (surd_of v).
Proof. by destruct v. Qed.

Lemma mapM_Ok_map {A B} (f : A -> result B) (g : A -> B) l :
  Forall (fun x => f x = Ok (g x)) l -> mapM f l = Ok (map g l).
Proof.
  intros H. apply mapM_Ok. induction H; constructor; auto.
Qed.

Lemma abs_gt_column t c rs :
  Forall (fun r => is_str (at_col c r) = false) rs ->
  Forall (fun r => wf_surd (surd_of (at_col c r))) rs ->
  abs_gt t (map (at_col c) rs) = Ok (map (fun r => above t (at_col c r)) rs).
Proof.
  intros H W. apply mapM_Ok.
  induction H as [|r rs Hr _ IH]; cbn; constructor.
  - apply exceeds_above; [done|]. by apply Forall_cons in W as [? _].
  - apply IH. by apply Forall_cons in W as [_ ?].
Qed.

Lemma wf_scores_cons c cols r :
  wf_scores (c :: cols) r <-> wf_surd (surd_of (at_col c r)) /\ wf_scores cols r.
Proof. unfold wf_scores. by rewrite Forall_cons. Qed.

Lemma select_map {A} (f : A -> bool) (l : list A) :
  select (map f l) l = filter f l.
Proof.
  induction l as [|x l IH]; [done|]. cbn. rewrite IH.
  unfold filter at 2. cbn. fold (filter f l).
  destruct (f x); by rewrite ?decide_True, ?decide_False by done.
Qed.

Lemma zip_with_orb_map {A} (f g : A -> bool) (l : list A) :
  zip_with orb (map f l) (map g l) = map (fun x => f x || g x) l.
Proof. induction l; cbn; congruence. Qed.

Lemma mapM_Ok_map2 {A B C} (f : B -> result C) (h : A -> B) (g : A -> C) l :
  Forall (fun x => f (h x) = Ok (g x)) l -> mapM f (map h l) = Ok (map g l).
Proof.
  intros H. apply mapM_Ok. induction H; cbn; constructor; auto.
Qed.

Lemma zip_with_set_cell_map {A} c (h : A -> Row) (g : A -> cell) l :
  zip_with (set_cell c) (map h l) (map g l) =
  map (fun x => set_cell c (h x) (g x)) l.
Proof. induction l; cbn; congruence. Qed.

Lemma zip_with_set_cell_self c (g : Row -> cell) l :
  zip_with (set_cell c) l (map g l) = map (fun r => set_cell c r (g r)) l.
Proof. induction l; cbn; congruence. Qed.

Lemma scored_cons c cols r :
  scored (c :: cols) r <-> is_str (at_col c r) = false /\ scored cols r.
Proof. unfold scored. by rewrite Forall_cons. Qed.

Lemma scored_set_cell cols c r v :
  c ∉ cols -> scored cols r -> scored cols (set_cell c r v).
Proof.
  unfold scored. intros Hc H. induction H as [|d cols Hd _ IH]; constructor.
  - rewrite at_col_set_cell_ne; [done|]. intros ->. apply Hc. by left.
  - apply IH. intros ?. apply Hc. by right.
Qed.

Lemma row_abs_max_scored cols r :
  scored cols r -> row_abs_max cols r = Ok (Root (severity_of cols r)).
Proof.
  intros H. unfold row_abs_max, severity_of.
  rewrite (mapM_Ok_map _ (fun c => surd_of (at_col c r))).
  - cbn. by rewrite <- list_fmap_compose.
  - eapply Forall_impl; [done|]. intros c Hc. by apply as_surd_of.
Qed.

Lemma severity_of_set_cell cols c r v :
  c ∉ cols -> severity_of cols (set_cell c r v) = severity_of cols r.
Proof.
  intros Hc. unfold severity_of. f_equal. apply map_ext_in.
  intros d Hd%list_elem_of_In. rewrite at_col_set_cell_ne; [done|].
  by intros ->.
Qed.

Lemma cell_is_nan_false_filter (keys : list cell) :
  Forall (fun k => is_str k = false) keys -> sortable keys = true.
Proof.
  intros H. unfold sortable. apply orb_true_iff. right.
  apply forallb_forall. intros k Hk%list_elem_of_In.
  apply list_elem_of_filter in Hk as [_ Hk].
  rewrite Forall_forall in H. by rewrite H.
Qed.

(** Sorting by the severity column of decorated rows cannot fail. *)
Lemma sort_by_severity cs rs cols lbl :
  "severity" ∈ cs ->
  sort_values (mkDF cs (map (decorate cols lbl) rs)) "severity" false =
  Ok (mkDF cs (merge_sort (row_before "severity" false)
                 (map (decorate cols lbl) rs))).
Proof.
  intros Hin. unfold sort_values. rewrite getitem_in by done. cbn.
  rewrite cell_is_nan_false_filter; [done|].
  apply Forall_forall. intros k Hk.
  apply list_elem_of_fmap in Hk as (r' & -> & Hr').
  apply list_elem_of_fmap in Hr' as (r & -> & _).
  unfold decorate. by rewrite at_col_set_cell_eq.
Qed.

Lemma add_column_elem c cs : c ∈ add_column c cs.
Proof.
  unfold add_column. case_decide; [done|].
  apply elem_of_app. right. by left.
Qed.

(** Lines 37-52 on a frame that carries its score columns. *)
Lemma flag_cost_run t df :
  "variance_z_score" ∈ columns df -> "actual_z_score" ∈ columns df ->
  Forall (scored cost_scores) (rows df) ->
  Forall (wf_scores cost_scores) (rows df) ->
  flag_cost_anomalies t df = Ok (flagged_frame cost_scores (cost_label t) t df).
Proof.
  intros Hv Ha Hs Hw. unfold flag_cost_anomalies.
  assert (Hw1 : Forall (fun r => wf_surd (surd_of (at_col "variance_z_score" r)))
                  (rows df)).
  { eapply Forall_impl; [exact Hw|]. by intros r (? & _)%wf_scores_cons. }
  assert (Hw2 : Forall (fun r => wf_surd (surd_of (at_col "actual_z_score" r)))
                  (rows df)).
  { eapply Forall_impl; [exact Hw|].
    intros r (_ & Hr)%wf_scores_cons. by apply wf_scores_cons in Hr as (? & _). }
  assert (Hs1 : Forall (fun r => is_str (at_col "variance_z_score" r) = false)
                  (rows df)).
  { eapply Forall_impl; [exact Hs|]. by intros r (? & _)%scored_cons. }
  assert (Hs2 : Forall (fun r => is_str (at_col "actual_z_score" r) = false)
                  (rows df)).
  { eapply Forall_impl; [exact Hs|].
    intros r (_ & Hr)%scored_cons. by apply scored_cons in Hr as (? & _). }
  rewrite !getitem_in by done. unfold mbind, result_bind.
  rewrite !abs_gt_column by done. rewrite zip_with_orb_map.
  unfold filter_rows. rewrite select_map.
  set (keep := filter _ (rows df)).
  assert (Hk : Forall (scored cost_scores) keep).
  { apply Forall_forall. intros r [_ Hr]%list_elem_of_filter.
    rewrite Forall_forall in Hs. auto. }
  assert (Hkw : Forall (wf_scores cost_scores) keep).
  { apply Forall_forall. intros r [_ Hr]%list_elem_of_filter.
    rewrite Forall_forall in Hw. auto. }
  unfold apply_rows. cbn [rows].
  rewrite (mapM_Ok_map _ (fun r => Str (cost_label t r))); cycle 1.
  { apply Forall_forall. intros r Hr. rewrite Forall_forall in Hk, Hkw.
    destruct (proj1 (scored_cons _ _ _) (Hk r Hr)) as [Hs' _].
    destruct (proj1 (wf_scores_cons _ _ _) (Hkw r Hr)) as [Hw' _].
    unfold cost_anomaly_type, cost_label. by rewrite exceeds_above. }
  unfold set_col. cbn [rows columns]. rewrite zip_with_set_cell_self.
  rewrite (mapM_Ok_map2 _ _ (fun r => Root (severity_of cost_scores r))); cycle 1.
  { eapply Forall_impl; [exact Hk|]. intros r Hr.
    rewrite row_abs_max_scored by (by apply scored_set_cell; [by_compute|]).
    by rewrite severity_of_set_cell by by_compute. }
  rewrite zip_with_set_cell_map.
  fold (add_column "severity" (add_column "anomaly_type" (columns df))).
  change (fun x => set_cell "severity" _ _) with (decorate cost_scores (cost_label t)).
  rewrite sort_by_severity by apply add_column_elem.
  unfold flagged_frame. do 4 f_equal. unfold keep.
  apply list_filter_iff. intros r. unfold flagged, cost_scores. cbn.
  by rewrite orb_false_r.
Qed.

(** Lines 77-94 on a frame that carries its score columns. *)
Lemma flag_loan_run t df :
  "pd_z_score" ∈ columns df -> "ecl_z_score" ∈ columns df ->
  "ead_z_score" ∈ columns df ->
  Forall (scored loan_scores) (rows df) ->
  Forall (wf_scores loan_scores) (rows df) ->
  flag_loan_anomalies t df = Ok (flagged_frame loan_scores (loan_label t) t df).
Proof.
  intros Hp He Ha Hs Hw. unfold flag_loan_anomalies.
  assert (Hw1 : Forall (fun r => wf_surd (surd_of (at_col "pd_z_score" r)))
                  (rows df)).
  { eapply Forall_impl; [exact Hw|]. by intros r (? & _)%wf_scores_cons. }
  assert (Hw2 : Forall (fun r => wf_surd (surd_of (at_col "ecl_z_score" r)))
                  (rows df)).
  { eapply Forall_impl; [exact Hw|].
    intros r (_ & Hr)%wf_scores_cons. by apply wf_scores_cons in Hr as (? & _). }
  assert (Hw3 : Forall (fun r => wf_surd (surd_of (at_col "ead_z_score" r)))
                  (rows df)).
  { eapply Forall_impl; [exact Hw|].
    intros r (_ & Hr)%wf_scores_cons. apply wf_scores_cons in Hr as (_ & Hr).
    by apply wf_scores_cons in Hr as (? & _). }
  assert (Hs1 : Forall (fun r => is_str (at_col "pd_z_score" r) = false)
                  (rows df)).
  { eapply Forall_impl; [exact Hs|]. by intros r (? & _)%scored_cons. }
  assert (Hs2 : Forall (fun r => is_str (at_col "ecl_z_score" r) = false)
                  (rows df)).
  { eapply Forall_impl; [exact Hs|].
    intros r (_ & Hr)%scored_cons. by apply scored_cons in Hr as (? & _). }
  assert (Hs3 : Forall (fun r => is_str (at_col "ead_z_score" r) = false)
                  (rows df)).
  { eapply Forall_impl; [exact Hs|].
    intros r (_ & Hr)%scored_cons. apply scored_cons in Hr as (_ & Hr).
    by apply scored_cons in Hr as (? & _). }
  rewrite !getitem_in by done. unfold mbind, result_bind.
  rewrite !abs_gt_column by done. rewrite !zip_with_orb_map.
  unfold filter_rows. rewrite select_map.
  set (keep := filter _ (rows df)).
  assert (Hk : Forall (scored loan_scores) keep).
  { apply Forall_forall. intros r [_ Hr]%list_elem_of_filter.
    rewrite Forall_forall in Hs. auto. }
  assert (Hkw : Forall (wf_scores loan_scores) keep).
  { apply Forall_forall. intros r [_ Hr]%list_elem_of_filter.
    rewrite Forall_forall in Hw. auto. }
  unfold apply_rows. cbn [rows].
  rewrite (mapM_Ok_map _ (fun r => Str (loan_label t r))); cycle 1.
  { apply Forall_forall. intros r Hr. rewrite Forall_forall in Hk, Hkw.
    destruct (proj1 (scored_cons _ _ _) (Hk r Hr)) as [Hs' Hs''].
    apply scored_cons in Hs'' as (Hs'' & _).
    destruct (proj1 (wf_scores_cons _ _ _) (Hkw r Hr)) as [Hw' Hw''].
    apply wf_scores_cons in Hw'' as (Hw'' & _).
    unfold loan_anomaly_type, loan_label, mbind, result_bind.
    rewrite !exceeds_above by done.
    by destruct (above t (at_col "pd_z_score" r)). }
  unfold set_col. cbn [rows columns]. rewrite zip_with_set_cell_self.
  rewrite (mapM_Ok_map2 _ _ (fun r => Root (severity_of loan_scores r))); cycle 1.
  { eapply Forall_impl; [exact Hk|]. intros r Hr.
    rewrite row_abs_max_scored by (by apply scored_set_cell; [by_compute|]).
    by rewrite severity_of_set_cell by by_compute. }
  rewrite zip_with_set_cell_map.
  fold (add_column "severity" (add_column "anomaly_type" (columns df))).
  change (fun x => set_cell "severity" _ _) with (decorate loan_scores (loan_label t)).
  rewrite sort_by_severity by apply add_column_elem.
  unfold flagged_frame. do 4 f_equal. unfold keep.
  apply list_filter_iff. intros r. unfold flagged, loan_scores. cbn.
  by rewrite orb_false_r, orb_assoc.
Qed.

(** *** The scoring lines *)

Lemma calculate_z_score_Ok s z :
  calculate_z_score s = Ok z ->
  length z = length s /\ Forall (fun v => is_str v = false) z.
Proof.
  unfold calculate_z_score. intros (xs & Hxs & H)%bind_Ok.
  apply mapM_Ok_length in Hxs.
  destruct (surd_eq0 _); injection H as <-.
  - split; [by rewrite length_replicate|]. by apply Forall_replicate.
  - split; [by rewrite length_map|]. by apply Forall_fmap, Forall_true.
Qed.

Lemma with_z_score_Ok dst src df df' :
  with_z_score dst src df = Ok df' ->
  exists z, getitem df src ≫= calculate_z_score = Ok z /\
            df' = set_col df dst z /\
            length z = length (rows df) /\
            Forall (fun v => is_str v = false) z.
Proof.
  unfold with_z_score. intros (z & Hz & [= <-])%bind_Ok.
  exists z. split; [done|]. split; [done|].
  apply bind_Ok in Hz as (s & Hs & Hz).
  apply getitem_length in Hs. apply calculate_z_score_Ok in Hz as [Hl Hz].
  split; [congruence|done].
Qed.

Lemma assign_z_score_run dst src df :
  assign_z_score dst src df =
  match with_z_score dst src df with
  | Ok df' => (Ok tt, df')
  | Raise e => (Raise e, df)
  end.
Proof.
  unfold assign_z_score, with_z_score, column, setitem, get, put, lift.
  unfold mbind, M_bind, result_bind.
  destruct (getitem df src) as [s|e]; [|done].
  by destruct (calculate_z_score s).
Qed.

(** A scoring line leaves the other columns and the row count alone. *)
Lemma with_z_score_other dst src df df' c :
  with_z_score dst src df = Ok df' -> c ≠ dst ->
  getitem df' c = getitem df c.
Proof.
  intros (z & _ & -> & Hl & _)%with_z_score_Ok Hc.
  by apply getitem_set_col_ne.
Qed.

Lemma with_z_score_scored dst src df df' :
  with_z_score dst src df = Ok df' ->
  dst ∈ columns df' /\
  Forall (fun r => is_str (at_col dst r) = false) (rows df').
Proof.
  intros (z & _ & -> & Hl & Hz)%with_z_score_Ok. split.
  - apply columns_set_col. by left.
  - apply (Forall_column (fun v => is_str v = false)).
    rewrite rows_set_col. by rewrite map_at_col_zip_eq.
Qed.

Lemma with_z_score_keeps dst src df df' c :
  with_z_score dst src df = Ok df' -> c ≠ dst ->
  (c ∈ columns df -> c ∈ columns df') /\
  (Forall (fun r => is_str (at_col c r) = false) (rows df) ->
   Forall (fun r => is_str (at_col c r) = false) (rows df')).
Proof.
  intros (z & _ & -> & Hl & Hz)%with_z_score_Ok Hc. split.
  - intros ?. apply columns_set_col. by right.
  - intros H. apply (Forall_column (fun v => is_str v = false)).
    apply (Forall_column (fun v => is_str v = false)) in H.
    rewrite rows_set_col. by rewrite map_at_col_zip_ne.
Qed.

Lemma calculate_z_score_wf s z :
  calculate_z_score s = Ok z -> Forall (fun v => wf_surd (surd_of v)) z.
Proof.
  unfold calculate_z_score. intros (xs & _ & H)%bind_Ok.
  destruct (surd_eq0 _); injection H as <-.
  - apply Forall_replicate. by cbn.
  - apply Forall_fmap, Forall_true. intros x. cbn.
    apply ndiv_wf, sqrt_num_std_like.
Qed.

Lemma with_z_score_cells dst src df df' :
  with_z_score dst src df = Ok df' ->
  Forall (fun r => wf_surd (surd_of (at_col dst r))) (rows df') /\
  forall c, c ≠ dst -> map (at_col c) (rows df') = map (at_col c) (rows df).
Proof.
  intros (z & Hz & -> & Hl & _)%with_z_score_Ok. split.
  - apply (Forall_column (fun v => wf_surd (surd_of v))).
    rewrite rows_set_col, map_at_col_zip_eq by done.
    apply bind_Ok in Hz as (s & _ & Hz). by eapply calculate_z_score_wf.
  - intros c Hc. by rewrite rows_set_col, map_at_col_zip_ne.
Qed.

Lemma with_z_score_wf_keeps dst src df df' c :
  with_z_score dst src df = Ok df' -> c ≠ dst ->
  Forall (fun r => wf_surd (surd_of (at_col c r))) (rows df) ->
  Forall (fun r => wf_surd (surd_of (at_col c r))) (rows df').
Proof.
  intros H Hc W. destruct (with_z_score_cells _ _ _ _ H) as [_ K].
  apply (Forall_column (fun v => wf_surd (surd_of v))).
  rewrite (K c Hc). by apply (Forall_column (fun v => wf_surd (surd_of v))).
Qed.

(** [detect_cost_anomalies] in closed form. *)
Lemma detect_cost_run t df :
  detect_cost_anomalies t df =
  match with_z_score "variance_z_score" "variance_pct" df with
  | Raise e => (Raise e, df)
  | Ok df1 =>
      match with_z_score "actual_z_score" "actual_amount" df1 with
      | Raise e => (Raise e, df1)
      | Ok df2 => (Ok (flagged_frame cost_scores (cost_label t) t df2), df2)
      end
  end.
Proof.
  unfold detect_cost_anomalies. unfold mbind at 1, M_bind.
  rewrite assign_z_score_run.
  destruct (with_z_score _ _ df) as [df1|e] eqn:H1; [|done].
  unfold mbind at 1, M_bind. rewrite assign_z_score_run.
  destruct (with_z_score _ _ df1) as [df2|e] eqn:H2; [|done].
  unfold mbind, M_bind, get, lift.
  destruct (with_z_score_scored _ _ _ _ H1) as [Hc1 Hs1].
  destruct (with_z_score_scored _ _ _ _ H2) as [Hc2 Hs2].
  destruct (with_z_score_keeps _ _ _ _ "variance_z_score" H2) as [Hc3 Hs3];
    [done|].
  destruct (with_z_score_cells _ _ _ _ H1) as [W1 _].
  destruct (with_z_score_cells _ _ _ _ H2) as [W2 _].
  pose proof (with_z_score_wf_keeps _ _ _ _ "variance_z_score" H2
                ltac:(done) W1) as W12.
  rewrite flag_cost_run; auto.
  - specialize (Hs3 Hs1). rewrite Forall_forall in Hs2, Hs3.
    apply Forall_forall. intros r Hr. repeat constructor; auto.
  - rewrite Forall_forall in W2, W12.
    apply Forall_forall. intros r Hr. repeat constructor; auto.
Qed.

(** [detect_loan_anomalies] in closed form. *)
Lemma detect_loan_run t df :
  detect_loan_anomalies t df =
  match with_z_score "pd_z_score" "pd" df with
  | Raise e => (Raise e, df)
  | Ok df1 =>
      match with_z_score "ecl_z_score" "ecl" df1 with
      | Raise e => (Raise e, df1)
      | Ok df2 =>
          match with_z_score "ead_z_score" "ead" df2 with
          | Raise e => (Raise e, df2)
          | Ok df3 => (Ok (flagged_frame loan_scores (loan_label t) t df3), df3)
          end
      end
  end.
Proof.
  unfold detect_loan_anomalies. unfold mbind at 1, M_bind.
  rewrite assign_z_score_run.
  destruct (with_z_score _ _ df) as [df1|e] eqn:H1; [|done].
  unfold mbind at 1, M_bind. rewrite assign_z_score_run.
  destruct (with_z_score _ _ df1) as [df2|e] eqn:H2; [|done].
  unfold mbind at 1, M_bind. rewrite assign_z_score_run.
  destruct (with_z_score _ _ df2) as [df3|e] eqn:H3; [|done].
  unfold mbind, M_bind, get, lift.
  destruct (with_z_score_scored _ _ _ _ H1) as [Hc1 Hs1].
  destruct (with_z_score_scored _ _ _ _ H2) as [Hc2 Hs2].
  destruct (with_z_score_scored _ _ _ _ H3) as [Hc3 Hs3].
  destruct (with_z_score_keeps _ _ _ _ "pd_z_score" H2) as [Hc12 Hs12];
    [done|].
  destruct (with_z_score_keeps _ _ _ _ "pd_z_score" H3) as [Hc13 Hs13];
    [done|].
  destruct (with_z_score_keeps _ _ _ _ "ecl_z_score" H3) as [Hc23 Hs23];
    [done|].
  destruct (with_z_score_cells _ _ _ _ H1) as [W1 _].
  destruct (with_z_score_cells _ _ _ _ H2) as [W2 _].
  destruct (with_z_score_cells _ _ _ _ H3) as [W3 _].
  pose proof (with_z_score_wf_keeps _ _ _ _ "pd_z_score" H2
                ltac:(done) W1) as W12.
  pose proof (with_z_score_wf_keeps _ _ _ _ "pd_z_score" H3
                ltac:(done) W12) as W13.
  pose proof (with_z_score_wf_keeps _ _ _ _ "ecl_z_score" H3
                ltac:(done) W2) as W23.
  rewrite flag_loan_run; auto.
  - specialize (Hs13 (Hs12 Hs1)). specialize (Hs23 Hs2).
    rewrite Forall_forall in Hs3, Hs13, Hs23.
    apply Forall_forall. intros r Hr. repeat constructor; auto.
  - rewrite Forall_forall in W3, W13, W23.
    apply Forall_forall. intros r Hr. repeat constructor; auto.
Qed.

(** *** What a result holds *)

Lemma flagged_frame_rows cols lbl t df r' :
  r' ∈ rows (flagged_frame cols lbl t df) <->
  exists r, r ∈ rows df /\ flagged cols t r = true /\ r' = decorate cols lbl r.
Proof.
  unfold flagged_frame. cbn [rows]. rewrite merge_sort_Permutation.
  rewrite list_elem_of_fmap. split.
  - intros (r & -> & [Hf Hr]%list_elem_of_filter). exists r.
    split; [done|]. split; [|done]. by apply Is_true_true.
  - intros (r & Hr & Hf & ->). exists r. split; [done|].
    apply list_elem_of_filter. split; [|done]. by apply Is_true_true.
Qed.

Lemma decorate_same cols lbl r : same_record r (decorate cols lbl r).
Proof.
  split; [done|]. intros c H1 H2. unfold decorate.
  by rewrite !at_col_set_cell_ne.
Qed.

Lemma decorate_type cols lbl r :
  at_col "anomaly_type" (decorate cols lbl r) = Str (lbl r).
Proof.
  unfold decorate. rewrite at_col_set_cell_ne by done.
  apply at_col_set_cell_eq.
Qed.

Lemma decorate_severity cols lbl r :
  at_col "severity" (decorate cols lbl r) = Root (severity_of cols r).
Proof. apply at_col_set_cell_eq. Qed.

Lemma flagged_cost t r :
  flagged cost_scores t r = true <->
  above t (at_col "variance_z_score" r) = true \/
  above t (at_col "actual_z_score" r) = true.
Proof.
  unfold flagged, cost_scores. cbn. rewrite orb_false_r. apply orb_true_iff.
Qed.

Lemma flagged_loan t r :
  flagged loan_scores t r = true <->
  above t (at_col "pd_z_score" r) = true \/
  above t (at_col "ecl_z_score" r) = true \/
  above t (at_col "ead_z_score" r) = true.
Proof.
  unfold flagged, loan_scores. cbn. rewrite orb_false_r.
  by rewrite !orb_true_iff.
Qed.

(** A successful run of a detector. *)
Lemma detect_cost_Ok t df out df' :
  detect_cost_anomalies t df = (Ok out, df') ->
  out = flagged_frame cost_scores (cost_label t) t df' /\
  exists df1, with_z_score "variance_z_score" "variance_pct" df = Ok df1 /\
              with_z_score "actual_z_score" "actual_amount" df1 = Ok df'.
Proof.
  rewrite detect_cost_run.
  destruct (with_z_score _ _ df) as [df1|]; [|done].
  destruct (with_z_score _ _ df1) as [df2|] eqn:H2; [|done].
  intros [= <- <-]. eauto.
Qed.

Lemma detect_loan_Ok t df out df' :
  detect_loan_anomalies t df = (Ok out, df') ->
  out = flagged_frame loan_scores (loan_label t) t df' /\
  exists df1 df2, with_z_score "pd_z_score" "pd" df = Ok df1 /\
                  with_z_score "ecl_z_score" "ecl" df1 = Ok df2 /\
                  with_z_score "ead_z_score" "ead" df2 = Ok df'.
Proof.
  rewrite detect_loan_run.
  destruct (with_z_score _ _ df) as [df1|]; [|done].
  destruct (with_z_score _ _ df1) as [df2|] eqn:H2; [|done].
  destruct (with_z_score _ _ df2) as [df3|] eqn:H3; [|done].
  intros [= <- <-]. split; [done|]. by exists df1, df2.
Qed.

Lemma flagged_ext cols t r r' :
  (forall c, c ∈ cols -> at_col c r = at_col c r') ->
  flagged cols t r = flagged cols t r'.
Proof.
  unfold flagged. induction cols as [|c cols IH]; intros H; [done|]. cbn.
  rewrite (H c) by (by left). rewrite IH; [done|].
  intros d Hd. apply H. by right.
Qed.

(** The flagged records, whatever the category. *)
Lemma flagged_frame_iff cols lbl t df r :
  "anomaly_type" ∉ cols -> "severity" ∉ cols ->
  r ∈ rows df ->
  (exists r', r' ∈ rows (flagged_frame cols lbl t df) /\ same_record r r') <->
  flagged cols t r = true.
Proof.
  intros Hc1 Hc2 Hr. split.
  - intros (r' & (r0 & _ & Hf & ->)%flagged_frame_rows & [_ Hsame]).
    rewrite <- Hf. apply flagged_ext. intros c Hc.
    assert (c ≠ "anomaly_type") by (by intros ->).
    assert (c ≠ "severity") by (by intros ->).
    rewrite <- Hsame by done. unfold decorate.
    by rewrite !at_col_set_cell_ne.
  - intros Hf. exists (decorate cols lbl r). split; [|apply decorate_same].
    apply flagged_frame_rows. eauto.
Qed.

Lemma flagged_frame_from cols lbl t df r' :
  r' ∈ rows (flagged_frame cols lbl t df) ->
  exists r, r ∈ rows df /\ same_record r r'.
Proof.
  intros (r & Hr & _ & ->)%flagged_frame_rows. exists r.
  split; [done|apply decorate_same].
Qed.

Lemma flagged_frame_labels cols lbl t df :
  label_set (flagged_frame cols lbl t df) =
  list_to_set (map label (filter (flagged cols t) (rows df))).
Proof.
  unfold label_set, flagged_frame. cbn [rows]. apply set_eq. intros l.
  rewrite !elem_of_list_to_set, merge_sort_Permutation.
  change (map label (map ?f ?l)) with (label <$> (f <$> l)).
  by rewrite <- list_fmap_compose.
Qed.

Lemma with_z_score_column dst src df df' :
  with_z_score dst src df = Ok df' ->
  getitem df' dst = getitem df src ≫= calculate_z_score.
Proof.
  intros (z & Hz & -> & Hl & _)%with_z_score_Ok. rewrite Hz.
  by apply getitem_set_col_eq.
Qed.

(** *** Scores are well formed, and the severity exceeds the threshold *)

Lemma detect_cost_wf t df out df' :
  detect_cost_anomalies t df = (Ok out, df') ->
  Forall (wf_scores cost_scores) (rows df').
Proof.
  intros (_ & df1 & H1 & H2)%detect_cost_Ok.
  destruct (with_z_score_cells _ _ _ _ H1) as [W1 _].
  destruct (with_z_score_cells _ _ _ _ H2) as [W2 K2].
  apply (Forall_column (fun v => wf_surd (surd_of v))) in W1.
  rewrite <- (K2 "variance_z_score") in W1 by done.
  apply (Forall_column (fun v => wf_surd (surd_of v))) in W1.
  rewrite Forall_forall in W1, W2.
  apply Forall_forall. intros r Hr. repeat constructor; auto.
Qed.

Lemma detect_loan_wf t df out df' :
  detect_loan_anomalies t df = (Ok out, df') ->
  Forall (wf_scores loan_scores) (rows df').
Proof.
  intros (_ & df1 & df2 & H1 & H2 & H3)%detect_loan_Ok.
  destruct (with_z_score_cells _ _ _ _ H1) as [W1 _].
  destruct (with_z_score_cells _ _ _ _ H2) as [W2 K2].
  destruct (with_z_score_cells _ _ _ _ H3) as [W3 K3].
  apply (Forall_column (fun v => wf_surd (surd_of v))) in W1, W2.
  rewrite <- (K2 "pd_z_score") in W1 by done.
  rewrite <- (K3 "pd_z_score") in W1 by done.
  rewrite <- (K3 "ecl_z_score") in W2 by done.
  apply (Forall_column (fun v => wf_surd (surd_of v))) in W1, W2.
  rewrite Forall_forall in W1, W2, W3.
  apply Forall_forall. intros r Hr. repeat constructor; auto.
Qed.

Lemma above_gtb t v :
  wf_surd (surd_of v) -> above t v = true ->
  surd_gtb (sabs (surd_of v)) t = true.
Proof.
  destruct v as [x|z|s]; [| |done]; cbn; intros Hw; by rewrite surd_gtb_sabs.
Qed.

(** The severity of a flagged record exceeds the threshold. *)
Lemma severity_gt cols t r :
  wf_scores cols r -> flagged cols t r = true ->
  surd_gtb (severity_of cols r) t = true.
Proof.
  intros Hwf Hf. unfold flagged in Hf.
  apply existsb_exists in Hf as (c & Hc%list_elem_of_In & Ha).
  unfold severity_of.
  apply (smax_gt _ (sabs (surd_of (at_col c r)))).
  - apply Forall_fmap. eapply Forall_impl; [exact Hwf|].
    intros d Hd. by apply sabs_wf.
  - change (map ?f cols) with (f <$> cols). apply list_elem_of_fmap. eauto.
  - apply above_gtb; [|done]. unfold wf_scores in Hwf.
    rewrite Forall_forall in Hwf. auto.
Qed.

(** *** What a detector does to the caller's table *)

Lemma extends_by_refl added df : extends_by added df df.
Proof. repeat split; auto. Qed.

Lemma extends_by_trans added df1 df2 df3 :
  extends_by added df1 df2 -> extends_by added df2 df3 ->
  extends_by added df1 df3.
Proof.
  intros (L1 & G1 & C1 & D1) (L2 & G2 & C2 & D2). repeat split.
  - congruence.
  - intros c Hc. rewrite G2, G1; auto.
  - auto.
  - intros c Hc. destruct (D2 c Hc); auto.
Qed.

Lemma map_label_zip c rs vals :
  length vals = length rs ->
  map label (zip_with (set_cell c) rs vals) = map label rs.
Proof.
  revert vals. induction rs as [|r rs IH]; intros [|v vals]; try done.
  cbn [zip_with map length]. intros [= H]. by rewrite IH.
Qed.

Lemma with_z_score_extends added dst src df df' :
  dst ∈ added -> with_z_score dst src df = Ok df' -> extends_by added df df'.
Proof.
  intros Hd (z & _ & -> & Hl & _)%with_z_score_Ok. repeat split.
  - by rewrite rows_set_col, map_label_zip.
  - intros c Hc. apply getitem_set_col_ne; [|done]. by intros ->.
  - intros c Hc. apply columns_set_col. by right.
  - intros c [->|Hc]%columns_set_col; auto.
Qed.

Lemma detect_cost_extends t df :
  extends_by cost_scores df (snd (detect_cost_anomalies t df)).
Proof.
  rewrite detect_cost_run.
  destruct (with_z_score _ _ df) as [df1|] eqn:H1; [|apply extends_by_refl].
  apply (with_z_score_extends cost_scores) in H1; [|by_compute].
  destruct (with_z_score _ _ df1) as [df2|] eqn:H2; [|done].
  apply (with_z_score_extends cost_scores) in H2; [|by_compute].
  by eapply extends_by_trans.
Qed.

Lemma detect_loan_extends t df :
  extends_by loan_scores df (snd (detect_loan_anomalies t df)).
Proof.
  rewrite detect_loan_run.
  destruct (with_z_score _ _ df) as [df1|] eqn:H1; [|apply extends_by_refl].
  apply (with_z_score_extends loan_scores) in H1; [|by_compute].
  destruct (with_z_score _ _ df1) as [df2|] eqn:H2; [|done].
  apply (with_z_score_extends loan_scores) in H2; [|by_compute].
  destruct (with_z_score _ _ df2) as [df3|] eqn:H3;
    [|by eapply extends_by_trans].
  apply (with_z_score_extends loan_scores) in H3; [|by_compute].
  eapply extends_by_trans; [|done]. by eapply extends_by_trans.
Qed.

(** A column of at most 10 values has no score above 3. *)
Lemma small_column_quiet series z :
  (length series <= 10)%nat -> calculate_z_score series = Ok z ->
  Forall (fun v => above Z_SCORE_THRESHOLD v = false) z.
Proof.
  intros Hn. unfold calculate_z_score. intros (xs & Hxs & H)%bind_Ok.
  apply mapM_Ok_length in Hxs.
  destruct (surd_eq0 _); injection H as <-.
  - by apply Forall_replicate.
  - apply Forall_fmap, Forall_forall. intros x Hx. cbn.
    rewrite <- surd_gtb_sabs by apply ndiv_wf, sqrt_num_std_like.
    apply zscore_num_not_gt; [done|by cbn|].
    assert (length (dropna xs) <= 10)%nat.
    { pose proof (dropna_length xs). lia. }
    unfold Z_SCORE_THRESHOLD, Qlen.
    assert (inject_Z (Z.of_nat (length (dropna xs))) <= inject_Z 10)%Q
      by (rewrite <- Zle_Qle; lia).
    replace (inject_Z 10) with 10%Q in * by done. lra.
Qed.

Lemma elem_of_outliers t c df l :
  l ∈ outliers t c df <->
  exists r, label r = l /\ r ∈ rows df /\ above t (at_col c r) = true.
Proof.
  unfold outliers. rewrite elem_of_list_to_set.
  change (map label ?l) with (label <$> l). rewrite list_elem_of_fmap.
  split; intros (r & Hl & Hr); exists r.
  - apply list_elem_of_filter in Hr as [Ha Hr].
    split; [done|]. split; [done|]. by apply Is_true_true.
  - destruct Hr as [Hr Ha]. split; [done|].
    apply list_elem_of_filter. split; [|done]. by apply Is_true_true.
Qed.

Lemma elem_of_flagged_labels cols t df l :
  l ∈ (list_to_set (map label (filter (flagged cols t) (rows df))) : gset nat) <->
  exists r, label r = l /\ r ∈ rows df /\ flagged cols t r = true.
Proof.
  rewrite elem_of_list_to_set.
  change (map label ?l) with (label <$> l). rewrite list_elem_of_fmap.
  split; intros (r & Hl & Hr); exists r.
  - apply list_elem_of_filter in Hr as [Ha Hr].
    split; [done|]. split; [done|]. by apply Is_true_true.
  - destruct Hr as [Hr Ha]. split; [done|].
    apply list_elem_of_filter. split; [|done]. by apply Is_true_true.
Qed.

Lemma outliers_union_cost t df :
  list_to_set (map label (filter (flagged cost_scores t) (rows df))) =
  outliers t "variance_z_score" df ∪ outliers t "actual_z_score" df.
Proof.
  apply set_eq. intros l.
  rewrite elem_of_union, !elem_of_outliers, elem_of_flagged_labels. split.
  - intros (r & Hl & Hr & [H|H]%flagged_cost); [left|right]; by exists r.
  - intros [(r & Hl & Hr & H)|(r & Hl & Hr & H)]; exists r;
      (split; [done|]); (split; [done|]); apply flagged_cost; auto.
Qed.

Lemma outliers_union_loan t df :
  list_to_set (map label (filter (flagged loan_scores t) (rows df))) =
  outliers t "pd_z_score" df ∪ outliers t "ecl_z_score" df
  ∪ outliers t "ead_z_score" df.
Proof.
  apply set_eq. intros l.
  rewrite !elem_of_union, !elem_of_outliers, elem_of_flagged_labels. split.
  - intros (r & Hl & Hr & [H|[H|H]]%flagged_loan);
      [left; left|left; right|right]; by exists r.
  - intros [[(r & Hl & Hr & H)|(r & Hl & Hr & H)]|(r & Hl & Hr & H)];
      exists r; (split; [done|]); (split; [done|]); apply flagged_loan; auto.
Qed.

Lemma smax_wf l : Forall wf_surd l -> wf_surd (smax l).
Proof.
  unfold smax. assert (Ha : wf_surd SNaN) by done. revert Ha.
  generalize SNaN. intros acc Ha Hl. revert acc Ha.
  induction Hl as [|x l Hx _ IH]; intros acc Ha; [done|].
  cbn. apply IH. by apply smax_step_wf.
Qed.

Lemma severity_of_wf cols r : wf_scores cols r -> wf_surd (severity_of cols r).
Proof.
  intros H. apply smax_wf. apply Forall_fmap.
  eapply Forall_impl; [exact H|]. intros c Hc. by apply sabs_wf.
Qed.

End CrossSectionFacts.

(** ** Running a detector a second time *)

Module RepeatFacts.
Import Float Pandas Utils AnomalyDetection Props.
Import PandasFacts TimeSeriesFacts CrossSectionFacts.

Lemma stored_set_cell_eq c r v : stored c (set_cell c r v) = Some v.
Proof. apply assoc_set_eq. Qed.

Lemma stored_set_cell_ne c d r v :
  c ≠ d -> stored d (set_cell c r v) = stored d r.
Proof. apply assoc_set_ne. Qed.

Lemma set_cell_id c r v : stored c r = Some v -> set_cell c r v = r.
Proof.
  destruct r as [l cs]. unfold stored, set_cell. cbn. intros H.
  by rewrite assoc_set_id.
Qed.

Lemma map_stored_zip_eq c rs vals :
  length vals = length rs ->
  map (stored c) (zip_with (set_cell c) rs vals) = map Some vals.
Proof.
  revert vals. induction rs as [|r rs IH]; intros [|v vals]; try done.
  cbn [zip_with map length]. intros [= H].
  by rewrite stored_set_cell_eq, IH.
Qed.

Lemma map_stored_zip_ne c d rs vals :
  c ≠ d -> length vals = length rs ->
  map (stored d) (zip_with (set_cell c) rs vals) = map (stored d) rs.
Proof.
  intros Hne. revert vals.
  induction rs as [|r rs IH]; intros [|v vals]; try done.
  cbn [zip_with map length]. intros [= H].
  by rewrite stored_set_cell_ne, IH.
Qed.

Lemma zip_set_cell_id c rs vals :
  map (stored c) rs = map Some vals -> zip_with (set_cell c) rs vals = rs.
Proof.
  revert vals. induction rs as [|r rs IH]; intros [|v vals]; try done.
  cbn [zip_with map]. intros [= Hr H]. by rewrite set_cell_id, IH.
Qed.

(** Assigning to a column what it holds changes nothing. *)
Lemma set_col_id df c vals :
  c ∈ columns df -> map (stored c) (rows df) = map Some vals ->
  set_col df c vals = df.
Proof.
  intros Hc H. destruct df as [cs rs]. unfold set_col. cbn in *.
  by rewrite decide_True, zip_set_cell_id.
Qed.

Lemma settled_again dst src df :
  settled dst src df -> with_z_score dst src df = Ok df.
Proof.
  intros (Hc & z & Hz & Hst). unfold with_z_score.
  by rewrite Hz, bind_ret, set_col_id.
Qed.

Lemma with_z_score_settles dst src df df' :
  with_z_score dst src df = Ok df' -> src ≠ dst -> settled dst src df'.
Proof.
  intros (z & Hz & -> & Hl & _)%with_z_score_Ok Hne. split.
  - apply columns_set_col. by left.
  - exists z. rewrite getitem_set_col_ne by done. split; [done|].
    by rewrite rows_set_col, map_stored_zip_eq.
Qed.

Lemma settled_keeps dst src dst' src' df df' :
  settled dst src df -> with_z_score dst' src' df = Ok df' ->
  dst' ≠ dst -> dst' ≠ src ->
  settled dst src df'.
Proof.
  intros (Hc & z & Hz & Hst) (z' & _ & -> & Hl & _)%with_z_score_Ok Hd Hs.
  split.
  - apply columns_set_col. by right.
  - exists z. rewrite getitem_set_col_ne by done. split; [done|].
    by rewrite rows_set_col, map_stored_zip_ne.
Qed.

(** A second [detect_cost_anomalies] on the table the first one left
    returns what the first returned and leaves the table as it is. *)
Lemma detect_cost_repeatable t : repeatable (detect_cost_anomalies t).
Proof.
  intros df r df'. rewrite !detect_cost_run.
  destruct (with_z_score _ _ df) as [df1|x] eqn:H1; cycle 1.
  { intros [= <- <-]. by rewrite H1. }
  assert (S1 := H1). apply with_z_score_settles in S1; [|done].
  destruct (with_z_score _ _ df1) as [df2|x] eqn:H2; cycle 1.
  { intros [= <- <-]. by rewrite (settled_again _ _ _ S1), H2. }
  assert (S2 := H2). apply with_z_score_settles in S2; [|done].
  assert (S12 := S1). eapply settled_keeps in S12; [|exact H2|done|done].
  intros [= <- <-].
  by rewrite (settled_again _ _ _ S12), (settled_again _ _ _ S2).
Qed.

Lemma detect_loan_repeatable t : repeatable (detect_loan_anomalies t).
Proof.
  intros df r df'. rewrite !detect_loan_run.
  destruct (with_z_score _ _ df) as [df1|x] eqn:H1; cycle 1.
  { intros [= <- <-]. by rewrite H1. }
  assert (S1 := H1). apply with_z_score_settles in S1; [|done].
  destruct (with_z_score _ _ df1) as [df2|x] eqn:H2; cycle 1.
  { intros [= <- <-]. by rewrite (settled_again _ _ _ S1), H2. }
  assert (S2 := H2). apply with_z_score_settles in S2; [|done].
  assert (S12 := S1). eapply settled_keeps in S12; [|exact H2|done|done].
  destruct (with_z_score _ _ df2) as [df3|x] eqn:H3; cycle 1.
  { intros [= <- <-].
    by rewrite (settled_again _ _ _ S12), (settled_again _ _ _ S2), H3. }
  assert (S3 := H3). apply with_z_score_settles in S3; [|done].
  assert (S13 := S12). eapply settled_keeps in S13; [|exact H3|done|done].
  assert (S23 := S2). eapply settled_keeps in S23; [|exact H3|done|done].
  intros [= <- <-].
  by rewrite (settled_again _ _ _ S13), (settled_again _ _ _ S23),
    (settled_again _ _ _ S3).
Qed.

(** The KPI analysis never assigns to the caller's table. *)
Lemma kpi_step_state anomalies col df : snd (kpi_step anomalies col df) = df.
Proof.
  unfold kpi_step. unfold mbind at 1, M_bind, get.
  case_decide; [|done]. unfold mbind at 1, M_bind.
  pose proof (detect_time_series_state col "month" df) as Hs.
  destruct (detect_time_series_anomalies col "month" df) as [[out|x] df'];
    cbn in Hs; subst df'; [|done].
  case_bool_decide; [|done]. unfold mbind, M_bind, lift.
  by destruct (getitems _ _).
Qed.

Lemma kpi_loop_state cols anomalies df :
  snd (kpi_loop anomalies cols df) = df.
Proof.
  revert anomalies. induction cols as [|col cols IH]; intros anomalies; [done|].
  cbn [kpi_loop]. unfold mbind, M_bind.
  pose proof (kpi_step_state anomalies col df) as Hs.
  destruct (kpi_step anomalies col df) as [[acc|x] df']; cbn in Hs; subst df';
    [apply IH|done].
Qed.

Lemma analyze_monthly_kpi_state df :
  snd (analyze_monthly_kpi_anomalies df) = df.
Proof.
  unfold analyze_monthly_kpi_anomalies. unfold mbind, M_bind.
  pose proof (kpi_loop_state kpi_columns [] df) as Hs.
  destruct (kpi_loop [] kpi_columns df) as [[acc|x] df']; cbn in Hs; subst df';
    [|done].
  by destruct acc.
Qed.

Lemma analyze_monthly_kpi_repeatable : repeatable analyze_monthly_kpi_anomalies.
Proof.
  intros df r df' H. pose proof (analyze_monthly_kpi_state df) as Hs.
  rewrite H in Hs. cbn in Hs. by subst df'.
Qed.

End RepeatFacts.

(** ** The report *)

Module ReportFacts.
Import Float Pandas Utils AnomalyDetection RunAnalytics Props.
Import PandasFacts TimeSeriesFacts CrossSectionFacts RepeatFacts.

Lemma on_run {A} proj upd (m : M DataFrame A) e :
  on proj upd m e = (fst (m (proj e)), upd (snd (m (proj e))) e).
Proof. unfold on. by destruct (m (proj e)). Qed.

(** The three detector calls that open both [generate_anomaly_report] and
    [run], in closed form. *)
Lemma generate_anomaly_report_run e :
  generate_anomaly_report e =
  match detect_cost_anomalies Z_SCORE_THRESHOLD (costs e) with
  | (Raise x, c') => (Raise x, set_costs c' e)
  | (Ok ca, c') =>
      match detect_loan_anomalies Z_SCORE_THRESHOLD (loans e) with
      | (Raise x, l') => (Raise x, set_loans l' (set_costs c' e))
      | (Ok la, l') =>
          match analyze_monthly_kpi_anomalies (monthly_kpis e) with
          | (Raise x, k') =>
              (Raise x, set_monthly_kpis k' (set_loans l' (set_costs c' e)))
          | (Ok ka, k') =>
              (summarize ca la ka,
               set_monthly_kpis k' (set_loans l' (set_costs c' e)))
          end
      end
  end.
Proof.
  unfold generate_anomaly_report. unfold mbind at 1, M_bind. rewrite on_run.
  destruct (detect_cost_anomalies _ (costs e)) as [[ca|x] c']; [|done].
  cbn [fst snd]. unfold mbind at 1, M_bind. rewrite on_run.
  cbn [loans set_costs].
  destruct (detect_loan_anomalies _ (loans e)) as [[la|x] l']; [|done].
  cbn [fst snd]. unfold mbind at 1, M_bind. rewrite on_run.
  cbn [monthly_kpis set_loans set_costs].
  by destruct (analyze_monthly_kpi_anomalies _) as [[ka|x] k'].
Qed.

Lemma generate_anomaly_report_files e :
  files (snd (generate_anomaly_report e)) = files e.
Proof.
  rewrite generate_anomaly_report_run.
  destruct (detect_cost_anomalies _ _) as [[ca|x] c']; [|done].
  destruct (detect_loan_anomalies _ _) as [[la|x] l']; [|done].
  by destruct (analyze_monthly_kpi_anomalies _) as [[ka|x] k'].
Qed.

(** A failed report is a failed run, with no file written. *)
Lemma run_report_raises e x :
  fst (generate_anomaly_report e) = Raise x ->
  fst (run e) = Raise x /\ files (snd (run e)) = files e.
Proof.
  intros H. pose proof (generate_anomaly_report_files e) as Hf.
  assert (Hrun : run e = (Raise x, snd (generate_anomaly_report e))).
  { unfold run. unfold mbind at 1, M_bind.
    destruct (generate_anomaly_report e) as [[s|y] e']; cbn [fst snd] in *;
      congruence. }
  by rewrite Hrun.
Qed.

(** *** Writing the files *)

Lemma set_files_id e : set_files (files e ++ []) e = e.
Proof. destruct e. unfold set_files. cbn. by rewrite app_nil_r. Qed.

Lemma set_files_twice w w' e :
  set_files (files (set_files (files e ++ w) e) ++ w')
    (set_files (files e ++ w) e)
  = set_files (files e ++ (w ++ w')) e.
Proof. destruct e. unfold set_files. cbn. by rewrite app_assoc. Qed.

Lemma appender_ret {A} (a : A) : appender (mret a) (Ok a) [].
Proof. intros e. unfold mret, M_ret. by rewrite set_files_id. Qed.

Lemma appender_lift {A} (r : result A) : appender (lift r) r [].
Proof. intros e. unfold lift. by rewrite set_files_id. Qed.

Lemma appender_save df filename :
  appender (save df filename) (Ok tt) [(filename, df)].
Proof. by intros e. Qed.

Lemma appender_bind {A B} (m : M Env A) (f : A -> M Env B) a w r w' :
  appender m (Ok a) w -> appender (f a) r w' ->
  appender (m ≫= f) r (w ++ w').
Proof.
  intros Hm Hf e. unfold mbind, M_bind. rewrite Hm, Hf.
  by rewrite set_files_twice.
Qed.

Lemma appender_raise {A B} (m : M Env A) (f : A -> M Env B) x w :
  appender m (Raise x) w -> appender (m ≫= f) (Raise x) w.
Proof. intros Hm e. unfold mbind, M_bind. by rewrite Hm. Qed.

(** Lines 255-280 only write files. *)
Lemma save_results_appender s ca la ka :
  exists r w, appender (save_results s ca la ka) r w.
Proof.
  unfold save_results.
  destruct (top_findings ca _ _) as [c|x] eqn:Hc;
    destruct (top_findings la _ _) as [l|y] eqn:Hl;
    destruct (bool_decide (0 < len ka)%Z);
    try destruct (c ++ l) eqn:Hcl;
    do 2 eexists;
    repeat first
      [ apply appender_ret
      | apply appender_save
      | eapply appender_bind; [first [apply appender_save | apply appender_ret | apply appender_lift]|]
      | eapply appender_raise; apply appender_lift
      | rewrite Hcl ].
Qed.

(** *** Running the report a second time *)

Lemma set_tables_id e :
  set_monthly_kpis (monthly_kpis e) (set_loans (loans e) (set_costs (costs e) e))
  = e.
Proof. by destruct e. Qed.

(** What a run of the report establishes about the tables it leaves. *)
Lemma generate_anomaly_report_shape e r e1 :
  generate_anomaly_report e = (r, e1) ->
  files e1 = files e /\
  forall e2, same_tables e1 e2 -> generate_anomaly_report e2 = (r, e2).
Proof.
  rewrite generate_anomaly_report_run.
  destruct (detect_cost_anomalies _ (costs e)) as [[ca|x] c'] eqn:H1.
  2:{ intros [= <- <-]. split; [done|]. intros e2 (Hc & Hl & Hk).
      cbn in Hc, Hl, Hk. rewrite generate_anomaly_report_run, <- Hc.
      rewrite (detect_cost_repeatable _ _ _ _ H1).
      rewrite Hc. by destruct e2. }
  destruct (detect_loan_anomalies _ (loans e)) as [[la|x] l'] eqn:H2.
  2:{ intros [= <- <-]. split; [done|]. intros e2 (Hc & Hl & Hk).
      cbn in Hc, Hl, Hk. rewrite generate_anomaly_report_run, <- Hc, <- Hl.
      rewrite (detect_cost_repeatable _ _ _ _ H1).
      rewrite (detect_loan_repeatable _ _ _ _ H2).
      rewrite Hc, Hl. by destruct e2. }
  destruct (analyze_monthly_kpi_anomalies (monthly_kpis e))
    as [[ka|x] k'] eqn:H3.
  2:{ intros [= <- <-]. split; [done|]. intros e2 (Hc & Hl & Hk).
      cbn in Hc, Hl, Hk.
      rewrite generate_anomaly_report_run, <- Hc, <- Hl, <- Hk.
      rewrite (detect_cost_repeatable _ _ _ _ H1).
      rewrite (detect_loan_repeatable _ _ _ _ H2).
      rewrite (analyze_monthly_kpi_repeatable _ _ _ H3).
      rewrite Hc, Hl, Hk. by destruct e2. }
  intros [= <- <-]. split; [done|]. intros e2 (Hc & Hl & Hk).
  cbn in Hc, Hl, Hk.
  rewrite generate_anomaly_report_run, <- Hc, <- Hl, <- Hk.
  rewrite (detect_cost_repeatable _ _ _ _ H1).
  rewrite (detect_loan_repeatable _ _ _ _ H2).
  rewrite (analyze_monthly_kpi_repeatable _ _ _ H3).
  rewrite Hc, Hl, Hk. by destruct e2.
Qed.

Lemma same_tables_refl e : same_tables e e.
Proof. by repeat split. Qed.

(** A report that leaves its tables as they are ran on settled tables. *)
Lemma generate_anomaly_report_fixed e s :
  generate_anomaly_report e = (Ok s, e) ->
  exists ca la ka,
    detect_cost_anomalies Z_SCORE_THRESHOLD (costs e) = (Ok ca, costs e) /\
    detect_loan_anomalies Z_SCORE_THRESHOLD (loans e) = (Ok la, loans e) /\
    analyze_monthly_kpi_anomalies (monthly_kpis e) = (Ok ka, monthly_kpis e).
Proof.
  rewrite generate_anomaly_report_run.
  destruct (detect_cost_anomalies _ (costs e)) as [[ca|x] c']; [|done].
  destruct (detect_loan_anomalies _ (loans e)) as [[la|x] l']; [|done].
  destruct (analyze_monthly_kpi_anomalies (monthly_kpis e))
    as [[ka|x] k']; [|done].
  intros [= _ He]. exists ca, la, ka.
  pose proof (f_equal costs He) as Hc. pose proof (f_equal loans He) as Hl.
  pose proof (f_equal monthly_kpis He) as Hk. cbn in Hc, Hl, Hk.
  by subst.
Qed.

(** After a successful report, on tables that are settled, the rest of
    [run] is the writing of the files. *)
Lemma run_after e s eg ca la ka :
  generate_anomaly_report e = (Ok s, eg) ->
  detect_cost_anomalies Z_SCORE_THRESHOLD (costs eg) = (Ok ca, costs eg) ->
  detect_loan_anomalies Z_SCORE_THRESHOLD (loans eg) = (Ok la, loans eg) ->
  analyze_monthly_kpi_anomalies (monthly_kpis eg) = (Ok ka, monthly_kpis eg) ->
  run e = save_results s ca la ka eg.
Proof.
  intros Hg H1 H2 H3. unfold run. unfold mbind at 1, M_bind. rewrite Hg.
  unfold mbind at 1, M_bind. rewrite on_run, H1. cbn [fst snd].
  unfold mbind at 1, M_bind. rewrite on_run. cbn [loans set_costs].
  rewrite H2. cbn [fst snd].
  unfold mbind at 1, M_bind. rewrite on_run.
  cbn [monthly_kpis set_loans set_costs]. rewrite H3. cbn [fst snd].
  by rewrite set_tables_id.
Qed.

Lemma run_raises e x eg :
  generate_anomaly_report e = (Raise x, eg) -> run e = (Raise x, eg).
Proof. intros Hg. unfold run. unfold mbind at 1, M_bind. by rewrite Hg. Qed.

(** The report reads the three tables and nothing else. *)
Lemma generate_anomaly_report_tables e e0 :
  same_tables e e0 ->
  fst (generate_anomaly_report e0) = fst (generate_anomaly_report e) /\
  same_tables (snd (generate_anomaly_report e))
    (snd (generate_anomaly_report e0)).
Proof.
  intros (Hc & Hl & Hk). rewrite !generate_anomaly_report_run.
  rewrite <- Hc, <- Hl, <- Hk.
  destruct (detect_cost_anomalies _ (costs e)) as [[ca|x] c'];
    [|by split; [|repeat split]].
  destruct (detect_loan_anomalies _ (loans e)) as [[la|x] l'];
    [|by split; [|repeat split]].
  destruct (analyze_monthly_kpi_anomalies (monthly_kpis e)) as [[ka|x] k'];
    by split; [|repeat split].
Qed.

(** A run, and a second run on the tables the first one left: the same
    value, the same files written. *)
Lemma run_shape e r e1 :
  run e = (r, e1) ->
  exists w,
    files e1 = files e ++ w /\
    forall e2, same_tables e1 e2 -> run e2 = (r, set_files (files e2 ++ w) e2).
Proof.
  intros Hrun.
  destruct (generate_anomaly_report e) as [[s|x] eg] eqn:Hg.
  - destruct (generate_anomaly_report_shape _ _ _ Hg) as [Hf Hre].
    pose proof (Hre eg (same_tables_refl eg)) as Hgg.
    destruct (generate_anomaly_report_fixed _ _ Hgg)
      as (ca & la & ka & H1 & H2 & H3).
    destruct (save_results_appender s ca la ka) as (r0 & w & Hw).
    rewrite (run_after _ _ _ _ _ _ Hg H1 H2 H3), Hw in Hrun.
    injection Hrun as <- <-.
    exists w. split; [cbn; by rewrite Hf|]. intros e2 (Hc & Hl & Hk).
    cbn in Hc, Hl, Hk.
    assert (Hg2 : generate_anomaly_report e2 = (Ok s, e2))
      by (by apply Hre).
    rewrite Hc in H1. rewrite Hl in H2. rewrite Hk in H3.
    by rewrite (run_after _ _ _ _ _ _ Hg2 H1 H2 H3), Hw.
  - destruct (generate_anomaly_report_shape _ _ _ Hg) as [Hf Hre].
    rewrite (run_raises _ _ _ Hg) in Hrun. injection Hrun as <- <-.
    exists []. split; [by rewrite app_nil_r|]. intros e2 He2.
    by rewrite (run_raises _ _ _ (Hre e2 He2)), set_files_id.
Qed.

(** A run on a copy of the tables, whatever files were written before:
    the same value, the same files written, the same tables left. *)
Lemma run_copy e r e1 e0 :
  run e = (r, e1) -> same_tables e e0 ->
  exists e3, run e0 = (r, e3) /\ same_tables e1 e3 /\
             drop (length (files e0)) (files e3)
             = drop (length (files e)) (files e1).
Proof.
  intros Hrun He0.
  destruct (generate_anomaly_report_tables _ _ He0) as [Hfst Hsame].
  pose proof (generate_anomaly_report_files e) as Hfe.
  pose proof (generate_anomaly_report_files e0) as Hfe0.
  destruct (generate_anomaly_report e) as [[s|x] eg] eqn:Hg;
    destruct (generate_anomaly_report e0) as [[s0|x0] eg0] eqn:Hg0;
    cbn [fst snd] in *; try done; injection Hfst as ->.
  - destruct (generate_anomaly_report_shape _ _ _ Hg) as [_ Hre].
    pose proof (Hre eg (same_tables_refl eg)) as Hgg.
    destruct (generate_anomaly_report_fixed _ _ Hgg)
      as (ca & la & ka & H1 & H2 & H3).
    destruct (save_results_appender s ca la ka) as (r0 & w & Hw).
    rewrite (run_after _ _ _ _ _ _ Hg H1 H2 H3), Hw in Hrun.
    injection Hrun as <- <-.
    destruct Hsame as (Hc & Hl & Hk).
    rewrite Hc in H1. rewrite Hl in H2. rewrite Hk in H3.
    exists (set_files (files eg0 ++ w) eg0).
    rewrite (run_after _ _ _ _ _ _ Hg0 H1 H2 H3), Hw.
    split; [done|]. split; [by repeat split|]. cbn.
    rewrite Hfe, Hfe0. by rewrite !drop_app_length.
  - rewrite (run_raises _ _ _ Hg) in Hrun. injection Hrun as <- <-.
    exists eg0. rewrite (run_raises _ _ _ Hg0).
    split; [done|]. split; [done|]. rewrite Hfe, Hfe0.
    by rewrite !drop_all.
Qed.

End ReportFacts.

(** ** The time-series detector on doubles *)

Module DoublesFacts.
Import Float Pandas Utils AnomalyDetection Props Examples.
Import FloatFacts PandasFacts CrossSectionFacts.
Import Binary64 Doubles DoubleCases.
Import Float Pandas Utils AnomalyDetection Props Binary64 Doubles.
Import FloatFacts PandasFacts CrossSectionFacts.

(** NaN propagates through the arithmetic. *)
Lemma sub_nan_r x : sub x nan = nan.
Proof. by destruct x. Qed.

Lemma sub_nan_l x : sub nan x = nan.
Proof. done. Qed.

Lemma div_nan_l x : div nan x = nan.
Proof. done. Qed.


(** A finite value that is not zero, over a zero, is an infinity. *)
Lemma div_by_zero s m e z b :
  z = SpecFloat.S754_zero b ->
  exists s', div (SpecFloat.S754_finite s m e) z = SpecFloat.S754_infinity s'.
Proof. intros ->. by eexists. Qed.

(** What [Dbl] writes is a well-formed float cell, and can be read
    back. *)
Lemma Dbl_not_str x : is_str (Dbl x) = false.
Proof. done. Qed.

Lemma Dbl_wf x : wf_surd (surd_of (Dbl x)).
Proof. by destruct x. Qed.

Lemma as_double_Dbl x : exists y, as_double (Dbl x) = Ok y.
Proof. unfold Dbl. destruct (to_surd x); by eexists. Qed.

Lemma as_double_Dbl_nan : as_double (Dbl nan) = Ok nan.
Proof. done. Qed.

Lemma above_Dbl_nan t : above t (Dbl nan) = false.
Proof. done. Qed.

Lemma above_Dbl_inf t s : above t (Dbl (SpecFloat.S754_infinity s)) = true.
Proof. done. Qed.

Lemma double_rolling_length f W xs : length (rolling f W xs) = length xs.
Proof. unfold rolling. by rewrite length_map, length_seq. Qed.

(** Before [W] observations are available the rolling value is NaN. *)
Lemma rolling_early f W xs (i : nat) y :
  (S i < W)%nat -> rolling f W xs !! i = Some y -> y = nan.
Proof.
  intros Hi H. unfold rolling in H. change (map ?f ?l) with (f <$> l) in H.
  rewrite list_lookup_fmap in H.
  destruct (seq 0 (length xs) !! i) as [j|] eqn:Hj; [|done].
  apply lookup_seq in Hj as [-> _]. cbn in H. injection H as <-.
  unfold window_at. by rewrite decide_False by lia.
Qed.

(** The comparison of line 130 on a column [Dbl] wrote. *)
Lemma abs_gt_Dbl t zs :
  abs_gt t (Dbl <$> zs) = Ok (map (above t) (Dbl <$> zs)).
Proof.
  apply mapM_Ok. induction zs as [|z zs IH]; cbn; constructor; [|done].
  apply exceeds_above; [apply Dbl_not_str|apply Dbl_wf].
Qed.

(** Lines 123-127, taken apart. *)
Lemma add_rolling_Ok df value_col W scored :
  add_rolling df value_col W = Ok scored ->
  exists v1 v2 df2 v m s,
    length v1 = length (rows df) /\
    df2 = set_col (set_col df "rolling_mean" (Dbl <$> rolling_mean W v1))
            "rolling_std" (Dbl <$> rolling_std W v2) /\
    length (rows df2) = length (rows df) /\
    map label (rows df2) = map label (rows df) /\
    to_doubles (map (at_col value_col) (rows df2)) = Ok v /\
    to_doubles (Dbl <$> rolling_mean W v1) = Ok m /\
    map (at_col "rolling_mean") (rows df2) = Dbl <$> rolling_mean W v1 /\
    to_doubles (map (at_col "rolling_std") (rows df2)) = Ok s /\
    scored = set_col df2 "rolling_z_score"
               (Dbl <$> zip_with div (zip_with sub v m) s).
Proof.
  intros H. unfold add_rolling in H.
  apply bind_Ok in H as (v1 & Hv1 & H).
  apply bind_Ok in Hv1 as (c1 & Hc1 & Hv1).
  pose proof (getitem_length _ _ _ Hc1) as Lc1.
  pose proof (mapM_Ok_length _ _ _ Hv1) as Lv1.
  set (df1 := set_col df "rolling_mean" (Dbl <$> rolling_mean W v1)) in *.
  assert (L1 : length (Dbl <$> rolling_mean W v1) = length (rows df)).
  { rewrite length_fmap. unfold rolling_mean. rewrite double_rolling_length. lia. }
  pose proof (length_rows_set_col df "rolling_mean" _ L1) as Ldf1.
  fold df1 in Ldf1.
  apply bind_Ok in H as (v2 & Hv2 & H).
  apply bind_Ok in Hv2 as (c2 & Hc2 & Hv2).
  pose proof (getitem_length _ _ _ Hc2) as Lc2.
  pose proof (mapM_Ok_length _ _ _ Hv2) as Lv2.
  set (df2 := set_col df1 "rolling_std" (Dbl <$> rolling_std W v2)) in *.
  assert (L2 : length (Dbl <$> rolling_std W v2) = length (rows df1)).
  { rewrite length_fmap. unfold rolling_std. rewrite double_rolling_length. lia. }
  pose proof (length_rows_set_col df1 "rolling_std" _ L2) as Ldf2.
  fold df2 in Ldf2.
  apply bind_Ok in H as (v & Hv & H).
  apply bind_Ok in Hv as (c3 & Hc3 & Hv).
  apply bind_Ok in H as (m & Hm & H).
  apply bind_Ok in Hm as (cm & Hcm & Hm).
  apply bind_Ok in H as (s & Hs & H).
  apply bind_Ok in Hs as (cs & Hcs & Hs).
  injection H as <-.
  apply getitem_Ok in Hc3 as [_ ->]. apply getitem_Ok in Hcs as [_ ->].
  unfold df2 in Hcm. rewrite getitem_set_col_ne in Hcm by done.
  unfold df1 in Hcm. rewrite getitem_set_col_eq in Hcm by done.
  injection Hcm as <-.
  exists v1, v2, df2, v, m, s. split; [lia|]. split; [done|].
  split; [lia|]. split.
  { unfold df2, df1. rewrite !rows_set_col.
    rewrite map_label_zip by (rewrite L2; done).
    by rewrite map_label_zip. }
  split; [done|]. split; [done|]. split; [|done].
  unfold df2. rewrite rows_set_col, map_at_col_zip_ne by done.
  unfold df1. by rewrite rows_set_col, map_at_col_zip_eq.
Qed.

Lemma mapM_lookup {A B} (f : A -> result B) l k (i : nat) x :
  mapM f l = Ok k -> l !! i = Some x -> exists y, k !! i = Some y /\ f x = Ok y.
Proof.
  intros H%mapM_Ok Hx.
  destruct (Forall2_lookup_l _ _ _ _ _ H Hx) as (y & Hy & Hf). eauto.
Qed.

(** The rows of the working copy after line 127: every row carries the
    quotient of line 127, computed from its own cells. *)
Lemma add_rolling_rows df value_col W scored :
  add_rolling df value_col W = Ok scored ->
  "rolling_z_score" ∈ columns scored /\
  map label (rows scored) = map label (rows df) /\
  (exists zs, map (at_col "rolling_z_score") (rows scored) = Dbl <$> zs) /\
  (forall (i : nat) r, rows scored !! i = Some r -> (S i < W)%nat ->
     at_col "rolling_z_score" r = Dbl nan) /\
  (value_col ≠ "rolling_z_score" ->
   forall r, r ∈ rows scored ->
     exists x m s,
       as_double (at_col value_col r) = Ok x /\
       as_double (at_col "rolling_mean" r) = Ok m /\
       as_double (at_col "rolling_std" r) = Ok s /\
       at_col "rolling_z_score" r = Dbl (div (sub x m) s)).
Proof.
  intros (v1 & v2 & df2 & v & m & s & L1 & Edf2 & L2 & Hlab & Hv & Hm & Hcm
          & Hs & ->)%add_rolling_Ok.
  pose proof (mapM_Ok_length _ _ _ Hv) as Lv. rewrite length_map in Lv.
  pose proof (mapM_Ok_length _ _ _ Hm) as Lm.
  rewrite length_fmap in Lm. unfold rolling_mean in Lm.
  rewrite double_rolling_length in Lm.
  pose proof (mapM_Ok_length _ _ _ Hs) as Ls. rewrite length_map in Ls.
  set (z := zip_with div (zip_with sub v m) s).
  assert (Lz : length (Dbl <$> z) = length (rows df2)).
  { unfold z. rewrite length_fmap, !length_zip_with. lia. }
  split; [apply columns_set_col; by left|].
  split; [by rewrite rows_set_col, map_label_zip|].
  split; [exists z; by rewrite rows_set_col, map_at_col_zip_eq|].
  assert (Hrow : forall (i : nat) r, rows (set_col df2 "rolling_z_score" (Dbl <$> z)) !! i = Some r ->
            exists r2 x mi si,
              rows df2 !! i = Some r2 /\
              r = set_cell "rolling_z_score" r2 (Dbl (div (sub x mi) si)) /\
              as_double (at_col value_col r2) = Ok x /\
              m !! i = Some mi /\
              as_double (at_col "rolling_mean" r2) = Ok mi /\
              as_double (at_col "rolling_std" r2) = Ok si).
  { intros i r Hr. rewrite rows_set_col in Hr.
    apply lookup_zip_with_Some in Hr as (r2 & zc & -> & Hr2 & Hzc).
    rewrite list_lookup_fmap in Hzc.
    destruct (z !! i) as [zi|] eqn:Hzi; [|done]. injection Hzc as <-.
    unfold z in Hzi.
    apply lookup_zip_with_Some in Hzi as (d & si & -> & Hd & Hsi).
    apply lookup_zip_with_Some in Hd as (x & mi & -> & Hx & Hmi).
    exists r2, x, mi, si. split; [done|]. split; [done|].
    assert (Hc : forall c, map (at_col c) (rows df2) !! i = Some (at_col c r2)).
    { intros c. change (map ?f ?l) with (f <$> l).
      by rewrite list_lookup_fmap, Hr2. }
    destruct (mapM_lookup _ _ _ _ _ Hv (Hc value_col)) as (x' & Hx' & Ex).
    destruct (mapM_lookup _ _ _ _ _ Hs (Hc "rolling_std")) as (s' & Hs' & Es).
    pose proof (Hc "rolling_mean") as Hcmi. rewrite Hcm in Hcmi.
    destruct (mapM_lookup _ _ _ _ _ Hm Hcmi) as (m' & Hm' & Em).
    split; [congruence|]. split; [done|]. split; [congruence|congruence]. }
  split.
  - intros i r Hr Hi.
    destruct (Hrow i r Hr) as (r2 & x & mi & si & Hr2 & -> & _ & Hmi & _).
    rewrite at_col_set_cell_eq.
    assert (mi = nan) as ->; [|by rewrite sub_nan_r, div_nan_l].
    assert (Hn : (Dbl <$> rolling_mean W v1) !! i = Some (Dbl nan)).
    { rewrite list_lookup_fmap.
      destruct (rolling_mean W v1 !! i) as [y|] eqn:Hy.
      - by rewrite (rolling_early _ _ _ _ _ Hi Hy).
      - apply lookup_ge_None in Hy. unfold rolling_mean in Hy.
        rewrite double_rolling_length in Hy. apply lookup_lt_Some in Hmi. lia. }
    destruct (mapM_lookup _ _ _ _ _ Hm Hn) as (m' & Hm' & Em).
    rewrite as_double_Dbl_nan in Em. congruence.
  - intros Hne r Hr. apply list_elem_of_lookup in Hr as (i & Hr).
    destruct (Hrow i r Hr) as (r2 & x & mi & si & Hr2 & -> & Hx & _ & Hmi & Hsi).
    exists x, mi, si. rewrite !at_col_set_cell_ne by done.
    by rewrite at_col_set_cell_eq.
Qed.

(** The detector in closed form: the caller's object is untouched, and
    the rows returned are those whose score exceeds the threshold in
    absolute value. *)
Lemma double_detect_time_series_run value_col date_col df :
  Doubles.detect_time_series_anomalies value_col date_col df =
  (sorted ← sort_values df date_col true;
   if bool_decide (window_size sorted < 2)%Z then Ok empty_frame
   else scored ← add_rolling sorted value_col (Z.to_nat (window_size sorted));
        Ok (mkDF (columns scored)
              (filter (fun r => above Z_SCORE_THRESHOLD
                                  (at_col "rolling_z_score" r))
                      (rows scored))),
   df).
Proof.
  unfold Doubles.detect_time_series_anomalies, mbind at 1, M_bind, get, lift.
  unfold mbind at 1, M_bind.
  destruct (sort_values df date_col true) as [sorted|e]; [|done]. cbn.
  case_bool_decide as Hw; [done|].
  unfold mbind at 1, M_bind.
  destruct (add_rolling _ _ _) as [scored|e] eqn:Hwf; [|done]. cbn.
  destruct (add_rolling_rows _ _ _ _ Hwf) as (Hc & _ & (zs & Hz) & _).
  unfold mbind, M_bind. rewrite getitem_in by done.
  rewrite Hz, abs_gt_Dbl, <- Hz. unfold mret, M_ret, filter_rows.
  change (map (above Z_SCORE_THRESHOLD) (map (at_col "rolling_z_score") ?l))
    with (map (above Z_SCORE_THRESHOLD) (at_col "rolling_z_score" <$> l)).
  change (map ?f (?g <$> ?l)) with (f <$> (g <$> l)).
  rewrite <- list_fmap_compose.
  change ((?f ∘ ?g) <$> ?l) with (map (fun r => f (g r)) l).
  by rewrite select_map.
Qed.

End DoublesFacts.

(** ** The time-series detector on doubles returns *)

Module DoublesTotal.
Import Float Pandas Utils AnomalyDetection Props Examples.
Import FloatFacts PandasFacts NumericFacts CrossSectionFacts.
Import Binary64 Doubles DoubleCases.
Import DoublesFacts.

(** Every cell that is not a text reads as a double. *)
Lemma to_doubles_total l :
  Forall (fun v => is_str v = false) l -> exists xs, to_doubles l = Ok xs.
Proof.
  induction 1 as [|v l Hv _ [xs IH]]; [by exists []|].
  unfold to_doubles in *. cbn. rewrite IH.
  destruct v as [[q|]|[|s|d w]|s]; try done; by eexists.
Qed.

Lemma Dbl_column zs : Forall (fun v => is_str v = false) (Dbl <$> zs).
Proof. apply Forall_fmap, Forall_true. intros z. apply Dbl_not_str. Qed.

(** A column without texts stays one when a column of floats is
    assigned. *)
Lemma set_col_no_text df c d vals :
  length vals = length (rows df) ->
  Forall (fun v => is_str v = false) vals ->
  c ∈ columns df ->
  Forall (fun v => is_str v = false) (map (at_col c) (rows df)) ->
  c ∈ columns (set_col df d vals) /\
  Forall (fun v => is_str v = false) (map (at_col c) (rows (set_col df d vals))).
Proof.
  intros Hl Hv Hc Hcol. split; [apply columns_set_col; by right|].
  rewrite rows_set_col. destruct (decide (d = c)) as [->|Hne].
  - by rewrite map_at_col_zip_eq.
  - by rewrite map_at_col_zip_ne.
Qed.

(** The three rolling columns can be computed for every value column
    without texts. *)
Lemma double_add_rolling_total df value_col W :
  value_col ∈ columns df ->
  Forall (fun v => is_str v = false) (map (at_col value_col) (rows df)) ->
  exists scored, add_rolling df value_col W = Ok scored.
Proof.
  intros Hc Hcol. unfold add_rolling.
  rewrite getitem_in by done. rewrite bind_ret.
  destruct (to_doubles_total _ Hcol) as [v1 Hv1]. rewrite Hv1, bind_ret.
  pose proof (mapM_Ok_length _ _ _ Hv1) as Lv1. rewrite length_map in Lv1.
  assert (L1 : length (Dbl <$> rolling_mean W v1) = length (rows df)).
  { rewrite length_fmap. unfold rolling_mean. by rewrite double_rolling_length. }
  set (df1 := set_col df "rolling_mean" (Dbl <$> rolling_mean W v1)).
  destruct (set_col_no_text df value_col "rolling_mean" _ L1 (Dbl_column _)
              Hc Hcol) as [Hc1 Hcol1]. fold df1 in Hc1, Hcol1.
  pose proof (length_rows_set_col df "rolling_mean" _ L1) as Ldf1. fold df1 in Ldf1.
  rewrite (getitem_in df1 value_col) by done. rewrite bind_ret.
  destruct (to_doubles_total _ Hcol1) as [v2 Hv2]. rewrite Hv2, bind_ret.
  pose proof (mapM_Ok_length _ _ _ Hv2) as Lv2. rewrite length_map in Lv2.
  assert (L2 : length (Dbl <$> rolling_std W v2) = length (rows df1)).
  { rewrite length_fmap. unfold rolling_std. by rewrite double_rolling_length. }
  set (df2 := set_col df1 "rolling_std" (Dbl <$> rolling_std W v2)).
  destruct (set_col_no_text df1 value_col "rolling_std" _ L2 (Dbl_column _)
              Hc1 Hcol1) as [Hc2 Hcol2]. fold df2 in Hc2, Hcol2.
  rewrite (getitem_in df2 value_col) by done. rewrite bind_ret.
  destruct (to_doubles_total _ Hcol2) as [v Hv]. rewrite Hv, bind_ret.
  assert (Hm : getitem df2 "rolling_mean" = Ok (Dbl <$> rolling_mean W v1)).
  { unfold df2. rewrite getitem_set_col_ne by done.
    unfold df1. by rewrite getitem_set_col_eq. }
  rewrite Hm, bind_ret.
  destruct (to_doubles_total _ (Dbl_column (rolling_mean W v1))) as [m Hm'].
  rewrite Hm', bind_ret.
  assert (Hs : getitem df2 "rolling_std" = Ok (Dbl <$> rolling_std W v2)).
  { unfold df2. by rewrite getitem_set_col_eq. }
  rewrite Hs, bind_ret.
  destruct (to_doubles_total _ (Dbl_column (rolling_std W v2))) as [s Hs'].
  rewrite Hs', bind_ret. by eexists.
Qed.

(** On a series with orderable period keys and a numeric value column the
    detector returns. *)
Lemma double_detect_time_series_total value_col date_col df :
  date_col ∈ columns df ->
  sortable (map (at_col date_col) (rows df)) = true ->
  numeric_col df value_col = true ->
  exists out,
    Doubles.detect_time_series_anomalies value_col date_col df = (Ok out, df).
Proof.
  intros Hd Hs Hnum. rewrite double_detect_time_series_run.
  unfold sort_values. rewrite getitem_in by done.
  rewrite bind_ret, Hs, bind_ret.
  case_bool_decide; [by eexists|].
  set (sorted := mkDF _ _).
  assert (Hn : numeric_col sorted value_col = true).
  { rewrite <- Hnum. apply numeric_col_perm; [reflexivity|].
    unfold sorted. cbn [rows]. apply merge_sort_Permutation. }
  apply numeric_col_spec in Hn as [Hc Hcells].
  destruct (double_add_rolling_total sorted value_col
              (Z.to_nat (window_size sorted))) as (scored & ->); [done| |].
  - apply Forall_fmap. eapply Forall_impl; [exact Hcells|].
    intros r. unfold compose. by destruct (at_col value_col r).
  - rewrite bind_ret. by eexists.
Qed.

End DoublesTotal.

(** ** The cross-sectional detectors on doubles *)

Module CrossDoublesFacts.
Import Float Pandas Utils AnomalyDetection Props Examples.
Import FloatFacts PandasFacts CrossSectionFacts.
Import Binary64 Doubles DoubleCases.
Import DoublesFacts.
Import Float Pandas Utils AnomalyDetection Props Binary64.
Import FloatFacts PandasFacts CrossSectionFacts DoublesFacts DoubleProps.

(** What the Score Calculator returns: one float per row. *)
Lemma double_scores_Ok s z :
  Doubles.calculate_z_score s = Ok z ->
  length z = length s /\ Forall (fun v => is_str v = false) z /\
  Forall (fun v => wf_surd (surd_of v)) z.
Proof.
  unfold Doubles.calculate_z_score. intros (xs & Hxs & H)%bind_Ok.
  apply mapM_Ok_length in Hxs.
  destruct (eqb _ _); injection H as <-.
  - rewrite length_replicate. repeat split; by apply Forall_replicate.
  - rewrite length_map. split; [done|].
    split; apply Forall_fmap, Forall_true; intros x;
      [apply Dbl_not_str|apply Dbl_wf].
Qed.

Lemma double_with_z_score_Ok dst src df df' :
  Doubles.with_z_score dst src df = Ok df' ->
  exists z, getitem df src ≫= Doubles.calculate_z_score = Ok z /\
            df' = set_col df dst z /\
            length z = length (rows df) /\
            Forall (fun v => is_str v = false) z /\
            Forall (fun v => wf_surd (surd_of v)) z.
Proof.
  unfold Doubles.with_z_score. intros (z & Hz & [= <-])%bind_Ok.
  exists z. split; [done|]. split; [done|].
  apply bind_Ok in Hz as (s & Hs & Hz).
  apply getitem_length in Hs.
  apply double_scores_Ok in Hz as (Hl & Hz & Hw).
  split; [congruence|done].
Qed.

Lemma double_assign_z_score_run dst src df :
  Doubles.assign_z_score dst src df =
  match Doubles.with_z_score dst src df with
  | Ok df' => (Ok tt, df')
  | Raise e => (Raise e, df)
  end.
Proof.
  unfold Doubles.assign_z_score, Doubles.with_z_score, column, setitem, get,
    put, lift.
  unfold mbind, M_bind, result_bind.
  destruct (getitem df src) as [s|e]; [|done].
  by destruct (Doubles.calculate_z_score s).
Qed.

(** A scoring line assigns the scores of its source column and leaves the
    other columns alone. *)
Lemma double_with_z_score_column dst src df df' :
  Doubles.with_z_score dst src df = Ok df' ->
  getitem df' dst = getitem df src ≫= Doubles.calculate_z_score.
Proof.
  intros (z & Hz & -> & Hl & _)%double_with_z_score_Ok. rewrite Hz.
  by apply getitem_set_col_eq.
Qed.

Lemma double_with_z_score_other dst src df df' c :
  Doubles.with_z_score dst src df = Ok df' -> c ≠ dst ->
  getitem df' c = getitem df c.
Proof.
  intros (z & _ & -> & Hl & _)%double_with_z_score_Ok Hc.
  by apply getitem_set_col_ne.
Qed.

Lemma double_with_z_score_col dst src df df' :
  Doubles.with_z_score dst src df = Ok df' -> float_col dst df'.
Proof.
  intros (z & _ & -> & Hl & Hz & Hw)%double_with_z_score_Ok.
  split; [apply columns_set_col; by left|].
  split.
  - apply (Forall_column (fun v => is_str v = false)).
    by rewrite rows_set_col, map_at_col_zip_eq.
  - apply (Forall_column (fun v => wf_surd (surd_of v))).
    by rewrite rows_set_col, map_at_col_zip_eq.
Qed.

Lemma double_with_z_score_keeps dst src df df' c :
  Doubles.with_z_score dst src df = Ok df' -> c ≠ dst ->
  float_col c df -> float_col c df'.
Proof.
  intros (z & _ & -> & Hl & _)%double_with_z_score_Ok Hc (H1 & H2 & H3).
  split; [apply columns_set_col; by right|].
  split.
  - apply (Forall_column (fun v => is_str v = false)).
    apply (Forall_column (fun v => is_str v = false)) in H2.
    by rewrite rows_set_col, map_at_col_zip_ne.
  - apply (Forall_column (fun v => wf_surd (surd_of v))).
    apply (Forall_column (fun v => wf_surd (surd_of v))) in H3.
    by rewrite rows_set_col, map_at_col_zip_ne.
Qed.

Lemma float_cols_scored cols df :
  Forall (fun c => float_col c df) cols ->
  Forall (scored cols) (rows df) /\ Forall (wf_scores cols) (rows df).
Proof.
  intros H. split; apply Forall_forall; intros r Hr;
    (eapply Forall_impl; [exact H|]); intros c (_ & H2 & H3); cbn.
  - rewrite Forall_forall in H2. auto.
  - rewrite Forall_forall in H3. auto.
Qed.

Local Ltac by_cols :=
  unfold cost_scores, loan_scores;
  repeat first [apply Forall_nil_2 | apply Forall_cons_2; [assumption|]].

(** [Doubles.detect_cost_anomalies] in closed form. *)
Lemma double_detect_cost_run t df :
  Doubles.detect_cost_anomalies t df =
  match Doubles.with_z_score "variance_z_score" "variance_pct" df with
  | Raise e => (Raise e, df)
  | Ok df1 =>
      match Doubles.with_z_score "actual_z_score" "actual_amount" df1 with
      | Raise e => (Raise e, df1)
      | Ok df2 => (Ok (flagged_frame cost_scores (cost_label t) t df2), df2)
      end
  end.
Proof.
  unfold Doubles.detect_cost_anomalies. unfold mbind at 1, M_bind.
  rewrite double_assign_z_score_run.
  destruct (Doubles.with_z_score _ _ df) as [df1|e] eqn:H1; [|done].
  unfold mbind at 1, M_bind. rewrite double_assign_z_score_run.
  destruct (Doubles.with_z_score _ _ df1) as [df2|e] eqn:H2; [|done].
  unfold mbind, M_bind, get, lift.
  pose proof (double_with_z_score_col _ _ _ _ H1) as C1.
  pose proof (double_with_z_score_col _ _ _ _ H2) as C2.
  apply (double_with_z_score_keeps _ _ _ _ _ H2) in C1; [|done].
  destruct (float_cols_scored cost_scores df2) as [Hs Hw];
    [by_cols|].
  rewrite flag_cost_run; [done|apply C1|apply C2|done|done].
Qed.

(** [Doubles.detect_loan_anomalies] in closed form. *)
Lemma double_detect_loan_run t df :
  Doubles.detect_loan_anomalies t df =
  match Doubles.with_z_score "pd_z_score" "pd" df with
  | Raise e => (Raise e, df)
  | Ok df1 =>
      match Doubles.with_z_score "ecl_z_score" "ecl" df1 with
      | Raise e => (Raise e, df1)
      | Ok df2 =>
          match Doubles.with_z_score "ead_z_score" "ead" df2 with
          | Raise e => (Raise e, df2)
          | Ok df3 => (Ok (flagged_frame loan_scores (loan_label t) t df3), df3)
          end
      end
  end.
Proof.
  unfold Doubles.detect_loan_anomalies. unfold mbind at 1, M_bind.
  rewrite double_assign_z_score_run.
  destruct (Doubles.with_z_score _ _ df) as [df1|e] eqn:H1; [|done].
  unfold mbind at 1, M_bind. rewrite double_assign_z_score_run.
  destruct (Doubles.with_z_score _ _ df1) as [df2|e] eqn:H2; [|done].
  unfold mbind at 1, M_bind. rewrite double_assign_z_score_run.
  destruct (Doubles.with_z_score _ _ df2) as [df3|e] eqn:H3; [|done].
  unfold mbind, M_bind, get, lift.
  pose proof (double_with_z_score_col _ _ _ _ H1) as C1.
  pose proof (double_with_z_score_col _ _ _ _ H2) as C2.
  pose proof (double_with_z_score_col _ _ _ _ H3) as C3.
  apply (double_with_z_score_keeps _ _ _ _ _ H2) in C1; [|done].
  apply (double_with_z_score_keeps _ _ _ _ _ H3) in C1; [|done].
  apply (double_with_z_score_keeps _ _ _ _ _ H3) in C2; [|done].
  destruct (float_cols_scored loan_scores df3) as [Hs Hw];
    [by_cols|].
  rewrite flag_loan_run; [done|apply C1|apply C2|apply C3|done|done].
Qed.

(** A successful run of a detector. *)
Lemma double_detect_cost_Ok t df out df' :
  Doubles.detect_cost_anomalies t df = (Ok out, df') ->
  out = flagged_frame cost_scores (cost_label t) t df' /\
  Forall (wf_scores cost_scores) (rows df') /\
  getitem df' "variance_z_score"
    = getitem df "variance_pct" ≫= Doubles.calculate_z_score /\
  getitem df' "actual_z_score"
    = getitem df "actual_amount" ≫= Doubles.calculate_z_score.
Proof.
  rewrite double_detect_cost_run.
  destruct (Doubles.with_z_score _ _ df) as [df1|] eqn:H1; [|done].
  destruct (Doubles.with_z_score _ _ df1) as [df2|] eqn:H2; [|done].
  intros [= <- <-]. split; [done|].
  pose proof (double_with_z_score_col _ _ _ _ H1) as C1.
  pose proof (double_with_z_score_col _ _ _ _ H2) as C2.
  apply (double_with_z_score_keeps _ _ _ _ _ H2) in C1; [|done].
  split; [apply float_cols_scored; by_cols|]. split.
  - rewrite (double_with_z_score_other _ _ _ _ _ H2) by done.
    by apply double_with_z_score_column.
  - rewrite (double_with_z_score_column _ _ _ _ H2).
    by rewrite (double_with_z_score_other _ _ _ _ _ H1).
Qed.

Lemma double_detect_loan_Ok t df out df' :
  Doubles.detect_loan_anomalies t df = (Ok out, df') ->
  out = flagged_frame loan_scores (loan_label t) t df' /\
  Forall (wf_scores loan_scores) (rows df') /\
  getitem df' "pd_z_score" = getitem df "pd" ≫= Doubles.calculate_z_score /\
  getitem df' "ecl_z_score" = getitem df "ecl" ≫= Doubles.calculate_z_score /\
  getitem df' "ead_z_score" = getitem df "ead" ≫= Doubles.calculate_z_score.
Proof.
  rewrite double_detect_loan_run.
  destruct (Doubles.with_z_score _ _ df) as [df1|] eqn:H1; [|done].
  destruct (Doubles.with_z_score _ _ df1) as [df2|] eqn:H2; [|done].
  destruct (Doubles.with_z_score _ _ df2) as [df3|] eqn:H3; [|done].
  intros [= <- <-]. split; [done|].
  pose proof (double_with_z_score_col _ _ _ _ H1) as C1.
  pose proof (double_with_z_score_col _ _ _ _ H2) as C2.
  pose proof (double_with_z_score_col _ _ _ _ H3) as C3.
  apply (double_with_z_score_keeps _ _ _ _ _ H2) in C1; [|done].
  apply (double_with_z_score_keeps _ _ _ _ _ H3) in C1; [|done].
  apply (double_with_z_score_keeps _ _ _ _ _ H3) in C2; [|done].
  split; [apply float_cols_scored; by_cols|].
  split; [|split].
  - rewrite (double_with_z_score_other _ _ _ _ _ H3) by done.
    rewrite (double_with_z_score_other _ _ _ _ _ H2) by done.
    by apply double_with_z_score_column.
  - rewrite (double_with_z_score_other _ _ _ _ _ H3) by done.
    rewrite (double_with_z_score_column _ _ _ _ H2).
    by rewrite (double_with_z_score_other _ _ _ _ _ H1).
  - rewrite (double_with_z_score_column _ _ _ _ H3).
    rewrite (double_with_z_score_other _ _ _ _ _ H2) by done.
    by rewrite (double_with_z_score_other _ _ _ _ _ H1).
Qed.

End CrossDoublesFacts.

(** ** The Score Calculator on doubles *)

Module ScoreDoubles.
Import Float Pandas Utils AnomalyDetection Props Examples.
Import FloatFacts PandasFacts CrossSectionFacts.
Import Binary64 Doubles DoubleCases.
Import DoublesFacts.

Lemma count_nonneg xs : (0 <= count xs)%Z.
Proof. unfold count. lia. Qed.

Lemma eqb_zero_inv s : eqb s zero = true -> exists b, s = SpecFloat.S754_zero b.
Proof. destruct s as [b|[]| |[] m e]; try done. by exists b. Qed.

Lemma above_zero_cell t : (0 <= t)%Q -> above t (Num (Some 0%Q)) = false.
Proof.
  intros Ht. cbn. apply orb_false_iff. split; apply Qlt_bool_false; [done|nra].
Qed.



End ScoreDoubles.

(** ** A record injected above a tight population *)

Module InjectionFacts.
Import Float Pandas Utils AnomalyDetection Props Examples.
Import FloatFacts PandasFacts CrossSectionFacts.
Import Float Pandas Utils AnomalyDetection Props Injection.
Import FloatFacts PandasFacts CrossSectionFacts.
Local Open Scope Q_scope.























End InjectionFacts.

Module InjectedFacts.
Import Float Pandas Utils AnomalyDetection Props Examples.
Import FloatFacts PandasFacts CrossSectionFacts.
Import Injection InjectionFacts.
Import Float Pandas Utils AnomalyDetection Props Injection DoubleCases.
Import FloatFacts PandasFacts CrossSectionFacts InjectionFacts.









End InjectedFacts.

(** * The claims *)

Module Claims.
Import Float Pandas Utils AnomalyDetection Props Examples.
Import FloatFacts PandasFacts NumericFacts TimeSeriesFacts CrossSectionFacts.
Import ReportFacts.
Import Injection DoubleCases InjectionFacts InjectedFacts.

(** C1.  The series of five identical values followed by one value far
    above them: the detector returns, and flags nothing, whatever the two
    values are.  The sixth point is not flagged, although it is the
    outlier the detector is meant to find: its window holds the point
    itself, which bounds its score (for [kpi6] the score is [2 / sqrt 3],
    see [kpi6_rolling_scores]). *)
Theorem flat_series_outlier_not_flagged (c x : Q) :
  exists out,
    detect_time_series_anomalies "value" "month" (flat_series c x) =
      (Ok out, flat_series c x)
    /\ labels out = [].
Proof.
  destruct (detect_time_series_total "value" "month" (flat_series c x))
    as (out & Hrun & Hrows); [by_compute|done|done|done|].
  exists out. split; [done|]. unfold labels. by rewrite Hrows.
Qed.






(** C8, as the code has it.  The time-series detector leaves the caller's
    table as it was.  A cross-sectional detector keeps the caller's
    records, their order and every other column, and assigns its score
    columns to the caller's table. *)
Theorem caller_table_effect :
  (forall value_col date_col df,
     snd (detect_time_series_anomalies value_col date_col df) = df) /\
  (forall t df,
     extends_by ["variance_z_score"; "actual_z_score"] df
       (snd (detect_cost_anomalies t df))) /\
  (forall t df,
     extends_by ["pd_z_score"; "ecl_z_score"; "ead_z_score"] df
       (snd (detect_loan_anomalies t df))) /\
  (forall t df out df',
     detect_cost_anomalies t df = (Ok out, df') ->
     "variance_z_score" ∈ columns df' /\ "actual_z_score" ∈ columns df') /\
  (forall t df out df',
     detect_loan_anomalies t df = (Ok out, df') ->
     "pd_z_score" ∈ columns df' /\ "ecl_z_score" ∈ columns df' /\
     "ead_z_score" ∈ columns df').
Proof.
  split; [apply detect_time_series_state|].
  split; [apply detect_cost_extends|].
  split; [apply detect_loan_extends|]. split.
  - intros t df out df' (_ & df1 & H1 & H2)%detect_cost_Ok.
    destruct (with_z_score_scored _ _ _ _ H1) as [C1 _].
    destruct (with_z_score_scored _ _ _ _ H2) as [C2 _].
    split; [|done]. by apply (with_z_score_keeps _ _ _ _ _ H2).
  - intros t df out df' (_ & df1 & df2 & H1 & H2 & H3)%detect_loan_Ok.
    destruct (with_z_score_scored _ _ _ _ H1) as [C1 _].
    destruct (with_z_score_scored _ _ _ _ H2) as [C2 _].
    destruct (with_z_score_scored _ _ _ _ H3) as [C3 _].
    split; [|split; [|done]].
    + apply (with_z_score_keeps _ _ _ _ _ H3); [done|].
      by apply (with_z_score_keeps _ _ _ _ _ H2).
    + by apply (with_z_score_keeps _ _ _ _ _ H3).
Qed.

Lemma caller_table_effect_witness :
  "variance_z_score" ∈ columns costs6_scored /\
  "actual_z_score" ∈ columns costs6_scored.
Proof.
  apply (proj1 (proj2 (proj2 (proj2 caller_table_effect)))
           Z_SCORE_THRESHOLD costs6 costs6_flagged costs6_scored).
  vm_compute. reflexivity.
Defined.

(** C8, as the spec has it, fails: after [detect_cost_anomalies] the
    caller's table has two more columns. *)
Lemma caller_table_mutated :
  detect_cost_anomalies Z_SCORE_THRESHOLD costs6
    = (Ok costs6_flagged, costs6_scored) /\
  columns costs6_scored
    = columns costs6 ++ ["variance_z_score"; "actual_z_score"] /\
  costs6_scored <> costs6.
Proof.
  split; [vm_compute; reflexivity|]. split; [vm_compute; reflexivity|].
  intros H. apply (f_equal columns) in H. vm_compute in H. discriminate H.
Qed.

(** C9, as the code has it.  There is no isolation: the exception of the
    first detector that raises, in the order costs, loans, KPIs, is the
    outcome of [generate_anomaly_report]; no summary is built.  [run] then
    raises it too before any file is written, and [main] exits with 1. *)
Theorem detector_failure_aborts_report (e : Env) (x : exn) :
  (fst (detect_cost_anomalies Z_SCORE_THRESHOLD (costs e)) = Raise x ->
   fst (generate_anomaly_report e) = Raise x) /\
  ((exists ca, fst (detect_cost_anomalies Z_SCORE_THRESHOLD (costs e)) = Ok ca) ->
   fst (detect_loan_anomalies Z_SCORE_THRESHOLD (loans e)) = Raise x ->
   fst (generate_anomaly_report e) = Raise x) /\
  ((exists ca, fst (detect_cost_anomalies Z_SCORE_THRESHOLD (costs e)) = Ok ca) ->
   (exists la, fst (detect_loan_anomalies Z_SCORE_THRESHOLD (loans e)) = Ok la) ->
   fst (analyze_monthly_kpi_anomalies (monthly_kpis e)) = Raise x ->
   fst (generate_anomaly_report e) = Raise x) /\
  (fst (generate_anomaly_report e) = Raise x ->
   fst (run e) = Raise x /\ files (snd (run e)) = files e /\
   RunAnalytics.main (Ok e) = 1%Z).
Proof.
  split; [|split; [|split]].
  - rewrite generate_anomaly_report_run.
    by destruct (detect_cost_anomalies _ _) as [[ca|y] c'].
  - rewrite generate_anomaly_report_run.
    destruct (detect_cost_anomalies _ _) as [[ca|y] c'];
      [|by intros [? [=]]].
    by destruct (detect_loan_anomalies _ _) as [[la|z] l'].
  - rewrite generate_anomaly_report_run.
    destruct (detect_cost_anomalies _ _) as [[ca|y] c'];
      [|by intros [? [=]]].
    destruct (detect_loan_anomalies _ _) as [[la|z] l'];
      [|by intros _ [? [=]]].
    by destruct (analyze_monthly_kpi_anomalies _) as [[ka|w] k'].
  - intros H. destruct (run_report_raises e x H) as [H1 H2].
    split; [done|]. split; [done|]. unfold RunAnalytics.main. by rewrite H1.
Qed.

Lemma detector_failure_aborts_report_witness :
  fst (generate_anomaly_report env_without_pd) = Raise (KeyError "pd").
Proof.
  apply (proj1 (proj2 (detector_failure_aborts_report env_without_pd
                         (KeyError "pd")))).
  - exists costs12_flagged. vm_compute. reflexivity.
  - vm_compute. reflexivity.
Defined.

(** C9, as the spec has it, fails: the cost detector finds its record, the
    loan table lacks [pd], and the report is the [KeyError], not a partial
    summary; the run writes nothing and the exit status is 1. *)
Lemma missing_column_aborts_report :
  fst (detect_cost_anomalies Z_SCORE_THRESHOLD (costs env_without_pd))
    = Ok costs12_flagged /\
  length (rows costs12_flagged) = 1%nat /\
  fst (generate_anomaly_report env_without_pd) = Raise (KeyError "pd") /\
  fst (run env_without_pd) = Raise (KeyError "pd") /\
  files (snd (run env_without_pd)) = [] /\
  RunAnalytics.main (Ok env_without_pd) = 1%Z.
Proof. repeat split; vm_compute; reflexivity. Qed.

(** C10.  Running the pipeline a second time returns the same summary (or
    raises the same exception) and writes the same files with the same
    contents: on the tables as the first run left them, which are not
    changed again, and on a copy of the tables as they were.  The same
    holds for [generate_anomaly_report] alone. *)
Theorem pipeline_deterministic (e : Env) (r : result DataFrame) (e1 : Env) :
  run e = (r, e1) ->
  exists w,
    files e1 = files e ++ w /\
    (forall e2, same_tables e1 e2 ->
       exists e3, run e2 = (r, e3) /\ files e3 = files e2 ++ w /\
                  same_tables e2 e3) /\
    (forall e0, same_tables e e0 ->
       exists e3, run e0 = (r, e3) /\ files e3 = files e0 ++ w /\
                  same_tables e1 e3) /\
    fst (generate_anomaly_report e1) = fst (generate_anomaly_report e).
Proof.
  intros Hrun. destruct (run_shape _ _ _ Hrun) as (w & Hf & Hre).
  exists w. split; [done|]. split; [|split].
  - intros e2 He2. exists (set_files (files e2 ++ w) e2).
    split; [by apply Hre|]. split; [done|]. by repeat split.
  - intros e0 He0.
    destruct (run_copy _ _ _ _ Hrun He0) as (e3 & Hr3 & Hs3 & Hd).
    exists e3. split; [done|]. split; [|done].
    destruct (run_shape _ _ _ Hr3) as (w3 & Hf3 & _).
    rewrite Hf, Hf3, !drop_app_length in Hd. by rewrite Hf3, Hd.
  - destruct (generate_anomaly_report e) as [[s|x] eg] eqn:Hg.
    + destruct (generate_anomaly_report_shape _ _ _ Hg) as [_ Hg2].
      pose proof (Hg2 eg (same_tables_refl eg)) as Hgg.
      destruct (generate_anomaly_report_fixed _ _ Hgg)
        as (ca & la & ka & H1 & H2 & H3).
      destruct (save_results_appender s ca la ka) as (r0 & w0 & Hw).
      rewrite (run_after _ _ _ _ _ _ Hg H1 H2 H3), Hw in Hrun.
      injection Hrun as <- <-. by rewrite Hg2.
    + destruct (generate_anomaly_report_shape _ _ _ Hg) as [_ Hg2].
      rewrite (run_raises _ _ _ Hg) in Hrun. injection Hrun as <- <-.
      by rewrite Hg2 by apply same_tables_refl.
Qed.

Lemma pipeline_deterministic_witness :
  fst (generate_anomaly_report env12_after)
  = fst (generate_anomaly_report env12).
Proof.
  destruct (pipeline_deterministic env12 (Ok summary12) env12_after)
    as (w & _ & _ & _ & H); [vm_compute; reflexivity|exact H].
Defined.

End Claims.

(** * The claims that depend on the arithmetic *)

Module DoubleClaims.
Import Float Pandas Utils AnomalyDetection Props Examples.
Import FloatFacts PandasFacts CrossSectionFacts.
Import Binary64 Doubles DoubleCases.
Import DoublesFacts DoublesTotal CrossDoublesFacts ScoreDoubles.

(** C2, as the code has it.  The detector leaves the caller's table as
    it was.  With fewer than three points it returns the empty table.
    Otherwise it returns, in date order, exactly the rows of the sorted
    working copy whose score, as stored in [rolling_z_score], exceeds 3.0
    in absolute value; the first [W - 1] rows are never among them; and
    the score of a row is the quotient of line 127 computed on doubles
    from the row's own value, rolling mean and rolling deviation, so that
    a row whose rolling deviation is 0 while its value differs from its
    rolling mean is returned.  On a table with the date column, orderable
    period keys and a numeric value column the detector does return. *)
Theorem time_series_result value_col date_col df :
  (forall out df',
     Doubles.detect_time_series_anomalies value_col date_col df = (Ok out, df') ->
     df' = df /\
     ((len df <= 2)%Z -> out = empty_frame) /\
     ((3 <= len df)%Z ->
      exists sorted scored,
        sort_values df date_col true = Ok sorted /\
        Doubles.add_rolling sorted value_col (Z.to_nat (Z.min 3 (len df - 1)))
          = Ok scored /\
        map label (rows scored) = map label (rows sorted) /\
        columns out = columns scored /\
        rows out = filter (fun r => above Z_SCORE_THRESHOLD
                                      (at_col "rolling_z_score" r))
                          (rows scored) /\
        (forall (i : nat) r,
           rows scored !! i = Some r ->
           (Z.of_nat i < Z.min 3 (len df - 1) - 1)%Z ->
           above Z_SCORE_THRESHOLD (at_col "rolling_z_score" r) = false) /\
        (value_col ≠ "rolling_z_score" ->
         forall r, r ∈ rows scored ->
           exists x m s,
             as_double (at_col value_col r) = Ok x /\
             as_double (at_col "rolling_mean" r) = Ok m /\
             as_double (at_col "rolling_std" r) = Ok s /\
             at_col "rolling_z_score" r = Dbl (div (sub x m) s) /\
             (eqb s zero = true ->
              (exists sg mm ee, sub x m = SpecFloat.S754_finite sg mm ee) ->
              r ∈ rows out)))) /\
  (date_col ∈ columns df ->
   sortable (map (at_col date_col) (rows df)) = true ->
   numeric_col df value_col = true ->
   exists out,
     Doubles.detect_time_series_anomalies value_col date_col df = (Ok out, df)).
Proof.
  split; [|apply double_detect_time_series_total].
  intros out df'.
  rewrite double_detect_time_series_run. intros [= H <-]. split; [done|].
  apply bind_Ok in H as (sorted & Hsort & H).
  pose proof (sort_values_len _ _ _ _ Hsort) as Hlen.
  assert (Hw : window_size sorted = Z.min 3 (len df - 1)).
  { unfold window_size. by rewrite Hlen. }
  rewrite Hw in H. split.
  - intros Hn. rewrite bool_decide_eq_true_2 in H by lia. by injection H as <-.
  - intros Hn. rewrite bool_decide_eq_false_2 in H by lia.
    apply bind_Ok in H as (scored & Hsc & [= <-]).
    exists sorted, scored. split; [done|]. split; [done|].
    destruct (add_rolling_rows _ _ _ _ Hsc) as (_ & Hlab & _ & Hearly & Hrow).
    split; [done|]. split; [done|]. split; [done|]. split.
    + intros i r Hr Hi. rewrite (Hearly i r Hr) by lia. apply above_Dbl_nan.
    + intros Hne r Hr. destruct (Hrow Hne r Hr) as (x & m & s & Hx & Hm & Hs & Hz).
      exists x, m, s. repeat (split; [done|]).
      intros (b & ->)%eqb_zero_inv (sg & mm & ee & Hd). cbn [rows].
      apply list_elem_of_filter. split; [|done].
      rewrite Hz, Hd. apply Is_true_true. by destruct b, sg.
Qed.

Lemma time_series_result_witness :
  exists sorted scored,
    sort_values kpi_tiny "month" true = Ok sorted /\
    Doubles.add_rolling sorted "profit" 3 = Ok scored /\
    rows kpi_tiny_flagged
      = filter (fun r => above Z_SCORE_THRESHOLD (at_col "rolling_z_score" r))
               (rows scored).
Proof.
  destruct (proj1 (time_series_result "profit" "month" kpi_tiny)
              kpi_tiny_flagged kpi_tiny) as (_ & _ & H);
    [vm_compute; reflexivity|].
  destruct H as (sorted & scored & H1 & H2 & _ & _ & H3 & _);
    [vm_compute; discriminate|].
  exists sorted, scored. split; [exact H1|]. split; [exact H2|exact H3].
Defined.

(** C2, as the claim has it, fails.  On doubles the detector does return
    points.  Three months at 0 and a fourth at [2^-600]: the squared
    deviations of the last window underflow, the rolling deviation is 0.0
    while the value differs from the rolling mean, the score is [+inf] and
    the fourth month is returned.  And a KPI column that is itself named
    [rolling_std] is overwritten by line 124 before line 127 reads it:
    for the values 100, 101, 102, 103 the scores are [(1 - 101) / 1] and
    [(1 - 102) / 1], and the third and fourth months are returned. *)
Lemma time_series_point_flagged :
  Doubles.detect_time_series_anomalies "profit" "month" kpi_tiny
    = (Ok kpi_tiny_flagged, kpi_tiny) /\
  map (fun r => (at_col "month" r, at_col "rolling_std" r,
                 at_col "rolling_z_score" r)) (rows kpi_tiny_flagged)
    = [(Str "2024-04", Root (SFin 0 1), Root (SInf false))] /\
  Doubles.detect_time_series_anomalies "rolling_std" "month" kpi_drift
    = (Ok kpi_drift_flagged, kpi_drift) /\
  map (fun r => (at_col "month" r, at_col "rolling_z_score" r))
      (rows kpi_drift_flagged)
    = [(Str "2024-03", Root (SFin (-100) 1));
       (Str "2024-04", Root (SFin (-101) 1))].
Proof. repeat split; vm_compute; reflexivity. Qed.

(** C5.  A record is in the result of a cross-sectional detector exactly
    when the absolute value of at least one of its watched scores exceeds
    the threshold.  The scores are those the Score Calculator computes, on
    doubles, for the watched columns; every returned row is a record of
    the table; and the flagged set is the union of the per-field outlier
    sets. *)
Theorem union_flagging (t : Q) :
  (forall df out df',
     Doubles.detect_cost_anomalies t df = (Ok out, df') ->
     getitem df' "variance_z_score"
       = getitem df "variance_pct" ≫= Doubles.calculate_z_score /\
     getitem df' "actual_z_score"
       = getitem df "actual_amount" ≫= Doubles.calculate_z_score /\
     (forall r, r ∈ rows df' ->
        (exists r', r' ∈ rows out /\ same_record r r') <->
        above t (at_col "variance_z_score" r) = true \/
        above t (at_col "actual_z_score" r) = true) /\
     (forall r', r' ∈ rows out -> exists r, r ∈ rows df' /\ same_record r r') /\
     label_set out
       = outliers t "variance_z_score" df' ∪ outliers t "actual_z_score" df') /\
  (forall df out df',
     Doubles.detect_loan_anomalies t df = (Ok out, df') ->
     getitem df' "pd_z_score" = getitem df "pd" ≫= Doubles.calculate_z_score /\
     getitem df' "ecl_z_score" = getitem df "ecl" ≫= Doubles.calculate_z_score /\
     getitem df' "ead_z_score" = getitem df "ead" ≫= Doubles.calculate_z_score /\
     (forall r, r ∈ rows df' ->
        (exists r', r' ∈ rows out /\ same_record r r') <->
        above t (at_col "pd_z_score" r) = true \/
        above t (at_col "ecl_z_score" r) = true \/
        above t (at_col "ead_z_score" r) = true) /\
     (forall r', r' ∈ rows out -> exists r, r ∈ rows df' /\ same_record r r') /\
     label_set out
       = outliers t "pd_z_score" df' ∪ outliers t "ecl_z_score" df'
         ∪ outliers t "ead_z_score" df').
Proof.
  split.
  - intros df out df' (-> & _ & H1 & H2)%double_detect_cost_Ok.
    split; [done|]. split; [done|]. split; [|split].
    + intros r Hr. rewrite <- flagged_cost.
      apply flagged_frame_iff; [by_compute..|done].
    + apply flagged_frame_from.
    + rewrite flagged_frame_labels. apply outliers_union_cost.
  - intros df out df' (-> & _ & H1 & H2 & H3)%double_detect_loan_Ok.
    split; [done|]. split; [done|]. split; [done|]. split; [|split].
    + intros r Hr. rewrite <- flagged_loan.
      apply flagged_frame_iff; [by_compute..|done].
    + apply flagged_frame_from.
    + rewrite flagged_frame_labels. apply outliers_union_loan.
Qed.

(** For [costs12_split] the two per-field outlier sets are disjoint, and
    both records are returned. *)
Lemma union_flagging_witness :
  outliers 3 "variance_z_score" costs12_split_scored = {[10%nat]} /\
  outliers 3 "actual_z_score" costs12_split_scored = {[11%nat]} /\
  label_set costs12_split_flagged = {[10%nat; 11%nat]}.
Proof.
  assert (H1 : outliers 3 "variance_z_score" costs12_split_scored = {[10%nat]})
    by (vm_compute; reflexivity).
  assert (H2 : outliers 3 "actual_z_score" costs12_split_scored = {[11%nat]})
    by (vm_compute; reflexivity).
  split; [exact H1|]. split; [exact H2|].
  destruct (proj1 (union_flagging 3) costs12_split costs12_split_flagged
              costs12_split_scored) as (_ & _ & _ & _ & H);
    [vm_compute; reflexivity|].
  rewrite H, H1, H2. reflexivity.
Defined.

(** C3.  In a result, a record whose earlier and later watched scores
    both exceed the threshold in absolute value carries the label of the
    earlier field in the priority order, whichever score is larger and
    whatever their signs: [variance_pct] before [actual_amount]; [pd]
    before [ecl] before [ead]. *)
Theorem priority_labeling (t : Q) :
  (forall df out df' r,
     Doubles.detect_cost_anomalies t df = (Ok out, df') -> r ∈ rows out ->
     above t (at_col "variance_z_score" r) = true ->
     above t (at_col "actual_z_score" r) = true ->
     at_col "anomaly_type" r = Str "High Variance") /\
  (forall df out df' r,
     Doubles.detect_loan_anomalies t df = (Ok out, df') -> r ∈ rows out ->
     (above t (at_col "pd_z_score" r) = true ->
      above t (at_col "ecl_z_score" r) = true \/
      above t (at_col "ead_z_score" r) = true ->
      at_col "anomaly_type" r = Str "High PD") /\
     (above t (at_col "pd_z_score" r) = false ->
      above t (at_col "ecl_z_score" r) = true ->
      above t (at_col "ead_z_score" r) = true ->
      at_col "anomaly_type" r = Str "High ECL")).
Proof.
  split.
  - intros df out df' r' (-> & _)%double_detect_cost_Ok.
    intros (r & _ & _ & ->)%flagged_frame_rows. rewrite decorate_type.
    unfold decorate, cost_label. rewrite !at_col_set_cell_ne by done.
    by intros -> _.
  - intros df out df' r' (-> & _)%double_detect_loan_Ok.
    intros (r & _ & _ & ->)%flagged_frame_rows. rewrite decorate_type.
    unfold decorate, loan_label. rewrite !at_col_set_cell_ne by done.
    split; [by intros -> _ | by intros -> ->].
Qed.

(** The flagged record of [costs12_signed]: its variance score is below
    -3, its amount score above 3 and the larger of the two in absolute
    value, and its label is that of the variance. *)
Lemma priority_labeling_witness :
  surd_leb (surd_of (at_col "variance_z_score" costs12_signed_top))
           (Float.of_Q (-3)) = true /\
  surd_leb (sabs (surd_of (at_col "variance_z_score" costs12_signed_top)))
           (sabs (surd_of (at_col "actual_z_score" costs12_signed_top))) = true /\
  at_col "anomaly_type" costs12_signed_top = Str "High Variance".
Proof.
  split; [vm_compute; reflexivity|]. split; [vm_compute; reflexivity|].
  apply (proj1 (priority_labeling 3) costs12_signed costs12_signed_flagged
           costs12_signed_scored).
  - vm_compute. reflexivity.
  - apply list_elem_of_here.
  - vm_compute. reflexivity.
  - vm_compute. reflexivity.
Defined.

(** The two tables of injected records on doubles: the sixth record of
    [costs6] is not returned; the twelfth of [costs12_injected] is, with
    the severity 3.015. *)
Lemma injected_outlier_on_doubles :
  fst (Doubles.detect_cost_anomalies Z_SCORE_THRESHOLD costs6)
    = Ok costs6_doubles /\
  rows costs6_doubles = [] /\
  fst (Doubles.detect_cost_anomalies Z_SCORE_THRESHOLD costs12_injected)
    = Ok costs12_injected_doubles /\
  map (fun r => (at_col "cost_id" r, at_col "anomaly_type" r,
                 at_col "severity" r)) (rows costs12_injected_doubles)
    = [(Str "C11", Str "High Variance",
        Root (SFin (6789663770987037 # 2251799813685248) 1))] /\
  above 3 (Root (SFin (6789663770987037 # 2251799813685248) 1)) = true /\
  above 10 (Root (SFin (6789663770987037 # 2251799813685248) 1)) = false.
Proof. repeat split; vm_compute; reflexivity. Qed.





(** On doubles a column of identical values need not have the
    deviation 0: the mean of [0.1, 0.1, 0.1] is computed as
    [0.10000000000000002], the deviation as [1.7e-17], and every score is
    [-0.816...], which exceeds a threshold of 0.5 in absolute value. *)
Lemma identical_values_scored :
  Doubles.calculate_z_score
    [Num (Some (1 # 10)); Num (Some (1 # 10)); Num (Some (1 # 10))]
  = Ok (replicate 3 (Root (SFin (-7354347395230783 # 9007199254740992) 1))) /\
  above (1 # 2) (Root (SFin (-7354347395230783 # 9007199254740992) 1)) = true.
Proof. split; vm_compute; reflexivity. Qed.

End DoubleClaims.

(** * More on the detectors and the run *)

(** ** Sorting with an order that is total on the rows at hand *)

Module SortFacts.
Import Reading.

Section merge_sort_agree.
Context {A : Type} (R R' : relation A) (P : A -> Prop).
Context `{!forall x y, Decision (R x y)} `{!forall x y, Decision (R' x y)}.
Hypothesis agree : forall x y, P x -> P y -> (R x y <-> R' x y).

Lemma list_merge_agree l1 l2 :
  Forall P l1 -> Forall P l2 -> list_merge R l1 l2 = list_merge R' l1 l2.
Proof.
  intros H1. revert l2. induction H1 as [|x1 l1 Hx1 Hl1 IH1].
  - by intros [|x2 l2] _.
  - induction 1 as [|x2 l2 Hx2 Hl2 IH2]; [done|].
    rewrite !list_merge_cons.
    destruct (decide (R x1 x2)) as [Hr|Hr], (decide (R' x1 x2)) as [Hr'|Hr'].
    + f_equal. apply IH1. by constructor.
    + by apply agree in Hr.
    + by apply agree in Hr'.
    + by f_equal.
Qed.

Lemma list_merge_all l1 l2 :
  Forall P l1 -> Forall P l2 -> Forall P (list_merge R l1 l2).
Proof.
  intros H1 H2. rewrite merge_Permutation. by apply Forall_app.
Qed.

Lemma merge_list_to_stack_agree st l :
  Forall (from_option (Forall P) True) st -> Forall P l ->
  merge_list_to_stack R st l = merge_list_to_stack R' st l /\
  Forall (from_option (Forall P) True) (merge_list_to_stack R st l).
Proof.
  intros Hst. revert l. induction Hst as [|[l'|] st Hl' Hst IH]; intros l Hl.
  - split; [done|]. by repeat constructor.
  - cbn. destruct (IH (list_merge R l' l)) as [E S].
    { by apply list_merge_all. }
    split.
    + f_equal. rewrite E. f_equal. by apply list_merge_agree.
    + by constructor.
  - cbn. split; [done|]. by constructor.
Qed.

Lemma merge_stack_agree st :
  Forall (from_option (Forall P) True) st ->
  merge_stack R st = merge_stack R' st /\ Forall P (merge_stack R st).
Proof.
  induction 1 as [|[l|] st Hl Hst [E S]]; cbn.
  - done.
  - split.
    + rewrite <- E. by apply list_merge_agree.
    + by apply list_merge_all.
  - done.
Qed.

Lemma merge_sort_aux_agree st l :
  Forall (from_option (Forall P) True) st -> Forall P l ->
  merge_sort_aux R st l = merge_sort_aux R' st l.
Proof.
  intros Hst Hl. revert st Hst.
  induction Hl as [|x l Hx Hl IH]; intros st Hst; cbn.
  - by apply merge_stack_agree.
  - destruct (merge_list_to_stack_agree st [x]) as [E S]; [done|by constructor|].
    rewrite <- E. by apply IH.
Qed.

(** Two orders that agree on the elements of a list sort it alike. *)
Lemma merge_sort_agree l :
  Forall P l -> merge_sort R l = merge_sort R' l.
Proof. intros. apply merge_sort_aux_agree; [constructor|done]. Qed.

Lemma Sorted_agree l : Forall P l -> Sorted R' l -> Sorted R l.
Proof.
  intros HP HS. induction HS as [|x l HS IH Hhd]; [constructor|].
  apply Forall_cons in HP as [Hx Hl]. constructor; [auto|].
  destruct Hhd as [|y l Hxy]; constructor.
  apply Forall_cons in Hl as [Hy _]. by apply agree.
Qed.

End merge_sort_agree.

#[export] Instance or_unordered_total {A} (R : relation A)
  `{!forall x y, Decision (R x y)} : Total (or_unordered R).
Proof.
  intros x y. unfold or_unordered.
  destruct (decide (R y x)); [right|left]; auto.
Qed.

(** [merge_sort] sorts a list on whose elements the order is total. *)
Lemma Sorted_merge_sort_on {A} (R : relation A) (P : A -> Prop)
    `{!forall x y, Decision (R x y)} l :
  (forall x y, P x -> P y -> R x y \/ R y x) ->
  Forall P l -> Sorted R (merge_sort R l).
Proof.
  intros Htot HP.
  assert (Hag : forall x y, P x -> P y -> (R x y <-> or_unordered R x y)).
  { intros x y Hx Hy. unfold or_unordered. split; [auto|].
    intros [Hxy|Hyx]; [done|]. destruct (Htot x y Hx Hy); done. }
  apply (Sorted_agree R (or_unordered R) P Hag).
  - by rewrite merge_sort_Permutation.
  - rewrite (merge_sort_agree R (or_unordered R) P Hag) by done.
    apply Sorted_merge_sort, _.
Qed.

(** A sorted list is strongly sorted when the order is transitive on its
    elements. *)
Lemma Sorted_StronglySorted_on {A} (R : relation A) (P : A -> Prop) l :
  (forall x y z, P x -> P y -> P z -> R x y -> R y z -> R x z) ->
  Forall P l -> Sorted R l -> StronglySorted R l.
Proof.
  intros Htr HP HS. induction HS as [|x l HS IH Hhd]; [constructor|].
  apply Forall_cons in HP as [Hx Hl]. specialize (IH Hl).
  constructor; [done|].
  destruct Hhd as [|y l Hxy]; [constructor|].
  apply StronglySorted_cons in IH as [Hy IH].
  apply Forall_cons in Hl as [Py Hl].
  constructor; [done|].
  rewrite Forall_forall in Hy, Hl. apply Forall_forall. intros z Hz.
  apply (Htr x y z); auto.
Qed.

End SortFacts.

(** ** The order of a result *)

Module OrderFacts.
Import Float Pandas Utils UtilsHelpers AnomalyDetection RunAnalytics Props Reading.
Import FloatFacts PandasFacts CrossSectionFacts SortFacts.
Local Open Scope Q_scope.

Lemma surd_leb_trans x y z :
  wf_surd x -> wf_surd y -> wf_surd z ->
  surd_leb x y = true -> surd_leb y z = true -> surd_leb x z = true.
Proof.
  destruct x as [|[]|d1 v1], y as [|[]|d2 v2], z as [|[]|d3 v3]; cbn; try done.
  intros H1 H2 H3 H12%Qle_bool_iff H23%Qle_bool_iff. apply Qle_bool_iff.
  generalize dependent (ssq d1). generalize dependent (ssq d2).
  generalize dependent (ssq d3). intros D3 D2 H23 D1 H12.
  assert (D1 * v3 * v2 <= D3 * v1 * v2) by nra.
  apply Qnot_lt_le. intros Hlt.
  assert (D3 * v1 * v2 < D1 * v3 * v2) by nra. lra.
Qed.

(** On rated rows the sorting order is the order of the severities. *)
Lemma row_before_severity r1 r2 :
  rated r1 -> rated r2 ->
  row_before "severity" false r1 r2 <-> by_severity r1 r2.
Proof.
  unfold rated, by_severity, severity, row_before, key_before.
  intros (S1 & N1 & _) (S2 & N2 & _).
  destruct (at_col "severity" r1) as [x1|z1|s1],
    (at_col "severity" r2) as [x2|z2|s2]; try done;
    repeat match goal with
           | x : num |- _ => destruct x as [?|]
           | z : surd |- _ => destruct z as [|[]|? ?]
           end; cbn in *; done.
Qed.

Lemma by_severity_total r1 r2 :
  rated r1 -> rated r2 -> by_severity r1 r2 \/ by_severity r2 r1.
Proof.
  intros (_ & N1 & _) (_ & N2 & _). unfold by_severity.
  destruct (surd_leb (severity r2) (severity r1)) eqn:E; [by left|right].
  by apply surd_leb_total.
Qed.

Lemma by_severity_trans r1 r2 r3 :
  rated r1 -> rated r2 -> rated r3 ->
  by_severity r1 r2 -> by_severity r2 r3 -> by_severity r1 r3.
Proof.
  intros (_ & _ & W1) (_ & _ & W2) (_ & _ & W3). unfold by_severity.
  intros H12 H23. by apply (surd_leb_trans _ (severity r2)).
Qed.

(** Sorting rated rows by severity, descending, orders them. *)
Lemma sorted_by_severity rs :
  Forall rated rs ->
  StronglySorted by_severity (merge_sort (row_before "severity" false) rs).
Proof.
  intros Hr.
  assert (Hm : Forall rated (merge_sort (row_before "severity" false) rs)).
  { by rewrite merge_sort_Permutation. }
  apply (Sorted_StronglySorted_on _ rated); [apply by_severity_trans|done|].
  apply (Sorted_agree _ (row_before "severity" false) rated); [|done|].
  { intros x y Hx Hy. symmetry. by apply row_before_severity. }
  apply (Sorted_merge_sort_on _ rated); [|done].
  intros x y Hx Hy.
  destruct (by_severity_total x y Hx Hy); [left|right];
    by apply row_before_severity.
Qed.

Lemma decorate_rated cols lbl t r :
  wf_scores cols r -> flagged cols t r = true -> rated (decorate cols lbl r).
Proof.
  intros Hwf Hf. unfold rated, severity.
  rewrite decorate_severity. cbn. split; [done|]. split.
  - eapply surd_gtb_not_nan. by apply severity_gt.
  - by apply severity_of_wf.
Qed.

Lemma flagged_frame_sorted cols lbl t df :
  Forall (wf_scores cols) (rows df) ->
  StronglySorted by_severity (rows (flagged_frame cols lbl t df)) /\
  Forall rated (rows (flagged_frame cols lbl t df)).
Proof.
  intros Hwf.
  assert (Hr : Forall rated
                 (map (decorate cols lbl) (filter (flagged cols t) (rows df)))).
  { apply Forall_fmap, Forall_forall.
    intros r [Hf Hr]%list_elem_of_filter. apply Is_true_true in Hf.
    rewrite Forall_forall in Hwf. by eapply decorate_rated; auto. }
  unfold flagged_frame. cbn [rows]. split.
  - by apply sorted_by_severity.
  - by rewrite merge_sort_Permutation.
Qed.

End OrderFacts.

(** ** The KPI analysis *)

Module KpiFacts.
Import Float Pandas Utils UtilsHelpers AnomalyDetection RunAnalytics Props Reading.
Import FloatFacts PandasFacts TimeSeriesFacts CrossSectionFacts RepeatFacts.

(** One step of the KPI loop: the list of findings is never extended. *)
Lemma kpi_step_run anomalies col df :
  kpi_step anomalies col df =
  if decide (col ∈ columns df) then
    match fst (detect_time_series_anomalies col "month" df) with
    | Ok _ => (Ok anomalies, df)
    | Raise x => (Raise x, df)
    end
  else (Ok anomalies, df).
Proof.
  unfold kpi_step. unfold mbind at 1, M_bind, get.
  case_decide; [|done]. unfold mbind at 1, M_bind.
  pose proof (detect_time_series_state col "month" df) as Hs.
  destruct (detect_time_series_anomalies col "month" df) as [[out|x] df'] eqn:E;
    cbn in Hs; subst df'; [|done].
  apply detect_time_series_empty in E. unfold len. rewrite E. cbn.
  by rewrite bool_decide_eq_false_2 by lia.
Qed.

Lemma kpi_loop_Ok cols anomalies df acc df' :
  kpi_loop anomalies cols df = (Ok acc, df') -> acc = anomalies /\ df' = df.
Proof.
  revert anomalies. induction cols as [|col cols IH]; intros anomalies.
  - by intros [= <- <-].
  - cbn [kpi_loop]. unfold mbind, M_bind. rewrite kpi_step_run.
    case_decide; [|apply IH].
    destruct (fst (detect_time_series_anomalies col "month" df));
      [apply IH|done].
Qed.

Lemma analyze_monthly_kpi_Ok df out df' :
  analyze_monthly_kpi_anomalies df = (Ok out, df') ->
  out = empty_frame /\ df' = df.
Proof.
  unfold analyze_monthly_kpi_anomalies. unfold mbind, M_bind.
  destruct (kpi_loop [] kpi_columns df) as [[acc|x] d] eqn:E; [|done].
  apply kpi_loop_Ok in E as [-> ->]. by intros [= <- <-].
Qed.

Lemma kpi_loop_absent cols anomalies df :
  Forall (fun c => c ∉ columns df) cols ->
  kpi_loop anomalies cols df = (Ok anomalies, df).
Proof.
  induction 1 as [|col cols Hc _ IH]; [done|].
  cbn [kpi_loop]. unfold mbind, M_bind. rewrite kpi_step_run.
  by rewrite decide_False.
Qed.

Lemma detect_time_series_no_date value_col date_col df :
  date_col ∉ columns df ->
  detect_time_series_anomalies value_col date_col df
  = (Raise (KeyError date_col), df).
Proof.
  intros H. rewrite detect_time_series_run. unfold sort_values, getitem.
  by rewrite decide_False.
Qed.

Lemma kpi_loop_no_month cols anomalies df :
  "month" ∉ columns df -> Exists (fun c => c ∈ columns df) cols ->
  kpi_loop anomalies cols df = (Raise (KeyError "month"), df).
Proof.
  intros Hm. induction cols as [|col cols IH]; [by intros ?%Exists_nil|].
  intros Hex. cbn [kpi_loop]. unfold mbind, M_bind. rewrite kpi_step_run.
  case_decide as Hc.
  - by rewrite detect_time_series_no_date.
  - apply IH. by apply Exists_cons in Hex as [?|?].
Qed.

(** The KPI analysis on a well-formed table. *)
Lemma kpi_loop_total cols anomalies df :
  "month" ∈ columns df ->
  sortable (map (at_col "month") (rows df)) = true ->
  Forall (fun c => c ≠ "rolling_std" /\
                   (c ∈ columns df -> numeric_col df c = true)) cols ->
  kpi_loop anomalies cols df = (Ok anomalies, df).
Proof.
  intros Hm Hs. induction 1 as [|col cols [Hn Hc] _ IH]; [done|].
  cbn [kpi_loop]. unfold mbind, M_bind. rewrite kpi_step_run.
  case_decide as Hin; [|done].
  destruct (detect_time_series_total col "month" df) as (out & -> & _); auto.
Qed.

End KpiFacts.

(** ** The run in closed form *)

Module RunFacts.
Import Float Pandas Utils UtilsHelpers AnomalyDetection RunAnalytics Props Reading.
Import FloatFacts PandasFacts TimeSeriesFacts CrossSectionFacts RepeatFacts.
Import ReportFacts KpiFacts.

(** A successful report, taken apart. *)
Lemma generate_anomaly_report_Ok e s eg :
  generate_anomaly_report e = (Ok s, eg) ->
  exists ca la c' l',
    detect_cost_anomalies Z_SCORE_THRESHOLD (costs e) = (Ok ca, c') /\
    detect_loan_anomalies Z_SCORE_THRESHOLD (loans e) = (Ok la, l') /\
    analyze_monthly_kpi_anomalies (monthly_kpis e)
      = (Ok empty_frame, monthly_kpis e) /\
    summarize ca la empty_frame = Ok s /\
    eg = mkEnv c' l' (monthly_kpis e) (files e).
Proof.
  rewrite generate_anomaly_report_run.
  destruct (detect_cost_anomalies _ (costs e)) as [[ca|x] c']; [|done].
  destruct (detect_loan_anomalies _ (loans e)) as [[la|x] l']; [|done].
  destruct (analyze_monthly_kpi_anomalies (monthly_kpis e))
    as [[ka|x] k'] eqn:Hk; [|done].
  apply analyze_monthly_kpi_Ok in Hk as [-> ->].
  intros [= Hs <-]. by exists ca, la, c', l'.
Qed.

(** [run] after a successful report: the second round of detector calls
    returns what the first returned, and the rest is lines 255-280. *)
Lemma run_closed e s eg :
  generate_anomaly_report e = (Ok s, eg) ->
  exists ca la,
    fst (detect_cost_anomalies Z_SCORE_THRESHOLD (costs e)) = Ok ca /\
    fst (detect_loan_anomalies Z_SCORE_THRESHOLD (loans e)) = Ok la /\
    summarize ca la empty_frame = Ok s /\
    files eg = files e /\
    run e = save_results s ca la empty_frame eg.
Proof.
  intros Hg.
  destruct (generate_anomaly_report_Ok _ _ _ Hg)
    as (ca & la & c' & l' & H1 & H2 & H3 & Hs & ->).
  exists ca, la. rewrite H1, H2. repeat split; [done|].
  apply (run_after _ _ _ _ _ _ Hg); cbn.
  - by apply (detect_cost_repeatable _ _ _ _ H1).
  - by apply (detect_loan_repeatable _ _ _ _ H2).
  - done.
Qed.

(** Lines 255-280 in closed form, when there are no KPI findings. *)
Lemma save_results_run s ca la e :
  save_results s ca la empty_frame e =
  match top_findings ca cost_columns "Cost" with
  | Raise x => (Raise x, set_files (files e ++ result_files s ca la) e)
  | Ok c =>
      match top_findings la loan_columns "Loan" with
      | Raise x => (Raise x, set_files (files e ++ result_files s ca la) e)
      | Ok l =>
          (Ok s,
           set_files (files e ++ result_files s ca la ++
                        match c ++ l with
                        | [] => []
                        | combined => [("anomalies.csv", concat combined)]
                        end) e)
      end
  end.
Proof.
  unfold save_results, save, save_output, cost_columns, loan_columns.
  replace (bool_decide (0 < len empty_frame)%Z) with false by done.
  unfold mbind, M_bind, get, put, lift, mret, M_ret. cbn.
  destruct (top_findings ca _ _) as [c|x].
  2:{ destruct e. unfold set_files, result_files. cbn.
      by rewrite <- !app_assoc. }
  destruct (top_findings la _ _) as [l|x].
  2:{ destruct e. unfold set_files, result_files. cbn.
      by rewrite <- !app_assoc. }
  destruct (c ++ l) as [|d ds]; destruct e; unfold set_files, result_files;
    cbn.
  all: by rewrite <- ?app_assoc, ?app_nil_r.
Qed.


End RunFacts.

(** ** The combined table *)

Module CombineFacts.
Import Float Pandas Utils UtilsHelpers AnomalyDetection RunAnalytics Props Reading.
Import FloatFacts PandasFacts TimeSeriesFacts CrossSectionFacts RepeatFacts.
Import ReportFacts KpiFacts RunFacts.

Lemma len_pos df : (0 < len df)%Z <-> rows df ≠ [].
Proof.
  unfold len. destruct (rows df); cbn; split; try done; lia.
Qed.

Lemma getitems_Ok df cs :
  Forall (fun c => c ∈ columns df) cs ->
  getitems df cs = Ok (mkDF cs (map (project_row cs) (rows df))).
Proof.
  intros H. unfold getitems.
  assert (filter (fun c => c ∉ columns df) cs = []) as ->; [|done].
  apply elem_of_nil_inv. intros c [Hc Hin]%list_elem_of_filter.
  rewrite Forall_forall in H. by apply Hc, H.
Qed.


Lemma zip_with_set_cell_replicate c v rs :
  zip_with (set_cell c) rs (replicate (length rs) v)
  = map (fun r => set_cell c r v) rs.
Proof. induction rs; cbn; congruence. Qed.

Lemma part_rows cols category anomalies :
  rows (set_const (head 10 (mkDF cols (map (project_row cols) (rows anomalies))))
          "category" (Str category))
  = top_rows cols category anomalies.
Proof.
  unfold set_const, head, set_col. cbn [rows columns].
  rewrite zip_with_set_cell_replicate. unfold top_rows.
  change (map ?f ?l) with (f <$> l).
  by rewrite <- fmap_take, <- list_fmap_compose.
Qed.

Lemma one_if_rows {A B} (l : list A) (x : B) :
  l ≠ [] -> match l with [] => [] | _ => [x] end = [x].
Proof. intros H. destruct l; [done|reflexivity]. Qed.

Lemma top_findings_Ok anomalies cols category :
  Forall (fun c => c ∈ columns anomalies) cols ->
  exists part,
    top_findings anomalies cols category
      = Ok (match rows anomalies with [] => [] | _ => [part] end) /\
    rows part = top_rows cols category anomalies.
Proof.
  intros H. unfold top_findings. rewrite getitems_Ok by done. cbn.
  eexists. split; [|apply part_rows].
  case_bool_decide as Hl.
  - apply len_pos in Hl. by rewrite one_if_rows.
  - rewrite len_pos in Hl. destruct (rows anomalies); [done|].
    exfalso. by apply Hl.
Qed.

Lemma top_findings_inv anomalies cols category l :
  top_findings anomalies cols category = Ok l ->
  exists part,
    l = match rows anomalies with [] => [] | _ => [part] end /\
    rows part = top_rows cols category anomalies.
Proof.
  unfold top_findings. case_bool_decide as Hl.
  - intros (part & Hp & [= <-])%bind_Ok.
    unfold getitems in Hp. destruct (filter _ _); [|done].
    injection Hp as <-. eexists. split; [|apply part_rows].
    apply len_pos in Hl. by rewrite one_if_rows.
  - intros [= <-]. rewrite len_pos in Hl.
    exists (mkDF [] (top_rows cols category anomalies)). split; [|done].
    destruct (rows anomalies) eqn:E; [done|]. exfalso. by apply Hl.
Qed.


(** *** Relabelled rows *)

Lemma relabel_length rs : length (relabel rs) = length rs.
Proof. unfold relabel. by rewrite length_imap. Qed.

Lemma relabel_lookup rs (i : nat) r :
  rs !! i = Some r -> relabel rs !! i = Some (mkRow i (cells r)).
Proof. intros H. unfold relabel. by rewrite list_lookup_imap, H. Qed.

Lemma relabel_labels rs : map label (relabel rs) = seq 0 (length rs).
Proof.
  apply list_eq. intros i. change (map ?f ?l) with (f <$> l).
  rewrite list_lookup_fmap. unfold relabel. rewrite list_lookup_imap.
  destruct (rs !! i) as [r|] eqn:E; cbn.
  - symmetry. apply lookup_seq. split; [done|]. by eapply lookup_lt_Some.
  - symmetry. apply lookup_seq_ge. by apply lookup_ge_None.
Qed.

Lemma relabel_column c rs : map (at_col c) (relabel rs) = map (at_col c) rs.
Proof.
  apply list_eq. intros i. change (map ?f ?l) with (f <$> l).
  rewrite !list_lookup_fmap. unfold relabel. rewrite list_lookup_imap.
  by destruct (rs !! i).
Qed.

(** *** The columns of the rows taken *)

Lemma top_rows_length cols category anomalies :
  length (top_rows cols category anomalies)
  = (length (rows anomalies) `min` 10)%nat.
Proof. unfold top_rows. rewrite length_map, length_take. lia. Qed.

Lemma at_col_project_in cs c r : c ∈ cs -> at_col c (project_row cs r) = at_col c r.
Proof.
  intros Hc. unfold at_col at 1, project_row. cbn.
  induction cs as [|d cs IH]; [by apply elem_of_nil in Hc|]. cbn.
  destruct (decide (c = d)) as [->|Hne]; [done|].
  apply IH. by apply elem_of_cons in Hc as [?|?].
Qed.

Lemma at_col_project_notin cs c r :
  c ∉ cs -> at_col c (project_row cs r) = Num None.
Proof.
  intros Hc. unfold at_col at 1, project_row. cbn.
  induction cs as [|d cs IH]; [done|]. cbn.
  rewrite decide_False by (intros ->; apply Hc; by left).
  apply IH. intros ?. apply Hc. by right.
Qed.

Lemma top_rows_category cols category anomalies :
  map (at_col "category") (top_rows cols category anomalies)
  = replicate (length (rows anomalies) `min` 10)%nat (Str category).
Proof.
  unfold top_rows. rewrite Nat.min_comm, <- length_take.
  induction (take 10 (rows anomalies)) as [|r rs IH]; [done|].
  cbn [map length replicate]. by rewrite at_col_set_cell_eq, IH.
Qed.

Lemma top_rows_column_in cols category anomalies c :
  c ∈ cols -> c ≠ "category" ->
  map (at_col c) (top_rows cols category anomalies)
  = take 10 (map (at_col c) (rows anomalies)).
Proof.
  intros Hc Hne. unfold top_rows. change (map ?f ?l) with (f <$> l).
  rewrite <- fmap_take, <- list_fmap_compose. apply list_fmap_ext.
  intros i r _. unfold compose. rewrite at_col_set_cell_ne by done.
  by apply at_col_project_in.
Qed.

Lemma top_rows_column_notin cols category anomalies c :
  c ∉ cols -> c ≠ "category" ->
  map (at_col c) (top_rows cols category anomalies)
  = replicate (length (rows anomalies) `min` 10)%nat (Num None).
Proof.
  intros Hc Hne. unfold top_rows. rewrite Nat.min_comm, <- length_take.
  induction (take 10 (rows anomalies)) as [|r rs IH]; [done|].
  cbn [map length replicate]. rewrite at_col_set_cell_ne by done.
  by rewrite at_col_project_notin, IH.
Qed.

Lemma parts_rows cols category anomalies l part :
  l = match rows anomalies with [] => [] | _ => [part] end ->
  rows part = top_rows cols category anomalies ->
  List.concat (map rows l) = top_rows cols category anomalies.
Proof.
  intros -> Hp. unfold top_rows in *.
  destruct (rows anomalies); [done|]. cbn [map List.concat].
  by rewrite app_nil_r.
Qed.

(** A successful run, taken apart. *)
Lemma run_Ok e s e' :
  run e = (Ok s, e') ->
  exists ca la c l,
    fst (detect_cost_anomalies Z_SCORE_THRESHOLD (costs e)) = Ok ca /\
    fst (detect_loan_anomalies Z_SCORE_THRESHOLD (loans e)) = Ok la /\
    fst (generate_anomaly_report e) = Ok s /\
    top_findings ca cost_columns "Cost" = Ok c /\
    top_findings la loan_columns "Loan" = Ok l /\
    files e' = files e ++ result_files s ca la ++
                 match c ++ l with
                 | [] => []
                 | combined => [("anomalies.csv", concat combined)]
                 end.
Proof.
  intros Hrun.
  destruct (generate_anomaly_report e) as [[s0|x] eg] eqn:Hg; cycle 1.
  { rewrite (run_raises _ _ _ Hg) in Hrun. done. }
  destruct (run_closed _ _ _ Hg) as (ca & la & H1 & H2 & _ & Hf & Hr).
  rewrite Hr, save_results_run in Hrun.
  destruct (top_findings ca _ _) as [c|x] eqn:Hc; [|done].
  destruct (top_findings la _ _) as [l|x] eqn:Hl; [|done].
  injection Hrun as <- <-. exists ca, la, c, l.
  repeat split; try done. cbn. by rewrite Hf.
Qed.

End CombineFacts.

(** ** The summary *)

Module SummaryFacts.
Import Float Pandas Utils UtilsHelpers AnomalyDetection RunAnalytics Props Reading.
Import FloatFacts PandasFacts TimeSeriesFacts CrossSectionFacts RepeatFacts.
Import ReportFacts KpiFacts RunFacts OrderFacts CombineFacts.

(** The maximum of a list whose head is at least every other entry. *)
Lemma smax_head x0 l :
  is_nan x0 = false -> Forall (fun x => surd_leb x x0 = true) l ->
  smax (x0 :: l) = x0.
Proof.
  intros Hn Hl. unfold smax. cbn [fold_left]. unfold smax_step at 2.
  rewrite Hn. cbn [is_nan].
  induction Hl as [|x l Hx _ IH]; [done|]. cbn [fold_left].
  unfold smax_step at 2. rewrite Hn, Hx. by destruct (is_nan x).
Qed.

Lemma to_surds_rated rs :
  Forall rated rs -> to_surds (map (at_col "severity") rs) = Ok (map severity rs).
Proof.
  intros H. unfold to_surds. apply mapM_Ok_map2.
  eapply Forall_impl; [exact H|]. intros r (Hs & _). by apply as_surd_of.
Qed.

Lemma col_max_top anomalies r0 rest :
  rows anomalies = r0 :: rest ->
  Forall rated (rows anomalies) ->
  StronglySorted by_severity (rows anomalies) ->
  "severity" ∈ columns anomalies ->
  col_max anomalies "severity" = Ok (Root (severity r0)).
Proof.
  intros Hr Hrated Hs Hc. unfold col_max.
  rewrite getitem_in by done. rewrite bind_ret, to_surds_rated by done.
  rewrite bind_ret, Hr in *. cbn [map]. do 2 f_equal.
  apply Forall_cons in Hrated as [(_ & Hn & _) _].
  apply StronglySorted_cons in Hs as [Hs _].
  apply smax_head; [done|]. by apply Forall_fmap.
Qed.

Lemma iloc0_first df c r0 rest x :
  rows df = r0 :: rest -> iloc0 df c = Ok x -> x = at_col c r0.
Proof.
  intros Hr. unfold iloc0. rewrite Hr. case_decide; [|done]. by intros [= <-].
Qed.

(** What a cross-sectional detector returns, for the summary. *)
Lemma detect_cost_result t df out df' :
  detect_cost_anomalies t df = (Ok out, df') ->
  "severity" ∈ columns out /\ Forall rated (rows out) /\
  StronglySorted by_severity (rows out) /\
  Forall (fun r => at_col "severity" r = Root (severity r)) (rows out).
Proof.
  intros H. pose proof (detect_cost_wf _ _ _ _ H) as Hwf.
  apply detect_cost_Ok in H as (-> & _).
  destruct (flagged_frame_sorted cost_scores (cost_label t) t df' Hwf) as [S R].
  split; [apply add_column_elem|]. split; [done|]. split; [done|].
  apply Forall_forall. intros r' (r & _ & _ & ->)%flagged_frame_rows.
  unfold severity. by rewrite decorate_severity.
Qed.

Lemma detect_loan_result t df out df' :
  detect_loan_anomalies t df = (Ok out, df') ->
  "severity" ∈ columns out /\ Forall rated (rows out) /\
  StronglySorted by_severity (rows out) /\
  Forall (fun r => at_col "severity" r = Root (severity r)) (rows out).
Proof.
  intros H. pose proof (detect_loan_wf _ _ _ _ H) as Hwf.
  apply detect_loan_Ok in H as (-> & _).
  destruct (flagged_frame_sorted loan_scores (loan_label t) t df' Hwf) as [S R].
  split; [apply add_column_elem|]. split; [done|]. split; [done|].
  apply Forall_forall. intros r' (r & _ & _ & ->)%flagged_frame_rows.
  unfold severity. by rewrite decorate_severity.
Qed.

(** A summary block on a sorted result. *)
Lemma cost_summary_row_inv ca c :
  cost_summary_row ca = Ok c ->
  match rows ca with
  | [] => c = []
  | r0 :: _ =>
      exists sev tot,
        col_max ca "severity" = Ok sev /\
        c = [summary_row (Str "Costs") (count_cell ca)
               (at_col "business_unit" r0) sev tot]
  end.
Proof.
  unfold cost_summary_row. case_bool_decide as Hl.
  - intros (top & Ht & H)%bind_Ok. apply bind_Ok in H as (sev & Hs & H).
    apply bind_Ok in H as (tot & _ & [= <-]).
    apply len_pos in Hl. destruct (rows ca) as [|r0 rest] eqn:Hr; [done|].
    apply (iloc0_first _ _ _ _ _ Hr) in Ht as ->. eauto.
  - intros [= <-]. rewrite len_pos in Hl.
    destruct (rows ca); [done|]. exfalso. by apply Hl.
Qed.

Lemma loan_summary_row_inv la l :
  loan_summary_row la = Ok l ->
  match rows la with
  | [] => l = []
  | r0 :: _ =>
      exists sev tot,
        col_max la "severity" = Ok sev /\
        l = [summary_row (Str "Loans") (count_cell la)
               (at_col "loan_type" r0) sev tot]
  end.
Proof.
  unfold loan_summary_row. case_bool_decide as Hl.
  - intros (top & Ht & H)%bind_Ok. apply bind_Ok in H as (sev & Hs & H).
    apply bind_Ok in H as (tot & _ & [= <-]).
    apply len_pos in Hl. destruct (rows la) as [|r0 rest] eqn:Hr; [done|].
    apply (iloc0_first _ _ _ _ _ Hr) in Ht as ->. eauto.
  - intros [= <-]. rewrite len_pos in Hl.
    destruct (rows la); [done|]. exfalso. by apply Hl.
Qed.

Lemma summarize_inv ca la s :
  summarize ca la empty_frame = Ok s ->
  exists c l, cost_summary_row ca = Ok c /\ loan_summary_row la = Ok l /\
              s = from_records summary_columns (c ++ l).
Proof.
  unfold summarize. intros (c & Hc & H)%bind_Ok.
  apply bind_Ok in H as (l & Hl & H). cbn in H. injection H as <-.
  exists c, l. by rewrite app_nil_r.
Qed.

End SummaryFacts.

(** ** Well-formed tables *)

Module TotalFacts.
Import Float Pandas Utils UtilsHelpers AnomalyDetection RunAnalytics Props Reading.
Import FloatFacts PandasFacts NumericFacts TimeSeriesFacts CrossSectionFacts.
Import RepeatFacts ReportFacts KpiFacts RunFacts OrderFacts CombineFacts.
Import SummaryFacts.

Lemma numeric_col_getitem df c :
  numeric_col df c = true <-> exists xs, getitem df c = Ok (Num <$> xs).
Proof.
  split.
  - intros (xs & H & _)%numeric_col_read. eauto.
  - intros (xs & [Hc Hx]%getitem_Ok). apply numeric_col_spec. split; [done|].
    apply (Forall_column (fun v => is_num v = true)).
    rewrite <- Hx.
    by apply Forall_fmap, Forall_true.
Qed.

Lemma calculate_z_score_total xs :
  exists z, calculate_z_score (Num <$> xs) = Ok z.
Proof.
  unfold calculate_z_score. rewrite to_nums_Num, bind_ret.
  destruct (surd_eq0 _); eauto.
Qed.

Lemma with_z_score_total dst src df :
  numeric_col df src = true -> exists df', with_z_score dst src df = Ok df'.
Proof.
  intros (xs & Hx)%numeric_col_getitem. unfold with_z_score.
  rewrite Hx, bind_ret.
  destruct (calculate_z_score_total xs) as (z & ->). rewrite bind_ret. eauto.
Qed.

Lemma with_z_score_numeric dst src df df' c :
  with_z_score dst src df = Ok df' -> c ≠ dst ->
  numeric_col df' c = numeric_col df c.
Proof.
  intros H Hc. apply eq_true_iff_eq. rewrite !numeric_col_getitem.
  by rewrite (with_z_score_other _ _ _ _ _ H).
Qed.

Lemma with_z_score_missing dst src df :
  src ∉ columns df -> with_z_score dst src df = Raise (KeyError src).
Proof.
  intros H. unfold with_z_score, getitem. by rewrite decide_False.
Qed.

Lemma detect_cost_total t df :
  numeric_col df "variance_pct" = true ->
  numeric_col df "actual_amount" = true ->
  exists out df', detect_cost_anomalies t df = (Ok out, df').
Proof.
  intros Hv Ha. rewrite detect_cost_run.
  destruct (with_z_score_total "variance_z_score" _ _ Hv) as (df1 & H1).
  rewrite H1.
  rewrite <- (with_z_score_numeric _ _ _ _ _ H1) in Ha by done.
  destruct (with_z_score_total "actual_z_score" _ _ Ha) as (df2 & ->). eauto.
Qed.

Lemma detect_loan_total t df :
  numeric_col df "pd" = true -> numeric_col df "ecl" = true ->
  numeric_col df "ead" = true ->
  exists out df', detect_loan_anomalies t df = (Ok out, df').
Proof.
  intros Hp He Ha. rewrite detect_loan_run.
  destruct (with_z_score_total "pd_z_score" _ _ Hp) as (df1 & H1).
  rewrite H1.
  rewrite <- (with_z_score_numeric _ _ _ _ _ H1) in He by done.
  rewrite <- (with_z_score_numeric _ _ _ _ _ H1) in Ha by done.
  destruct (with_z_score_total "ecl_z_score" _ _ He) as (df2 & H2).
  rewrite H2.
  rewrite <- (with_z_score_numeric _ _ _ _ _ H2) in Ha by done.
  destruct (with_z_score_total "ead_z_score" _ _ Ha) as (df3 & ->). eauto.
Qed.

(** *** The columns of a result *)

Lemma elem_of_add_column c d cs : c ∈ add_column d cs <-> c = d \/ c ∈ cs.
Proof.
  unfold add_column. case_decide.
  - split; [auto|]. by intros [->|].
  - rewrite elem_of_app, list_elem_of_singleton. tauto.
Qed.

Lemma flagged_frame_columns cols lbl t df c :
  c ∈ columns (flagged_frame cols lbl t df) <->
  c = "severity" \/ c = "anomaly_type" \/ c ∈ columns df.
Proof. unfold flagged_frame. cbn. by rewrite !elem_of_add_column. Qed.

Lemma flagged_frame_numeric cols lbl t df c :
  numeric_col df c = true -> c ≠ "severity" -> c ≠ "anomaly_type" ->
  numeric_col (flagged_frame cols lbl t df) c = true.
Proof.
  intros [Hc Hn]%numeric_col_spec H1 H2. apply numeric_col_spec. split.
  - apply flagged_frame_columns. auto.
  - apply Forall_forall. intros r' (r & Hr & _ & ->)%flagged_frame_rows.
    unfold decorate. rewrite !at_col_set_cell_ne by done.
    rewrite Forall_forall in Hn. auto.
Qed.

Lemma col_sum_total df c :
  numeric_col df c = true -> exists tot, col_sum df c = Ok tot.
Proof.
  intros (xs & Hx)%numeric_col_getitem. unfold col_sum.
  rewrite Hx, bind_ret, to_nums_Num, bind_ret. eauto.
Qed.

Lemma col_max_total df :
  "severity" ∈ columns df -> Forall rated (rows df) ->
  exists sev, col_max df "severity" = Ok sev.
Proof.
  intros Hc Hr. unfold col_max.
  rewrite getitem_in, bind_ret, to_surds_rated by done. eauto.
Qed.

Lemma iloc0_total df c :
  rows df ≠ [] -> c ∈ columns df -> exists x, iloc0 df c = Ok x.
Proof.
  intros Hr Hc. unfold iloc0. destruct (rows df); [done|].
  rewrite decide_True by done. eauto.
Qed.

(** What a detector's result keeps of a well-formed table. *)
Lemma detect_cost_keeps t df out df' c :
  detect_cost_anomalies t df = (Ok out, df') ->
  (c ∈ columns df -> c ∈ columns out) /\
  (numeric_col df c = true -> c ∉ ["variance_z_score"; "actual_z_score";
                                   "severity"; "anomaly_type"] ->
   numeric_col out c = true).
Proof.
  intros H. pose proof (detect_cost_extends t df) as (_ & _ & Hcols & _).
  rewrite H in Hcols. cbn [snd] in Hcols.
  apply detect_cost_Ok in H as (-> & df1 & H1 & H2). split.
  - intros Hc. apply flagged_frame_columns. auto.
  - intros Hn Hc. apply flagged_frame_numeric.
    + rewrite (with_z_score_numeric _ _ _ _ _ H2), (with_z_score_numeric _ _ _ _ _ H1);
        [done|intros ->; apply Hc; by_compute..].
    + intros ->. apply Hc. by_compute.
    + intros ->. apply Hc. by_compute.
Qed.

Lemma detect_loan_keeps t df out df' c :
  detect_loan_anomalies t df = (Ok out, df') ->
  (c ∈ columns df -> c ∈ columns out) /\
  (numeric_col df c = true -> c ∉ ["pd_z_score"; "ecl_z_score"; "ead_z_score";
                                   "severity"; "anomaly_type"] ->
   numeric_col out c = true).
Proof.
  intros H. pose proof (detect_loan_extends t df) as (_ & _ & Hcols & _).
  rewrite H in Hcols. cbn [snd] in Hcols.
  apply detect_loan_Ok in H as (-> & df1 & df2 & H1 & H2 & H3). split.
  - intros Hc. apply flagged_frame_columns. auto.
  - intros Hn Hc. apply flagged_frame_numeric.
    + rewrite (with_z_score_numeric _ _ _ _ _ H3),
        (with_z_score_numeric _ _ _ _ _ H2), (with_z_score_numeric _ _ _ _ _ H1);
        [done|intros ->; apply Hc; by_compute..].
    + intros ->. apply Hc. by_compute.
    + intros ->. apply Hc. by_compute.
Qed.

Lemma cost_summary_row_total t df ca df' :
  detect_cost_anomalies t df = (Ok ca, df') ->
  "business_unit" ∈ columns df -> numeric_col df "variance_amount" = true ->
  exists c, cost_summary_row ca = Ok c.
Proof.
  intros H Hb Hn. unfold cost_summary_row.
  case_bool_decide as Hl; [|eauto]. apply len_pos in Hl.
  destruct (detect_cost_result _ _ _ _ H) as (Hsev & Hrated & _).
  destruct (iloc0_total ca "business_unit") as (top & ->);
    [done|by apply (detect_cost_keeps _ _ _ _ _ H)|].
  destruct (col_max_total ca) as (sev & ->); [done..|].
  destruct (col_sum_total ca "variance_amount") as (tot & ->).
  { apply (detect_cost_keeps _ _ _ _ _ H); [done|by_compute]. }
  cbn. eauto.
Qed.

Lemma loan_summary_row_total t df la df' :
  detect_loan_anomalies t df = (Ok la, df') ->
  "loan_type" ∈ columns df -> numeric_col df "ecl" = true ->
  exists l, loan_summary_row la = Ok l.
Proof.
  intros H Hb Hn. unfold loan_summary_row.
  case_bool_decide as Hl; [|eauto]. apply len_pos in Hl.
  destruct (detect_loan_result _ _ _ _ H) as (Hsev & Hrated & _).
  destruct (iloc0_total la "loan_type") as (top & ->);
    [done|by apply (detect_loan_keeps _ _ _ _ _ H)|].
  destruct (col_max_total la) as (sev & ->); [done..|].
  destruct (col_sum_total la "ecl") as (tot & ->).
  { apply (detect_loan_keeps _ _ _ _ _ H); [done|by_compute]. }
  cbn. eauto.
Qed.

Lemma kpi_table_ok_run df :
  kpi_table_ok df = true ->
  analyze_monthly_kpi_anomalies df = (Ok empty_frame, df).
Proof.
  unfold kpi_table_ok. rewrite !andb_true_iff, bool_decide_eq_true.
  intros [[Hm Hs] Hk].
  unfold analyze_monthly_kpi_anomalies, mbind, M_bind.
  rewrite kpi_loop_total; [done..|].
  rewrite forallb_forall in Hk. apply Forall_forall. intros c Hc.
  split.
  - unfold kpi_columns in Hc.
    repeat (apply elem_of_cons in Hc as [->|Hc]; [done|]).
    by apply elem_of_nil in Hc.
  - intros Hin. apply list_elem_of_In, Hk in Hc.
    by rewrite bool_decide_eq_true_2 in Hc.
Qed.

(** On well-formed tables the run returns. *)
Lemma run_total e :
  tables_ok e = true -> exists s e', run e = (Ok s, e').
Proof.
  unfold tables_ok, cost_table_ok, loan_table_ok.
  rewrite !andb_true_iff, !bool_decide_eq_true.
  intros [[((((Cv & Ca) & Cm) & Cb) & Ci) ((((Lp & Le) & La) & Lt) & Li)] Hk].
  destruct (detect_cost_total Z_SCORE_THRESHOLD _ Cv Ca) as (ca & c' & H1).
  destruct (detect_loan_total Z_SCORE_THRESHOLD _ Lp Le La) as (la & l' & H2).
  pose proof (kpi_table_ok_run _ Hk) as H3.
  destruct (cost_summary_row_total _ _ _ _ H1 Cb Cm) as (c & Hc).
  destruct (loan_summary_row_total _ _ _ _ H2 Lt Le) as (l & Hl).
  assert (Hg : exists s eg, generate_anomaly_report e = (Ok s, eg)).
  { rewrite generate_anomaly_report_run, H1, H2, H3.
    unfold summarize. rewrite Hc, Hl. cbn. eauto. }
  destruct Hg as (s & eg & Hg).
  destruct (run_closed _ _ _ Hg) as (ca0 & la0 & E1 & E2 & _ & _ & ->).
  rewrite H1 in E1. rewrite H2 in E2. cbn in E1, E2.
  injection E1 as <-. injection E2 as <-.
  rewrite save_results_run.
  destruct (top_findings_Ok ca cost_columns "Cost") as (pc & -> & _).
  { repeat constructor.
    - by apply (detect_cost_keeps _ _ _ _ _ H1).
    - by apply (detect_cost_keeps _ _ _ _ _ H1).
    - apply detect_cost_Ok in H1 as (-> & _). apply flagged_frame_columns. auto.
    - apply detect_cost_Ok in H1 as (-> & _). apply flagged_frame_columns. auto. }
  destruct (top_findings_Ok la loan_columns "Loan") as (pl & -> & _).
  { repeat constructor.
    - by apply (detect_loan_keeps _ _ _ _ _ H2).
    - by apply (detect_loan_keeps _ _ _ _ _ H2).
    - apply detect_loan_Ok in H2 as (-> & _). apply flagged_frame_columns. auto.
    - apply detect_loan_Ok in H2 as (-> & _). apply flagged_frame_columns. auto. }
  eauto.
Qed.

End TotalFacts.

(** ** How the detectors fail *)

Module FailureFacts.
Import Float Pandas Utils UtilsHelpers AnomalyDetection RunAnalytics Props Reading.
Import FloatFacts PandasFacts CrossSectionFacts TotalFacts.

Lemma mapM_Raise {A B} (f : A -> result B) l e :
  mapM f l = Raise e -> exists x, x ∈ l /\ f x = Raise e.
Proof.
  induction l as [|x l IH]; [done|]. rewrite mapM_cons.
  destruct (f x) as [y|e'] eqn:Hx.
  - destruct (mapM f l) as [k|e'']; [done|]. intros [= ->].
    destruct IH as (x' & Hin & Hx'); [done|]. exists x'. split; [by right|done].
  - intros [= ->]. exists x. split; [by left|done].
Qed.

Lemma mapM_raises {A B} (f : A -> result B) l x e0 :
  (forall y e, f y = Raise e -> e = e0) ->
  x ∈ l -> f x = Raise e0 -> mapM f l = Raise e0.
Proof.
  intros Hf Hin Hx. destruct (mapM f l) as [k|e] eqn:E.
  - apply mapM_Ok in E.
    apply list_elem_of_lookup in Hin as (i & Hi).
    destruct (Forall2_lookup_l _ _ _ _ _ E Hi) as (y & _ & Hy). congruence.
  - apply mapM_Raise in E as (y & _ & Hy). by rewrite (Hf _ _ Hy).
Qed.

Lemma as_num_raises v e : as_num v = Raise e -> e = TypeError.
Proof. destruct v; [done|by intros [= <-]..]. Qed.

(** The score calculator raises only [TypeError]. *)
Lemma calculate_z_score_raises s e :
  calculate_z_score s = Raise e -> e = TypeError.
Proof.
  unfold calculate_z_score. destruct (to_nums s) as [xs|e'] eqn:E.
  - rewrite bind_ret. by destruct (surd_eq0 _).
  - intros [= <-]. apply mapM_Raise in E as (v & _ & Hv).
    by eapply as_num_raises.
Qed.

Lemma calculate_z_score_string s v str :
  v ∈ s -> v = Str str -> calculate_z_score s = Raise TypeError.
Proof.
  intros Hin ->. unfold calculate_z_score, to_nums.
  rewrite (mapM_raises _ _ (Str str) TypeError); [done| |done..].
  apply as_num_raises.
Qed.

(** A scoring line fails with [KeyError] for its source column when the
    table lacks it, and with [TypeError] otherwise. *)
Lemma with_z_score_raises dst src df e :
  with_z_score dst src df = Raise e ->
  ((src ∉ columns df) /\ e = KeyError src) \/ (src ∈ columns df /\ e = TypeError).
Proof.
  unfold with_z_score, getitem. case_decide as Hc.
  - rewrite bind_ret. destruct (calculate_z_score _) as [z|e'] eqn:E; [done|].
    intros [= <-]. right. split; [done|]. by eapply calculate_z_score_raises.
  - intros [= <-]. by left.
Qed.

Lemma with_z_score_string dst src df r str :
  src ∈ columns df -> r ∈ rows df -> at_col src r = Str str ->
  with_z_score dst src df = Raise TypeError.
Proof.
  intros Hc Hr Hs. unfold with_z_score. rewrite getitem_in, bind_ret by done.
  rewrite (calculate_z_score_string _ (Str str) str); [done| |done].
  rewrite <- Hs. change (map ?f ?l) with (f <$> l).
  apply list_elem_of_fmap. eauto.
Qed.

End FailureFacts.

(** ** The checks of [utils.py] *)

Module UtilsFacts.
Import Float Pandas Utils UtilsHelpers AnomalyDetection RunAnalytics Props Reading.
Import FloatFacts PandasFacts CrossSectionFacts TotalFacts FailureFacts.
Local Open Scope Q_scope.

Lemma validate_dataframe_missing df req (c : string) :
  c ∈ (list_to_set req ∖ list_to_set (columns df) : gset string) <->
  c ∈ req /\ c ∉ columns df.
Proof. by rewrite elem_of_difference, !elem_of_list_to_set. Qed.

Lemma validate_dataframe_true df req name :
  validate_dataframe df req name = inl true <->
  Forall (fun c => c ∈ columns df) req.
Proof.
  unfold validate_dataframe. rewrite Forall_forall. case_decide as H; split.
  - intros _ c Hc. destruct (decide (c ∈ columns df)) as [|Hn]; [done|].
    assert (c ∈ (∅ : gset string)) as ?%elem_of_empty; [|done].
    rewrite <- H. by apply (validate_dataframe_missing df req).
  - done.
  - done.
  - intros Hall. exfalso. apply H. apply set_eq. intros c.
    rewrite (validate_dataframe_missing df req), elem_of_empty.
    split; [|done]. intros [Hc Hn]. auto.
Qed.

Lemma validate_detect_cost df name t c :
  validate_dataframe df ["variance_pct"; "actual_amount"] name = inl true ->
  fst (detect_cost_anomalies t df) <> Raise (KeyError c).
Proof.
  intros H%validate_dataframe_true.
  apply Forall_cons in H as [Hv H]. apply Forall_cons in H as [Ha _].
  rewrite detect_cost_run.
  destruct (with_z_score _ _ df) as [df1|e] eqn:H1.
  - destruct (with_z_score _ _ df1) as [df2|e] eqn:H2; [done|].
    apply with_z_score_raises in H2 as [[Hn _]|[_ ->]]; [|done].
    exfalso. apply Hn. by apply (with_z_score_keeps _ _ _ _ _ H1).
  - by apply with_z_score_raises in H1 as [[Hn _]|[_ ->]].
Qed.

Lemma validate_detect_loan df name t c :
  validate_dataframe df ["pd"; "ecl"; "ead"] name = inl true ->
  fst (detect_loan_anomalies t df) <> Raise (KeyError c).
Proof.
  intros H%validate_dataframe_true.
  apply Forall_cons in H as [Hp H]. apply Forall_cons in H as [He H].
  apply Forall_cons in H as [Ha _].
  rewrite detect_loan_run.
  destruct (with_z_score _ _ df) as [df1|e] eqn:H1; cycle 1.
  { by apply with_z_score_raises in H1 as [[Hn _]|[_ ->]]. }
  destruct (with_z_score _ _ df1) as [df2|e] eqn:H2; cycle 1.
  { apply with_z_score_raises in H2 as [[Hn _]|[_ ->]]; [|done].
    exfalso. apply Hn. by apply (with_z_score_keeps _ _ _ _ _ H1). }
  destruct (with_z_score _ _ df2) as [df3|e] eqn:H3; [done|].
  apply with_z_score_raises in H3 as [[Hn _]|[_ ->]]; [|done].
  exfalso. apply Hn. apply (with_z_score_keeps _ _ _ _ _ H2); [done|].
  by apply (with_z_score_keeps _ _ _ _ _ H1).
Qed.

End UtilsFacts.

(** ** Thresholds *)

Module MonotoneFacts.
Import Float Pandas Utils UtilsHelpers AnomalyDetection RunAnalytics Props Reading.
Import FloatFacts PandasFacts CrossSectionFacts.
Local Open Scope Q_scope.

Lemma ssq_mono t t' : t <= t' -> ssq t <= ssq t'.
Proof.
  intros H. unfold ssq.
  destruct (Qlt_le_dec t 0) as [Ht|Ht], (Qlt_le_dec t' 0) as [Ht'|Ht'].
  - rewrite (Qabs_neg t), (Qabs_neg t') by lra. nra.
  - rewrite (Qabs_neg t), (Qabs_pos t') by lra. nra.
  - lra.
  - rewrite (Qabs_pos t), (Qabs_pos t') by lra. nra.
Qed.

(** A value above a threshold is above every lower one. *)
Lemma surd_gtb_anti s t t' :
  wf_surd s -> t <= t' -> surd_gtb s t' = true -> surd_gtb s t = true.
Proof.
  destruct s as [|neg|d v]; cbn; [done..|].
  intros Hv Ht H%Qlt_bool_iff. apply Qlt_bool_iff.
  pose proof (ssq_mono _ _ Ht). nra.
Qed.

Lemma above_anti t t' v :
  wf_surd (surd_of v) -> t <= t' -> above t' v = true -> above t v = true.
Proof.
  intros Hw Ht. destruct v as [x|z|s]; [| |done]; cbn in *;
    rewrite <- !surd_gtb_sabs by done;
    apply surd_gtb_anti; try done; by apply sabs_wf.
Qed.

Lemma flagged_anti cols t t' r :
  wf_scores cols r -> t <= t' ->
  flagged cols t' r = true -> flagged cols t r = true.
Proof.
  intros Hw Ht. unfold flagged. rewrite !existsb_exists.
  intros (c & Hc & Ha). exists c. split; [done|].
  unfold wf_scores in Hw. rewrite Forall_forall in Hw.
  apply (above_anti t t'); [|done..]. by apply Hw, list_elem_of_In.
Qed.

Lemma flagged_frame_anti cols lbl lbl' t t' df :
  Forall (wf_scores cols) (rows df) -> t <= t' ->
  label_set (flagged_frame cols lbl' t' df)
  ⊆ label_set (flagged_frame cols lbl t df).
Proof.
  intros Hw Ht. rewrite !flagged_frame_labels. intros l.
  rewrite !elem_of_flagged_labels. intros (r & Hl & Hr & Hf).
  exists r. split; [done|]. split; [done|].
  rewrite Forall_forall in Hw. by apply (flagged_anti cols t t'); auto.
Qed.

End MonotoneFacts.

(** ** The summary and the files, with KPI findings *)

Module SaveFacts.
Import Float Pandas Utils UtilsHelpers AnomalyDetection RunAnalytics Props Reading.
Import Examples Cases.
Import FloatFacts PandasFacts NumericFacts TimeSeriesFacts CrossSectionFacts.
Import RepeatFacts ReportFacts KpiFacts RunFacts OrderFacts CombineFacts SummaryFacts.

Lemma kpi_summary_row_inv ka k :
  kpi_summary_row ka = Ok k ->
  match rows ka with
  | [] => k = []
  | r0 :: _ =>
      exists sev,
        col_abs_max ka "rolling_z_score" = Ok sev /\
        k = [summary_row (Str "KPIs") (count_cell ka) (at_col "kpi_name" r0)
               sev (Num (Some 0%Q))]
  end.
Proof.
  unfold kpi_summary_row. case_bool_decide as Hl.
  - intros (top & Ht & H)%bind_Ok. apply bind_Ok in H as (sev & Hs & [= <-]).
    apply len_pos in Hl. destruct (rows ka) as [|r0 rest] eqn:Hr; [done|].
    apply (iloc0_first _ _ _ _ _ Hr) in Ht as ->. eauto.
  - intros [= <-]. rewrite len_pos in Hl.
    destruct (rows ka); [done|]. exfalso. by apply Hl.
Qed.

Lemma summarize_parts ca la ka s :
  summarize ca la ka = Ok s ->
  exists c l k, cost_summary_row ca = Ok c /\ loan_summary_row la = Ok l /\
                kpi_summary_row ka = Ok k /\
                s = from_records summary_columns (c ++ l ++ k).
Proof.
  unfold summarize. intros (c & Hc & H)%bind_Ok.
  apply bind_Ok in H as (l & Hl & H). apply bind_Ok in H as (k & Hk & [= <-]).
  by exists c, l, k.
Qed.

(** Lines 255-280 in closed form. *)
Lemma save_results_closed s ca la ka e :
  save_results s ca la ka e =
  let saved := result_files s ca la ++
               (if bool_decide (0 < len ka)%Z
                then [("kpi_anomalies.csv", ka)] else []) in
  match top_findings ca cost_columns "Cost" with
  | Raise x => (Raise x, set_files (files e ++ saved) e)
  | Ok c =>
      match top_findings la loan_columns "Loan" with
      | Raise x => (Raise x, set_files (files e ++ saved) e)
      | Ok l =>
          (Ok s,
           set_files (files e ++ saved ++
                        match c ++ l with
                        | [] => []
                        | combined => [("anomalies.csv", concat combined)]
                        end) e)
      end
  end.
Proof.
  unfold save_results, save, save_output, cost_columns, loan_columns.
  unfold mbind, M_bind, get, put, lift, mret, M_ret. cbn.
  destruct (bool_decide (0 < len ka)%Z);
    (destruct (top_findings ca _ _) as [c|x];
     [|destruct e; unfold set_files, result_files; cbn;
       by rewrite <- ?app_assoc]);
    (destruct (top_findings la _ _) as [l|x];
     [|destruct e; unfold set_files, result_files; cbn;
       by rewrite <- ?app_assoc]);
    destruct (c ++ l) as [|d ds]; destruct e; unfold set_files, result_files;
    cbn; by rewrite <- ?app_assoc, ?app_nil_r.
Qed.

Lemma written_set_files e w : written e (set_files (files e ++ w) e) = w.
Proof. unfold written. cbn. by rewrite drop_app_length. Qed.

End SaveFacts.

(** ** The KPI analysis on doubles *)

Module KpiDoublesFacts.
Import Float Pandas Utils UtilsHelpers AnomalyDetection RunAnalytics Props Reading.
Import Examples Cases.
Import FloatFacts PandasFacts NumericFacts TimeSeriesFacts CrossSectionFacts.
Import RepeatFacts ReportFacts KpiFacts RunFacts OrderFacts CombineFacts SummaryFacts.
Import DoubleCases DoublesFacts.
Import KpiProps.

Lemma double_time_series_state value_col date_col df :
  snd (Doubles.detect_time_series_anomalies value_col date_col df) = df.
Proof. by rewrite double_detect_time_series_run. Qed.

(** Every row the detector returns has a score above the threshold. *)
Lemma double_time_series_rows value_col date_col df out df' :
  Doubles.detect_time_series_anomalies value_col date_col df = (Ok out, df') ->
  Forall (fun r => above Z_SCORE_THRESHOLD (at_col "rolling_z_score" r) = true)
         (rows out).
Proof.
  rewrite double_detect_time_series_run. intros [= H _].
  apply bind_Ok in H as (sorted & _ & H).
  case_bool_decide; [by injection H as <-|].
  apply bind_Ok in H as (scored & _ & [= <-]). cbn [rows].
  apply Forall_forall. intros r [Hr _]%list_elem_of_filter.
  by apply Is_true_true.
Qed.

Lemma double_time_series_no_date value_col date_col df :
  date_col ∉ columns df ->
  Doubles.detect_time_series_anomalies value_col date_col df
  = (Raise (KeyError date_col), df).
Proof.
  intros H. rewrite double_detect_time_series_run. unfold sort_values, getitem.
  by rewrite decide_False.
Qed.

(** One step of the KPI loop. *)
Lemma double_kpi_step_run anomalies col df :
  Doubles.kpi_step anomalies col df =
  if decide (col ∈ columns df) then
    match fst (Doubles.detect_time_series_anomalies col "month" df) with
    | Ok found =>
        if bool_decide (0 < len found)%Z then
          match getitems (set_const found "kpi_name" (Str col))
                  ["month"; "kpi_name"; col; "rolling_z_score"] with
          | Ok part => (Ok (anomalies ++ [part]), df)
          | Raise x => (Raise x, df)
          end
        else (Ok anomalies, df)
    | Raise x => (Raise x, df)
    end
  else (Ok anomalies, df).
Proof.
  unfold Doubles.kpi_step. unfold mbind at 1, M_bind, get.
  case_decide; [|done]. unfold mbind at 1, M_bind.
  pose proof (double_time_series_state col "month" df) as Hs.
  destruct (Doubles.detect_time_series_anomalies col "month" df)
    as [[out|x] df'] eqn:E; cbn in Hs; subst df'; [|done]. cbn [fst].
  case_bool_decide; [|done].
  unfold mbind, M_bind, lift. by destruct (getitems _ _).
Qed.

Local Ltac in_list :=
  repeat first [apply list_elem_of_here | apply list_elem_of_further].

Lemma finding_part df col found part :
  col ∈ kpi_columns -> col ∈ columns df ->
  Forall (fun r => above Z_SCORE_THRESHOLD (at_col "rolling_z_score" r) = true)
         (rows found) ->
  getitems (set_const found "kpi_name" (Str col))
    ["month"; "kpi_name"; col; "rolling_z_score"] = Ok part ->
  Forall (finding df) (rows part).
Proof.
  intros Hk Hc Hf Hp. unfold getitems in Hp.
  destruct (filter _ _); [|done]. injection Hp as <-. cbn [rows].
  rewrite zip_with_set_cell_replicate.
  apply Forall_fmap, Forall_fmap. eapply Forall_impl; [exact Hf|].
  intros r Hr. unfold compose, finding. split.
  - exists col. split; [done|]. split; [done|].
    rewrite at_col_project_in by in_list.
    apply at_col_set_cell_eq.
  - rewrite at_col_project_in by in_list.
    by rewrite at_col_set_cell_ne.
Qed.

Lemma double_kpi_loop_Ok cols anomalies df acc df' :
  Forall (fun c => c ∈ kpi_columns) cols ->
  Forall (fun part => Forall (finding df) (rows part)) anomalies ->
  Doubles.kpi_loop anomalies cols df = (Ok acc, df') ->
  df' = df /\ Forall (fun part => Forall (finding df) (rows part)) acc.
Proof.
  intros Hcols. revert anomalies.
  induction Hcols as [|col cols Hk _ IH]; intros anomalies Hinv.
  - by intros [= <- <-].
  - cbn [Doubles.kpi_loop]. unfold mbind, M_bind. rewrite double_kpi_step_run.
    case_decide as Hc; [|by apply IH].
    destruct (Doubles.detect_time_series_anomalies col "month" df)
      as [[found|x] d] eqn:E; cbn [fst]; [|done].
    case_bool_decide; [|by apply IH].
    destruct (getitems _ _) as [part|x] eqn:Hp; [|done].
    apply IH. apply Forall_app. split; [done|]. constructor; [|done].
    eapply finding_part; eauto. by eapply double_time_series_rows.
Qed.

Lemma double_kpi_loop_state cols anomalies df :
  snd (Doubles.kpi_loop anomalies cols df) = df.
Proof.
  revert anomalies. induction cols as [|col cols IH]; intros anomalies; [done|].
  cbn [Doubles.kpi_loop]. unfold mbind, M_bind. rewrite double_kpi_step_run.
  case_decide; [|apply IH].
  destruct (fst (Doubles.detect_time_series_anomalies col "month" df));
    [|done].
  case_bool_decide; [|apply IH]. destruct (getitems _ _); [apply IH|done].
Qed.

Lemma double_kpi_loop_absent cols anomalies df :
  Forall (fun c => c ∉ columns df) cols ->
  Doubles.kpi_loop anomalies cols df = (Ok anomalies, df).
Proof.
  induction 1 as [|col cols Hc _ IH]; [done|].
  cbn [Doubles.kpi_loop]. unfold mbind, M_bind. rewrite double_kpi_step_run.
  by rewrite decide_False.
Qed.

Lemma double_kpi_loop_no_month cols anomalies df :
  "month" ∉ columns df -> Exists (fun c => c ∈ columns df) cols ->
  Doubles.kpi_loop anomalies cols df = (Raise (KeyError "month"), df).
Proof.
  intros Hm. induction cols as [|col cols IH]; [by intros ?%Exists_nil|].
  intros Hex. cbn [Doubles.kpi_loop]. unfold mbind, M_bind.
  rewrite double_kpi_step_run. case_decide as Hc.
  - by rewrite double_time_series_no_date.
  - apply IH. by apply Exists_cons in Hex as [?|?].
Qed.

Lemma finding_relabel df rs :
  Forall (finding df) rs -> Forall (finding df) (relabel rs).
Proof.
  intros H. apply Forall_forall. intros r Hr.
  apply list_elem_of_lookup in Hr as [i Hi]. unfold relabel in Hi.
  rewrite list_lookup_imap in Hi.
  destruct (rs !! i) as [r0|] eqn:E; [|done]. injection Hi as <-.
  rewrite Forall_forall in H. apply (H r0). by eapply list_elem_of_lookup_2.
Qed.

Lemma analyze_doubles_state df :
  snd (Doubles.analyze_monthly_kpi_anomalies df) = df.
Proof.
  unfold Doubles.analyze_monthly_kpi_anomalies, mbind, M_bind.
  pose proof (double_kpi_loop_state kpi_columns [] df) as H.
  destruct (Doubles.kpi_loop [] kpi_columns df) as [[acc|x] d]; cbn in H;
    subst d; [|done]. by destruct acc.
Qed.

End KpiDoublesFacts.

(** * Further properties *)

Module Behaviour.
Import Float Pandas Utils UtilsHelpers AnomalyDetection RunAnalytics Props Reading.
Import Examples Cases.
Import FloatFacts PandasFacts TimeSeriesFacts CrossSectionFacts RepeatFacts.
Import ReportFacts KpiFacts RunFacts OrderFacts CombineFacts SummaryFacts.
Import TotalFacts FailureFacts UtilsFacts MonotoneFacts.
Import DoubleCases KpiProps KpiCases GapCases.
Import DoublesFacts ScoreDoubles SaveFacts KpiDoublesFacts.

(** X3.  The table a cross-sectional detector returns is ordered by
    severity, the most severe record first: every row is at least as
    severe as every row below it. *)
Theorem result_sorted_by_severity (t : Q) df out df' :
  detect_cost_anomalies t df = (Ok out, df') \/
  detect_loan_anomalies t df = (Ok out, df') ->
  StronglySorted by_severity (rows out).
Proof.
  intros [H|H].
  - by apply detect_cost_result in H as (_ & _ & H & _).
  - by apply detect_loan_result in H as (_ & _ & H & _).
Qed.

Lemma result_sorted_by_severity_witness :
  map (at_col "cost_id") (rows costs5_flagged) = [Str "C4"; Str "C3"] /\
  StronglySorted by_severity (rows costs5_flagged).
Proof.
  split; [vm_compute; reflexivity|].
  apply (result_sorted_by_severity 1 costs5 costs5_flagged costs5_scored).
  left. vm_compute. reflexivity.
Defined.

(** X4.  Raising the threshold can only remove records from a result:
    the records flagged at a threshold are flagged at every lower one.
    The scores left in the caller's table do not depend on the
    threshold. *)
Theorem higher_threshold_flags_fewer (t t' : Q) :
  (t <= t')%Q ->
  (forall df out out' df1 df2,
     detect_cost_anomalies t df = (Ok out, df1) ->
     detect_cost_anomalies t' df = (Ok out', df2) ->
     df2 = df1 /\ label_set out' ⊆ label_set out) /\
  (forall df out out' df1 df2,
     detect_loan_anomalies t df = (Ok out, df1) ->
     detect_loan_anomalies t' df = (Ok out', df2) ->
     df2 = df1 /\ label_set out' ⊆ label_set out).
Proof.
  intros Ht. split.
  - intros df out out' df1 df2 H H'.
    pose proof (detect_cost_wf _ _ _ _ H) as Hwf.
    apply detect_cost_Ok in H as (-> & d1 & H1 & H2).
    apply detect_cost_Ok in H' as (-> & d1' & H1' & H2').
    assert (d1' = d1) as -> by congruence.
    assert (df2 = df1) as -> by congruence.
    split; [done|]. by apply flagged_frame_anti.
  - intros df out out' df1 df2 H H'.
    pose proof (detect_loan_wf _ _ _ _ H) as Hwf.
    apply detect_loan_Ok in H as (-> & d1 & d2 & H1 & H2 & H3).
    apply detect_loan_Ok in H' as (-> & d1' & d2' & H1' & H2' & H3').
    assert (d1' = d1) as -> by congruence.
    assert (d2' = d2) as -> by congruence.
    assert (df2 = df1) as -> by congruence.
    split; [done|]. by apply flagged_frame_anti.
Qed.

Lemma higher_threshold_flags_fewer_witness :
  labels costs5_flagged = [4; 3]%nat /\
  labels costs5_flagged_at_3_2 = [4]%nat /\
  label_set costs5_flagged_at_3_2 ⊆ label_set costs5_flagged.
Proof.
  split; [reflexivity|]. split; [reflexivity|].
  apply (proj1 (higher_threshold_flags_fewer 1 (3 # 2) ltac:(done)) costs5
           costs5_flagged costs5_flagged_at_3_2 costs5_scored costs5_scored);
    vm_compute; reflexivity.
Defined.

(** X5.  How [detect_cost_anomalies] fails.  Without the [variance_pct]
    column it raises [KeyError] and leaves the table as it was; with a text
    in that column it raises [TypeError] and leaves the table as it was;
    with a numeric [variance_pct] column and no [actual_amount] column it
    raises [KeyError] after it has assigned [variance_z_score] to the
    caller's table. *)
Theorem detect_cost_failures (t : Q) df :
  ("variance_pct" ∉ columns df ->
   detect_cost_anomalies t df = (Raise (KeyError "variance_pct"), df)) /\
  (forall r s,
     "variance_pct" ∈ columns df -> r ∈ rows df ->
     at_col "variance_pct" r = Str s ->
     detect_cost_anomalies t df = (Raise TypeError, df)) /\
  (numeric_col df "variance_pct" = true -> "actual_amount" ∉ columns df ->
   exists df1,
     detect_cost_anomalies t df = (Raise (KeyError "actual_amount"), df1) /\
     "variance_z_score" ∈ columns df1 /\
     getitem df1 "variance_z_score"
       = getitem df "variance_pct" ≫= calculate_z_score).
Proof.
  split; [|split].
  - intros H. by rewrite detect_cost_run, with_z_score_missing.
  - intros r s Hc Hr Hs.
    by rewrite detect_cost_run, (with_z_score_string _ _ _ r s).
  - intros Hn Ha. rewrite detect_cost_run.
    destruct (with_z_score_total "variance_z_score" _ _ Hn) as (df1 & H1).
    rewrite H1. exists df1.
    destruct (with_z_score_scored _ _ _ _ H1) as [Hc _].
    rewrite with_z_score_missing; cycle 1.
    { apply with_z_score_Ok in H1 as (z & _ & -> & _).
      rewrite columns_set_col. by intros [?|?]. }
    split; [done|]. split; [done|]. by apply with_z_score_column.
Qed.

Lemma detect_cost_failures_witness :
  fst (detect_cost_anomalies Z_SCORE_THRESHOLD costs_with_text) = Raise TypeError /\
  fst (detect_cost_anomalies Z_SCORE_THRESHOLD costs_without_amount)
    = Raise (KeyError "actual_amount") /\
  "variance_z_score"
    ∈ columns (snd (detect_cost_anomalies Z_SCORE_THRESHOLD costs_without_amount)).
Proof.
  split.
  - rewrite (proj1 (proj2 (detect_cost_failures Z_SCORE_THRESHOLD
                             costs_with_text))
               (mkRow 1 (zip (columns costs_with_text)
                           [Str "C1"; Str "Retail"; q 100; q 10; Str "n/a"]))
               "n/a"); [done|by_compute| |reflexivity].
    vm_compute. apply list_elem_of_further, list_elem_of_here.
  - destruct (proj2 (proj2 (detect_cost_failures Z_SCORE_THRESHOLD
                              costs_without_amount)))
      as (df1 & -> & Hc & _); [reflexivity|by_compute|].
    split; [reflexivity|exact Hc].
Defined.

(** X7.  A record whose value is missing is never flagged on that field:
    its score is NaN, or 0 when the computed deviation of the column is 0,
    and neither exceeds a threshold that is not negative. *)
Theorem missing_value_not_flagged series z (i : nat) (t : Q) :
  Doubles.calculate_z_score series = Ok z ->
  series !! i = Some (Num None) -> (0 <= t)%Q ->
  exists v, z !! i = Some v /\ (v = Root SNaN \/ v = Num (Some 0%Q)) /\
            above t v = false.
Proof.
  unfold Doubles.calculate_z_score. intros (xs & Hxs & H)%bind_Ok Hi Ht.
  destruct (mapM_lookup _ _ _ _ _ Hxs Hi) as (x & Hx & [= <-]).
  destruct (Binary64.eqb _ _); injection H as <-.
  - exists (Num (Some 0%Q)). split.
    + apply lookup_replicate. split; [done|]. by eapply lookup_lt_Some.
    + split; [by right|]. by apply above_zero_cell.
  - exists (Root SNaN). split; [|by split; [left|]].
    change (map ?f ?l) with (f <$> l). by rewrite list_lookup_fmap, Hx.
Qed.

Lemma missing_value_not_flagged_witness :
  exists v,
    scores_with_gap !! 1%nat = Some v /\
    (v = Root SNaN \/ v = Num (Some 0%Q)) /\ above 3 v = false.
Proof.
  apply (missing_value_not_flagged column_with_gap).
  - vm_compute. reflexivity.
  - reflexivity.
  - done.
Defined.

(** X9.  The KPI analysis leaves the KPI table as it was, whatever its
    outcome.  A KPI column that the table lacks is skipped, so a table with
    none of the four columns is accepted even without a [month] column;
    with one of them and no [month] column the analysis raises
    [KeyError].  Every row of a result names a KPI column of the table
    and carries a rolling score that exceeds the threshold in absolute
    value. *)
Theorem kpi_analysis_outcomes df :
  snd (Doubles.analyze_monthly_kpi_anomalies df) = df /\
  ((forall c, c ∈ kpi_columns -> c ∉ columns df) ->
   Doubles.analyze_monthly_kpi_anomalies df = (Ok empty_frame, df)) /\
  ((exists c, c ∈ kpi_columns /\ c ∈ columns df) -> "month" ∉ columns df ->
   Doubles.analyze_monthly_kpi_anomalies df = (Raise (KeyError "month"), df)) /\
  (forall out df', Doubles.analyze_monthly_kpi_anomalies df = (Ok out, df') ->
     Forall (finding df) (rows out)).
Proof.
  split; [apply analyze_doubles_state|]. split; [|split].
  - intros H. unfold Doubles.analyze_monthly_kpi_anomalies, mbind, M_bind.
    rewrite double_kpi_loop_absent; [done|]. by apply Forall_forall.
  - intros (c & Hk & Hc) Hm.
    unfold Doubles.analyze_monthly_kpi_anomalies, mbind, M_bind.
    rewrite double_kpi_loop_no_month; [done..|]. apply Exists_exists. eauto.
  - intros out df'. unfold Doubles.analyze_monthly_kpi_anomalies, mbind, M_bind.
    destruct (Doubles.kpi_loop [] kpi_columns df) as [[acc|x] d] eqn:E; [|done].
    apply double_kpi_loop_Ok in E as [-> Hacc];
      [|by apply Forall_forall|constructor].
    destruct acc as [|p acc]; intros [= <- <-]; [constructor|].
    cbn [rows Pandas.concat]. apply finding_relabel.
    apply Forall_concat, Forall_fmap. exact Hacc.
Qed.

Lemma kpi_analysis_outcomes_witness :
  Doubles.analyze_monthly_kpi_anomalies kpis_without_kpi
    = (Ok empty_frame, kpis_without_kpi) /\
  Doubles.analyze_monthly_kpi_anomalies kpis_without_month
    = (Raise (KeyError "month"), kpis_without_month) /\
  Forall (finding kpi_tiny) (rows kpi_tiny_findings).
Proof.
  split; [|split].
  - apply (proj1 (proj2 (kpi_analysis_outcomes kpis_without_kpi))).
    intros c Hc. unfold kpi_columns in Hc.
    repeat (apply elem_of_cons in Hc as [->|Hc]; [by_compute|]).
    by apply elem_of_nil in Hc.
  - apply (proj1 (proj2 (proj2 (kpi_analysis_outcomes kpis_without_month)))).
    + exists "profit". split; by_compute.
    + by_compute.
  - apply (proj2 (proj2 (proj2 (kpi_analysis_outcomes kpi_tiny)))
             kpi_tiny_findings kpi_tiny).
    vm_compute. reflexivity.
Defined.

(** X10.  The summary built from the three results has one row for each
    category with at least one anomaly, in the order costs, loans, KPIs,
    each with the number of anomalies of that result; the row of the KPIs
    names the KPI of the first finding and has a total of 0.  With no
    anomaly at all the summary is the empty table, which has no
    columns. *)
Theorem summary_rows ca la ka s :
  summarize ca la ka = Ok s ->
  map (fun r => (at_col "category" r, at_col "anomaly_count" r)) (rows s)
    = match rows ca with
      | [] => []
      | _ => [(Str "Costs", Num (Some (inject_Z (len ca))))]
      end ++
      match rows la with
      | [] => []
      | _ => [(Str "Loans", Num (Some (inject_Z (len la))))]
      end ++
      match rows ka with
      | [] => []
      | _ => [(Str "KPIs", Num (Some (inject_Z (len ka))))]
      end /\
  (rows ca = [] -> rows la = [] -> rows ka = [] -> s = empty_frame) /\
  (rows s <> [] -> columns s = summary_columns) /\
  (forall r0 rest, rows ka = r0 :: rest ->
     exists row, last (rows s) = Some row /\
       at_col "category" row = Str "KPIs" /\
       at_col "top_issue" row = at_col "kpi_name" r0 /\
       at_col "total_variance" row = Num (Some 0%Q)).
Proof.
  intros (c & l & k & Hc & Hl & Hk & ->)%summarize_parts.
  apply cost_summary_row_inv in Hc. apply loan_summary_row_inv in Hl.
  apply kpi_summary_row_inv in Hk. unfold count_cell in *.
  destruct (rows ca) as [|c0 crest], (rows la) as [|l0 lrest],
    (rows ka) as [|k0 krest];
    repeat match goal with
           | H : exists _, _ |- _ => destruct H as (? & H)
           | H : _ /\ _ |- _ => destruct H as (_ & H)
           end; subst; cbn;
    (split; [done|]); (split; [done|]); (split; [done|]);
    intros r0 rest [= <- <-]; try done; by eexists.
Qed.

Lemma summary_rows_witness :
  map (fun r => (at_col "category" r, at_col "anomaly_count" r))
      (rows summary_with_kpis)
  = [(Str "Costs", Num (Some 1%Q)); (Str "Loans", Num (Some 1%Q));
     (Str "KPIs", Num (Some 1%Q))].
Proof.
  destruct (summary_rows costs12_flagged loans12_flagged kpi_tiny_findings
              summary_with_kpis) as (H & _); [vm_compute; reflexivity|].
  rewrite H. reflexivity.
Defined.

(** X11.  The summary row of a category names the most severe anomaly of
    that category: [top_issue] is the business unit (the loan type) of the
    first row of the detector's result, [max_severity] is the severity of
    that row, and no other row of the result is more severe. *)
Theorem summary_names_most_severe e s e' :
  generate_anomaly_report e = (Ok s, e') ->
  (forall ca r0 rest,
     fst (detect_cost_anomalies Z_SCORE_THRESHOLD (costs e)) = Ok ca ->
     rows ca = r0 :: rest ->
     Forall (by_severity r0) rest /\
     exists row, row ∈ rows s /\
       at_col "category" row = Str "Costs" /\
       at_col "top_issue" row = at_col "business_unit" r0 /\
       at_col "max_severity" row = at_col "severity" r0) /\
  (forall la r0 rest,
     fst (detect_loan_anomalies Z_SCORE_THRESHOLD (loans e)) = Ok la ->
     rows la = r0 :: rest ->
     Forall (by_severity r0) rest /\
     exists row, row ∈ rows s /\
       at_col "category" row = Str "Loans" /\
       at_col "top_issue" row = at_col "loan_type" r0 /\
       at_col "max_severity" row = at_col "severity" r0).
Proof.
  intros Hg.
  destruct (generate_anomaly_report_Ok _ _ _ Hg)
    as (ca0 & la0 & c' & l' & H1 & H2 & _ & Hs & _).
  apply summarize_inv in Hs as (c & l & Hc & Hl & ->).
  apply cost_summary_row_inv in Hc. apply loan_summary_row_inv in Hl.
  split.
  - intros ca r0 rest Hca Hr. rewrite H1 in Hca. injection Hca as <-.
    destruct (detect_cost_result _ _ _ _ H1) as (Hsev & Hrated & Hsorted & Hcell).
    rewrite Hr in Hc. destruct Hc as (sev & tot & Hmax & ->).
    rewrite (col_max_top _ _ _ Hr Hrated Hsorted Hsev) in Hmax.
    injection Hmax as <-. rewrite Hr in Hsorted, Hcell.
    apply StronglySorted_cons in Hsorted as [Hle _].
    apply Forall_cons in Hcell as [Hcell _].
    split; [done|]. eexists. split; [cbn; left|].
    by rewrite Hcell.
  - intros la r0 rest Hla Hr. rewrite H2 in Hla. injection Hla as <-.
    destruct (detect_loan_result _ _ _ _ H2) as (Hsev & Hrated & Hsorted & Hcell).
    rewrite Hr in Hl. destruct Hl as (sev & tot & Hmax & ->).
    rewrite (col_max_top _ _ _ Hr Hrated Hsorted Hsev) in Hmax.
    injection Hmax as <-. rewrite Hr in Hsorted, Hcell.
    apply StronglySorted_cons in Hsorted as [Hle _].
    apply Forall_cons in Hcell as [Hcell _].
    split; [done|].
    destruct (rows ca0) as [|c0 crest].
    + subst c. eexists. split; [cbn; left|]. by rewrite Hcell.
    + destruct Hc as (csev & ctot & _ & ->).
      eexists. split; [cbn; right; left|]. by rewrite Hcell.
Qed.

Lemma summary_names_most_severe_witness :
  exists row, row ∈ rows summary12 /\
    at_col "category" row = Str "Costs" /\
    at_col "top_issue" row = at_col "business_unit" costs12_top /\
    at_col "max_severity" row = at_col "severity" costs12_top.
Proof.
  destruct (summary_names_most_severe env12 summary12
              (mkEnv (costs env12_after) (loans env12_after)
                 (monthly_kpis env12_after) [])) as [H _].
  { vm_compute. reflexivity. }
  apply (H costs12_flagged costs12_top []); vm_compute; reflexivity.
Defined.

(** X12.  Lines 255-280 of [run] write, after the files that were there,
    the summary, the cost anomalies and the loan anomalies, in this
    order; then [kpi_anomalies.csv] exactly when there is a KPI finding;
    and last [anomalies.csv], when the combined table could be built and
    there is a cost or a loan anomaly.  The value returned is the
    summary. *)
Theorem run_writes s ca la ka e r e' :
  save_results s ca la ka e = (r, e') ->
  take (length (files e)) (files e') = files e /\
  take 3 (written e e') = result_files s ca la /\
  (rows ka <> [] -> written e e' !! 3%nat = Some ("kpi_anomalies.csv", ka)) /\
  map fst (written e e')
    = ["anomalies_summary.csv"; "cost_anomalies.csv"; "loan_anomalies.csv"]
      ++ match rows ka with
         | [] => []
         | _ => ["kpi_anomalies.csv"]
         end
      ++ match r, rows ca, rows la with
         | Raise _, _, _ | Ok _, [], [] => []
         | Ok _, _, _ => ["anomalies.csv"]
         end /\
  (forall s', r = Ok s' -> s' = s).
Proof.
  rewrite save_results_closed. cbv zeta.
  assert (Hk : (if bool_decide (0 < len ka)%Z
                then [("kpi_anomalies.csv", ka)] else [])
               = match rows ka with
                 | [] => []
                 | _ => [("kpi_anomalies.csv", ka)]
                 end).
  { case_bool_decide as Hl.
    - apply len_pos in Hl. by destruct (rows ka).
    - rewrite len_pos in Hl. destruct (rows ka); [done|]. exfalso. by apply Hl. }
  rewrite Hk. clear Hk.
  destruct (top_findings ca _ _) as [c|x] eqn:Hc.
  2:{ intros [= <- <-]. cbn [files set_files].
      rewrite written_set_files, take_app_length.
      split; [done|]. split; [done|].
      split; [by destruct (rows ka)|]. split; [|done].
      by destruct (rows ka). }
  destruct (top_findings la _ _) as [l|x] eqn:Hl.
  2:{ intros [= <- <-]. cbn [files set_files].
      rewrite written_set_files, take_app_length.
      split; [done|]. split; [done|].
      split; [by destruct (rows ka)|]. split; [|done].
      by destruct (rows ka). }
  intros [= <- <-]. cbn [files set_files].
  rewrite written_set_files, take_app_length.
  apply top_findings_inv in Hc as (pc & -> & _).
  apply top_findings_inv in Hl as (pl & -> & _).
  split; [done|]. split; [done|].
  split; [by destruct (rows ka)|]. split; [|by intros s' [= <-]].
  by destruct (rows ka), (rows ca), (rows la).
Qed.

Lemma run_writes_witness :
  map fst (written env_with_kpis
             (snd (save_results summary_with_kpis costs12_flagged
                     loans12_flagged kpi_tiny_findings env_with_kpis)))
  = ["anomalies_summary.csv"; "cost_anomalies.csv"; "loan_anomalies.csv";
     "kpi_anomalies.csv"; "anomalies.csv"].
Proof.
  destruct (run_writes summary_with_kpis costs12_flagged loans12_flagged
              kpi_tiny_findings env_with_kpis (Ok summary_with_kpis)
              (snd (save_results summary_with_kpis costs12_flagged
                      loans12_flagged kpi_tiny_findings env_with_kpis)))
    as (_ & _ & _ & H & _); [vm_compute; reflexivity|].
  rewrite H. reflexivity.
Defined.

(** X13.  The table written as [anomalies.csv] holds the first ten rows of
    the cost result followed by the first ten rows of the loan result,
    which are the most severe ones, numbered from 0.  Each row carries its
    category, its label and its severity; a cost row has no loan
    identifier and a loan row no cost identifier (NaN). *)
Theorem combined_findings e s e' ca la :
  run e = (Ok s, e') ->
  fst (detect_cost_anomalies Z_SCORE_THRESHOLD (costs e)) = Ok ca ->
  fst (detect_loan_anomalies Z_SCORE_THRESHOLD (loans e)) = Ok la ->
  rows ca <> [] \/ rows la <> [] ->
  exists df,
    last (files e') = Some ("anomalies.csv", df) /\
    length (rows df)
      = (length (rows ca) `min` 10 + length (rows la) `min` 10)%nat /\
    map label (rows df) = seq 0 (length (rows df)) /\
    map (at_col "category") (rows df)
      = replicate (length (rows ca) `min` 10) (Str "Cost")
        ++ replicate (length (rows la) `min` 10) (Str "Loan") /\
    (forall c, c = "anomaly_type" \/ c = "severity" ->
       map (at_col c) (rows df)
       = take 10 (map (at_col c) (rows ca))
         ++ take 10 (map (at_col c) (rows la))) /\
    map (at_col "cost_id") (rows df)
      = take 10 (map (at_col "cost_id") (rows ca))
        ++ replicate (length (rows la) `min` 10) (Num None) /\
    map (at_col "loan_id") (rows df)
      = replicate (length (rows ca) `min` 10) (Num None)
        ++ take 10 (map (at_col "loan_id") (rows la)).
Proof.
  intros (ca0 & la0 & c & l & H1 & H2 & _ & Hc & Hl & Hf)%run_Ok Hca Hla Hany.
  assert (ca0 = ca) as -> by congruence.
  assert (la0 = la) as -> by congruence.
  apply top_findings_inv in Hc as (pc & Hc & Hpc).
  apply top_findings_inv in Hl as (pl & Hl & Hpl).
  assert (Hne : c ++ l <> []).
  { subst c l. destruct Hany as [H|H];
      destruct (rows ca), (rows la); done. }
  exists (concat (c ++ l)). split.
  { rewrite Hf. destruct (c ++ l) eqn:E; [done|].
    by rewrite !app_assoc, last_snoc. }
  assert (Hrows : rows (concat (c ++ l))
                  = relabel (top_rows cost_columns "Cost" ca
                             ++ top_rows loan_columns "Loan" la)).
  { unfold concat. cbn [rows]. rewrite map_app, concat_app.
    by rewrite (parts_rows _ _ _ _ _ Hc Hpc), (parts_rows _ _ _ _ _ Hl Hpl). }
  rewrite Hrows, relabel_length, relabel_labels, !relabel_column.
  rewrite length_app, !top_rows_length.
  split; [done|]. split; [done|].
  split; [by rewrite map_app, !top_rows_category|]. split; [|split].
  - intros col [-> | ->]; rewrite relabel_column, map_app;
      rewrite !top_rows_column_in by by_compute; done.
  - rewrite map_app. rewrite top_rows_column_in by by_compute.
    by rewrite top_rows_column_notin by by_compute.
  - rewrite map_app. rewrite top_rows_column_notin by by_compute.
    by rewrite top_rows_column_in by by_compute.
Qed.

Lemma combined_findings_witness :
  exists df,
    last (files env12_after) = Some ("anomalies.csv", df) /\
    map (at_col "category") (rows df) = [Str "Cost"; Str "Loan"].
Proof.
  destruct (combined_findings env12 summary12 env12_after costs12_flagged
              loans12_flagged) as (df & Hl & _ & _ & Hc & _).
  - vm_compute. reflexivity.
  - vm_compute. reflexivity.
  - vm_compute. reflexivity.
  - left. intros E. vm_compute in E. discriminate E.
  - exists df. split; [exact Hl|exact Hc].
Defined.



(** X15.  On well-formed tables the run returns and the exit status is 0:
    the cost and loan tables have the columns that are read, with numbers
    in the watched columns and in the column that is summed; the KPI table
    has orderable months and numbers in the KPI columns it has. *)
Theorem well_formed_run_succeeds e :
  tables_ok e = true ->
  exists s e', run e = (Ok s, e') /\ RunAnalytics.main (Ok e) = 0%Z.
Proof.
  intros (s & e' & H)%run_total. exists s, e'. split; [done|].
  unfold main. by rewrite H.
Qed.

Lemma well_formed_run_succeeds_witness :
  exists s e', run env12 = (Ok s, e') /\ RunAnalytics.main (Ok env12) = 0%Z.
Proof. apply well_formed_run_succeeds. vm_compute. reflexivity. Defined.

(** X16.  [calculate_variance] never raises: the division is guarded
    against a zero budget of either sign, for which the percentage is 0
    whatever the actual value is.  The amount is the difference of the two
    doubles; for any other budget, NaN included, the percentage is the
    IEEE quotient of the amount by the budget, which may be an infinity
    or NaN. *)
Theorem calculate_variance_guarded (actual budget : Binary64.float) :
  exists v,
    Variance.calculate_variance actual budget = inl v /\
    Variance.variance_amount v = Binary64.sub actual budget /\
    (Binary64.eqb budget Binary64.zero = true ->
     Variance.variance_pct v = Binary64.zero) /\
    (Binary64.eqb budget Binary64.zero = false ->
     Variance.variance_pct v
       = Binary64.div (Binary64.sub actual budget) budget).
Proof.
  unfold Variance.calculate_variance, Variance.float_ne0, Variance.float_div.
  destruct (Binary64.eqb budget Binary64.zero) eqn:Hb; cbn [negb].
  - eexists. split; [done|]. by repeat split.
  - eexists. split; [done|]. by repeat split.
Qed.

(** A budget of 0 gives the percentage 0; the actual value [1e308] over
    the budget [1e-308] gives the percentage [+inf]. *)
Lemma calculate_variance_guarded_witness :
  (exists v,
     Variance.calculate_variance (Binary64.of_Q 120) Binary64.zero = inl v /\
     Variance.variance_amount v = Binary64.of_Q 120 /\
     Variance.variance_pct v = Binary64.zero) /\
  (exists v,
     Variance.calculate_variance (Binary64.of_Q (10 ^ 308))
       (Binary64.of_Q (1 # 10 ^ 308)) = inl v /\
     Variance.variance_pct v = SpecFloat.S754_infinity false).
Proof.
  split.
  - destruct (calculate_variance_guarded (Binary64.of_Q 120) Binary64.zero)
      as (v & Hv & Ha & Hz & _).
    exists v. split; [exact Hv|]. split; [exact Ha|]. by apply Hz.
  - destruct (calculate_variance_guarded (Binary64.of_Q (10 ^ 308))
                (Binary64.of_Q (1 # 10 ^ 308))) as (v & Hv & _ & _ & Hd).
    exists v. split; [exact Hv|]. rewrite Hd by (vm_compute; reflexivity).
    vm_compute. reflexivity.
Defined.

(** X17.  [validate_dataframe] returns [True] exactly when the table has
    every required column, and otherwise raises [ValueError] with the name
    it was given and the set of the required columns that are missing.  A
    table it accepts for the watched columns never makes the detector of
    its category raise [KeyError]. *)
Theorem validate_dataframe_outcomes df (required_columns : list string) name :
  (validate_dataframe df required_columns name = inl true <->
   forall c, c ∈ required_columns -> c ∈ columns df) /\
  (forall r, validate_dataframe df required_columns name = inl r -> r = true) /\
  (forall e, validate_dataframe df required_columns name = inr e ->
     exists missing : gset string,
       e = ValueError name missing /\ (exists c, c ∈ missing) /\
       forall c, c ∈ missing <-> c ∈ required_columns /\ c ∉ columns df) /\
  (validate_dataframe df ["variance_pct"; "actual_amount"] name = inl true ->
   forall t c, fst (detect_cost_anomalies t df) <> Raise (KeyError c)) /\
  (validate_dataframe df ["pd"; "ecl"; "ead"] name = inl true ->
   forall t c, fst (detect_loan_anomalies t df) <> Raise (KeyError c)).
Proof.
  split; [|split; [|split; [|split]]].
  - by rewrite validate_dataframe_true, Forall_forall.
  - unfold validate_dataframe. intros r. case_decide; [|done]. by intros [= <-].
  - unfold validate_dataframe. intros e. case_decide as H; [done|].
    intros [= <-]. eexists. split; [done|]. split.
    + by apply set_choose_L.
    + intros c. apply validate_dataframe_missing.
  - intros H t c. by apply (validate_detect_cost df name).
  - intros H t c. by apply (validate_detect_loan df name).
Qed.

Lemma validate_dataframe_outcomes_witness :
  validate_dataframe loans_without_pd ["pd"; "ecl"; "ead"] "loans"
    = inr (ValueError "loans" {["pd"]}) /\
  forall t c, fst (detect_cost_anomalies t costs12) <> Raise (KeyError c).
Proof.
  split.
  - destruct (validate_dataframe loans_without_pd ["pd"; "ecl"; "ead"] "loans")
      as [r|e] eqn:E; [vm_compute in E; discriminate E|].
    apply (proj1 (proj2 (proj2 (validate_dataframe_outcomes loans_without_pd
                                  ["pd"; "ecl"; "ead"] "loans")))) in E
      as (missing & -> & _ & Hm).
    do 2 f_equal. apply set_eq. intros c. rewrite Hm, elem_of_singleton. split.
    + intros [Hc Hn].
      repeat (apply elem_of_cons in Hc as [->|Hc];
              [done || (exfalso; apply Hn; by_compute)|]).
      by apply elem_of_nil in Hc.
    + intros ->. split; by_compute.
  - apply (proj1 (proj2 (proj2 (proj2 (validate_dataframe_outcomes costs12
                                         ["variance_pct"; "actual_amount"]
                                         "costs"))))).
    vm_compute. reflexivity.
Defined.

(** X18.  How [detect_time_series_anomalies] fails on a missing column.
    Without the date column it raises [KeyError] for it, whatever else
    the table holds.  With orderable dates and at least three points, and
    without the value column, it raises [KeyError] for the value column.
    The caller's table is as it was. *)
Theorem detect_time_series_failures value_col date_col df :
  (date_col ∉ columns df ->
   detect_time_series_anomalies value_col date_col df
   = (Raise (KeyError date_col), df)) /\
  (date_col ∈ columns df ->
   sortable (map (at_col date_col) (rows df)) = true ->
   (3 <= len df)%Z -> value_col ∉ columns df ->
   detect_time_series_anomalies value_col date_col df
   = (Raise (KeyError value_col), df)).
Proof.
  split; [apply detect_time_series_no_date|].
  intros Hd Hs Hn Hv. rewrite detect_time_series_run.
  unfold sort_values. rewrite getitem_in, bind_ret, Hs, bind_ret by done.
  rewrite bool_decide_eq_false_2; cycle 1.
  { unfold window_size, len. cbn [rows].
    rewrite merge_sort_Permutation. unfold len in Hn. lia. }
  unfold add_rolling, getitem. cbn [columns]. by rewrite decide_False.
Qed.

Lemma detect_time_series_failures_witness :
  detect_time_series_anomalies "profit" "month" kpis_without_month
    = (Raise (KeyError "month"), kpis_without_month) /\
  detect_time_series_anomalies "revenue" "period" kpis_without_month
    = (Raise (KeyError "revenue"), kpis_without_month).
Proof.
  split.
  - apply (proj1 (detect_time_series_failures "profit" "month"
                    kpis_without_month)). by_compute.
  - apply (proj2 (detect_time_series_failures "revenue" "period"
                    kpis_without_month)).
    + by_compute.
    + reflexivity.
    + vm_compute. discriminate.
    + by_compute.
Defined.

End Behaviour.
